(** * gerar_relatorio.py: a shallow embedding of the benchmark pipeline

    The script generates a synthetic sales dataset as a directory of Parquet
    partitions, writes one sample table in three storage formats (Parquet,
    CSV, a DuckDB database file), times three fixed SQL queries against each
    artifact and renders a notebook.

    The embedding follows the script function by function:
    - [gerar_dados], [medir_gravacao], [executar_queries] and [main] are
      written in a state-and-exception monad [M] over a [World] made of the
      output directory, the number of clock readings taken so far and the
      chronological trace of the library calls performed;
    - the external libraries are interfaces (type classes): Python floats
      ([PyFloat]), the Faker generator ([Faker]), the file formats of
      pandas/pyarrow/DuckDB ([Storage]), the DuckDB query engine ([Engine])
      and the host ([Host]: wall clock and directory listing order);
    - the module constants [N_LINHAS] and [CHUNK] are the fields of [Config],
      whose instance [source_config] carries the values of the script;
    - the rows the variables [rows] and [df] of the generation loop reference
      are followed statement by statement by [loop_locals].

    Console output ([print], tqdm) and the rendering of the notebook cells are
    not modelled; serialisation of a frame is taken to succeed, and the only
    failures modelled are those decided by the state of the paths involved,
    by the engine, or by the control flow of the script itself. *)

From Stdlib Require Import ZArith String Ascii List Lia Decimal DecimalString DecimalNat.
From stdpp Require Import base option gmap strings list fin_maps.

#[local] Open Scope string_scope.
#[local] Open Scope list_scope.
#[local] Open Scope Z_scope.

(** ** External interfaces *)

(** Python floats: the operations the script applies to them. *)
Class PyFloat := {
  float : Type;
  of_int : Z -> float;                 (* implicit int -> float conversion *)
  fmul : float -> float -> float;      (* x * y *)
  fdiv : float -> float -> float;      (* x / y *)
  fsub : float -> float -> float;      (* x - y *)
  round_nd : float -> Z -> float       (* round(x, ndigits) *)
}.

Record date := mkDate { year : Z; month : Z; day : Z }.

(** The Faker generator, as a state-passing pseudo-random source. *)
Class Faker := {
  rng : Type;
  seed : Z -> rng;                                     (* Faker.seed(s) *)
  random_int : Z -> Z -> rng -> Z * rng;               (* fake.random_int(a, b) *)
  random_number : Z -> rng -> Z * rng;                 (* fake.random_number(digits=d) *)
  random_element : list string -> rng -> string * rng; (* fake.random_element(elements=..) *)
  uuid4 : rng -> string * rng;
  date_this_decade : rng -> date * rng;
  company : rng -> string * rng;
  name : rng -> string * rng;
  city : rng -> string * rng;
  state_abbr : rng -> string * rng
}.

(** ** Data model *)

Section DataModel.
Context `{PyFloat}.

Inductive cell :=
| CStr (s : string)
| CInt (n : Z)
| CFloat (x : float)
| CDate (d : date).

(** A pandas DataFrame: column labels and the rows in index order. *)
Record DataFrame := mkDataFrame { columns : list string; rows : list (list cell) }.

Definition n_rows (df : DataFrame) : nat := length (rows df).

(** [df[col]] at one row: the cell under the column label. *)
Fixpoint field_of (cols : list string) (r : list cell) (col : string) : option cell :=
  match cols, r with
  | c :: cols', x :: r' => if String.eqb c col then Some x else field_of cols' r' col
  | _, _ => None
  end.

End DataModel.

Arguments cell {_}.
Arguments DataFrame {_}.

(** The file formats: what pandas, pyarrow and DuckDB put in a file. *)
Class Storage `{PyFloat} := {
  blob : Type;                                   (* contents of a regular file *)
  st_size : blob -> Z;                           (* os.stat(..).st_size *)
  st_size_nonneg : forall b, 0 <= st_size b;
  to_parquet_blob : DataFrame -> blob;           (* df.to_parquet(.., index=False) *)
  read_parquet_blob : blob -> option DataFrame;  (* pd.read_parquet *)
  read_to_parquet : forall df, read_parquet_blob (to_parquet_blob df) = Some df;
  to_csv_blob : DataFrame -> blob;               (* df.to_csv(.., index=False) *)
  empty_db : blob;                               (* a database file just created *)
  create_table_blob : blob -> string -> DataFrame -> option blob;
    (* the database file after CREATE TABLE t AS SELECT * FROM df, when it succeeds *)
  create_table_fresh : forall t df, is_Some (create_table_blob empty_db t df)
}.

(** An aggregation query of the script: GROUP BY one column, one aggregate,
    ORDER BY the aggregate DESC, LIMIT. *)
Inductive aggregate := SUM | AVG.

Record query := mkQuery {
  q_from : string;
  q_group_by : string;
  q_agg : aggregate;
  q_arg : string;
  q_alias : string;
  q_limit : Z
}.

Section EngineInterface.
Context `{Storage}.

(** What a query scans, as found on disk when it runs. *)
Inductive relation :=
| ParquetScan (files : gmap string blob)   (* read_parquet('dir/*.parquet') *)
| CsvScan (file : blob)                    (* read_csv_auto('file') *)
| TableScan (db : blob) (table : string).  (* a table of an attached database *)

End EngineInterface.

(** The DuckDB engine: whether a file opens as a database, whether a view
    over a relation can be created, and whether a query over a relation runs
    to completion. *)
Class Engine `{Storage} := {
  valid_db : blob -> bool;               (* the file opens as a database *)
  bind_ok : relation -> bool;
  select_ok : relation -> query -> bool
}.

(** The host: the wall clock, as the sequence of its successive readings,
    and the order in which a directory is listed. *)
Class Host `{PyFloat} := {
  wall_clock : nat -> float;                           (* time.time() *)
  listdir : forall {A : Type}, gmap string A -> list string;
  listdir_spec : forall (A : Type) (d : gmap string A) (n : string),
    n ∈ listdir d <-> is_Some (d !! n);
  listdir_NoDup : forall (A : Type) (d : gmap string A), NoDup (listdir d);
  dir_st_size : Z                                      (* st_size of a directory *)
}.

(** The configuration constants of the script. *)
Class Config := { N_LINHAS : Z; CHUNK : Z }.

Definition source_config : Config := {| N_LINHAS := 1000000; CHUNK := 250000 |}.

(** ** Paths and file names *)

(** A path is the list of its components below the output directory
    [Path("dados").resolve()]. *)
Definition path := list string.

Definition path_div (p : path) (n : string) : path := p ++ [n].
Infix "//" := path_div (at level 40, left associativity).

Definition OUT_DIR : path := [].
Definition PARQUET_DIR : path := OUT_DIR // "vendas.parquet".
Definition CSV_FILE : path := OUT_DIR // "vendas.csv".
Definition DUCKDB_FILE : path := OUT_DIR // "vendas.duckdb".

Fixpoint zeros (n : nat) : string :=
  match n with O => "" | S n' => String "0" (zeros n') end.

Definition str_of_nat (n : nat) : string := NilEmpty.string_of_uint (Nat.to_uint n).

(** [f"{n:0{width}d}"]: decimal digits, padded with zeros on the left up to
    [width] characters, never truncated. *)
Definition zero_pad (width : nat) (n : nat) : string :=
  let s := str_of_nat n in zeros (width - String.length s) +:+ s.

(** [f"part_{part:05d}.parquet"] *)
Definition part_name (part : nat) : string :=
  "part_" +:+ zero_pad 5 part +:+ ".parquet".

Fixpoint ends_with (suffix s : string) : bool :=
  String.eqb suffix s ||
  match s with
  | EmptyString => false
  | String _ s' => ends_with suffix s'
  end.

(** The two shapes of glob pattern the script uses: a literal name, or [*]
    followed by a literal suffix. *)
Definition fnmatch (pattern name : string) : bool :=
  match pattern with
  | String "*" suffix => ends_with suffix name
  | _ => String.eqb pattern name
  end.

(** [str.upper] on ASCII letters. *)
Definition upper_ascii (c : ascii) : ascii :=
  let n := nat_of_ascii c in
  if ((97 <=? n) && (n <=? 122))%nat then ascii_of_nat (n - 32) else c.

Fixpoint upper (s : string) : string :=
  match s with
  | EmptyString => EmptyString
  | String c s' => String (upper_ascii c) (upper s')
  end.

(** ** Numbers printed with a fixed number of decimals *)

(** [mantissa * 10^-places]: the value of [round(x, places)] when [x] is
    known exactly. *)
Record decimal := mkDecimal { mantissa : Z; places : Z }.

(** Nearest integer to [num / den] ([0 < den]), ties to even. *)
Definition round_half_even (num den : Z) : Z :=
  let q := num / den in
  let r := num mod den in
  if 2 * r <? den then q
  else if den <? 2 * r then q + 1
  else if Z.even q then q else q + 1.

(** [round(num / den, places)] for integers [num] and [den]: CPython rounds
    the exact value of the quotient to the nearest multiple of
    [10^-places], ties to even, and returns the float nearest to it.  The
    quotient [size/1024/1024] is exact in binary floating point, so the
    reported size is determined by this decimal. *)
Definition round_ratio (num den : Z) (places : Z) : decimal :=
  mkDecimal (round_half_even (num * 10 ^ places) den) places.

Definition decimal_pos (d : decimal) : Prop := 0 < mantissa d.

(** ** The three queries *)

(** [QUERIES]: a dict literal, kept in insertion order. *)
Definition QUERIES : list (string * query) :=
  [ ("vendas_por_loja",
      mkQuery "vendas" "loja" SUM "total" "total_loja" 10);
    ("ticket_medio_cliente",
      mkQuery "vendas" "cliente" AVG "total" "ticket_medio" 10);
    ("produto_top_qtd",
      mkQuery "vendas" "produto" SUM "quantidade" "qtd" 10) ].

(** [d[k] = v] on a dict kept in insertion order: an existing key keeps its
    position, a new key goes last. *)
Fixpoint dict_set {V : Type} (d : list (string * V)) (k : string) (v : V) : list (string * V) :=
  match d with
  | [] => [(k, v)]
  | (k', v') :: d' => if String.eqb k' k then (k, v) :: d' else (k', v') :: dict_set d' k v
  end.

Definition dict_keys {V : Type} (d : list (string * V)) : list string := map fst d.

(** ** The world: file system, clock, trace *)

Inductive exn :=
| StopIteration
| UnboundLocalError (var : string)
| FileNotFoundError (p : path)
| FileExistsError (p : path)
| NotADirectoryError (p : path)
| IsADirectoryError (p : path)
| OSError (p : path)               (* plain OSError: pandas cannot save into [p] *)
| ArrowInvalid (p : path)          (* pyarrow: the file is not a Parquet file *)
| DuckDBError.                     (* duckdb.Error: IO, catalog or binder error *)

Inductive outcome (A : Type) :=
| Returned (a : A)
| Raised (e : exn)
| OutOfFuel.                       (* a loop still running when the fuel ran out *)

Arguments Returned {A} a.
Arguments Raised {A} e.
Arguments OutOfFuel {A}.

Section World.
Context {PF : PyFloat} {ST : Storage}.

(** An entry of the output directory: a regular file, or a directory of
    regular files (the only shape the script creates). *)
Inductive node :=
| File (b : blob)
| Dir (members : gmap string blob).

(** One measurement record: the dict appended to [formatos]. *)
Record Measurement := mkMeasurement {
  Formato : string;
  Write_s : float;
  Size_MB : decimal;
  query_s : list (string * float)   (* the entries [f"{q}_s": t] *)
}.

(** SQL statements passed to [con.execute]. *)
Inductive stmt :=
| CreateTableAs (table : string) (df : DataFrame)
    (* CREATE TABLE t AS SELECT * FROM df *)
| CreateViewParquet (view : string) (dir : path) (pattern : string)
    (* CREATE VIEW v AS SELECT * FROM read_parquet('dir/pattern') *)
| CreateViewCsv (view : string) (file : path)
    (* CREATE VIEW v AS SELECT * FROM read_csv_auto('file') *)
| Attach (file : path) (alias : string)      (* ATTACH 'file' AS alias *)
| Use (alias : string)                       (* USE alias *)
| Select (q : query).

(** The library calls the script performs, as logged in the trace. *)
Inductive event :=
| EvTime                                     (* time.time() *)
| EvExists (p : path)                        (* p.exists() *)
| EvIsDir (p : path)                         (* p.is_dir() *)
| EvMkdir (p : path)                         (* p.mkdir(..) *)
| EvRmtree (p : path)                        (* shutil.rmtree(p) *)
| EvUnlink (p : path)                        (* p.unlink() *)
| EvGlob (p : path) (pattern : string)       (* p.glob(pattern) *)
| EvRglob (p : path) (pattern : string)      (* p.rglob(pattern) *)
| EvStat (p : path)                          (* p.stat() *)
| EvToParquet (df : DataFrame) (p : path)    (* df.to_parquet(p, index=False) *)
| EvToCsv (df : DataFrame) (p : path)        (* df.to_csv(p, index=False) *)
| EvReadParquet (p : path)                   (* pd.read_parquet(p) *)
| EvConnect (db : option path)               (* duckdb.connect(..) *)
| EvExecute (s : stmt)                       (* con.execute(..) *)
| EvFetchall                                 (* .fetchall() *)
| EvClose                                    (* con.close() *)
| EvWriteNotebook (records : list Measurement). (* nbformat.write(nb, f) *)

Record World := mkWorld {
  out_dir : option (gmap string node);  (* [None]: the directory is absent *)
  ticks : nat;                          (* clock readings taken so far *)
  trace : list event                    (* oldest call first *)
}.

Definition set_out_dir (o : option (gmap string node)) (w : World) : World :=
  mkWorld o (ticks w) (trace w).

(** *** The monad *)

Definition M (A : Type) : Type := World -> outcome A * World.

Definition ret {A} (a : A) : M A := fun w => (Returned a, w).

Definition bind {A B} (m : M A) (k : A -> M B) : M B :=
  fun w =>
    match m w with
    | (Returned a, w') => k a w'
    | (Raised e, w') => (Raised e, w')
    | (OutOfFuel, w') => (OutOfFuel, w')
    end.

Definition raise {A} (e : exn) : M A := fun w => (Raised e, w).

Definition out_of_fuel {A} : M A := fun w => (OutOfFuel, w).

Definition log (e : event) : M unit :=
  fun w => (Returned tt, mkWorld (out_dir w) (ticks w) (trace w ++ [e])).

Definition get_fs : M (option (gmap string node)) := fun w => (Returned (out_dir w), w).

Definition put_fs (o : option (gmap string node)) : M unit :=
  fun w => (Returned tt, set_out_dir o w).

End World.

Declare Scope py_scope.
Notation "x ← y ; z" := (bind y (fun x => z)) (only parsing) : py_scope.
Notation "' x ← y ; z" := (bind y (fun x => z)) (only parsing) : py_scope.
Notation "x ;; z" := (bind x (fun _ => z)) (only parsing) : py_scope.
#[local] Open Scope py_scope.

(** ** Library calls *)

Section Primitives.
Context {PF : PyFloat} {ST : Storage} {EN : Engine} {HO : Host}.

Inductive stat_result :=
| IsFile (b : blob)
| IsDirectory.

(** What is at a path.  Paths longer than two components name nothing:
    the members of a directory entry are regular files. *)
Definition fs_stat (fs : option (gmap string node)) (p : path) : option stat_result :=
  match fs with
  | None => None
  | Some top =>
    match p with
    | [] => Some IsDirectory
    | [e] =>
      match top !! e with
      | Some (File b) => Some (IsFile b)
      | Some (Dir _) => Some IsDirectory
      | None => None
      end
    | [d; n] =>
      match top !! d with
      | Some (Dir m) => IsFile <$> m !! n
      | _ => None
      end
    | _ => None
    end
  end.

(** [p.mkdir(parents=.., exist_ok=..)] for the output directory and its
    entries; the parent of the output directory is taken to exist. *)
Definition fs_mkdir (parents exist_ok : bool) (p : path)
    (fs : option (gmap string node)) : exn + option (gmap string node) :=
  match p with
  | [] =>
    match fs with
    | None => inr (Some ∅)
    | Some _ => if exist_ok then inr fs else inl (FileExistsError p)
    end
  | [e] =>
    match fs with
    | None => if parents then inr (Some {[ e := Dir ∅ ]}) else inl (FileNotFoundError p)
    | Some top =>
      match top !! e with
      | None => inr (Some (<[ e := Dir ∅ ]> top))
      | Some (Dir _) => if exist_ok then inr fs else inl (FileExistsError p)
      | Some (File _) => inl (FileExistsError p)
      end
    end
  | _ => inl (NotADirectoryError p)
  end.

(** [shutil.rmtree(p)] *)
Definition fs_rmtree (p : path) (fs : option (gmap string node))
    : exn + option (gmap string node) :=
  match fs_stat fs p, p, fs with
  | None, _, _ => inl (FileNotFoundError p)
  | Some (IsFile _), _, _ => inl (NotADirectoryError p)
  | Some IsDirectory, [e], Some top => inr (Some (delete e top))
  | Some IsDirectory, _, _ => inr None
  end.

(** [p.unlink()] *)
Definition fs_unlink (p : path) (fs : option (gmap string node))
    : exn + option (gmap string node) :=
  match fs_stat fs p, p, fs with
  | None, _, _ => inl (FileNotFoundError p)
  | Some IsDirectory, _, _ => inl (IsADirectoryError p)
  | Some (IsFile _), [e], Some top => inr (Some (delete e top))
  | Some (IsFile _), [d; n], Some top =>
    match top !! d with
    | Some (Dir m) => inr (Some (<[ d := Dir (delete n m) ]> top))
    | _ => inr fs
    end
  | Some (IsFile _), _, _ => inr fs
  end.

(** Creating or overwriting the regular file at [p] with contents [b]. *)
Definition fs_write (p : path) (b : blob) (fs : option (gmap string node))
    : exn + option (gmap string node) :=
  match fs with
  | None => inl (FileNotFoundError p)
  | Some top =>
    match p with
    | [] => inl (IsADirectoryError p)
    | [e] =>
      match top !! e with
      | Some (Dir _) => inl (IsADirectoryError p)
      | _ => inr (Some (<[ e := File b ]> top))
      end
    | [d; n] =>
      match top !! d with
      | Some (Dir m) => inr (Some (<[ d := Dir (<[ n := b ]> m) ]> top))
      | Some (File _) => inl (NotADirectoryError p)
      | None => inl (FileNotFoundError p)
      end
    | _ => inl (FileNotFoundError p)
    end
  end.

(** [Path(p).parent] *)
Definition parent (p : path) : path := removelast p.

(** Saving a frame with pandas: [get_handle] first checks the parent
    ([check_parent_directory]) and raises a plain [OSError], "Cannot save
    file into a non-existent directory", unless it is a directory; the file
    is then opened for writing. *)
Definition fs_save (p : path) (b : blob) (fs : option (gmap string node))
    : exn + option (gmap string node) :=
  match fs_stat fs (parent p) with
  | Some IsDirectory => fs_write p b fs
  | _ => inl (OSError (parent p))
  end.

(** The entries of the directory at [p] whose name matches [pattern], in
    listing order; nothing when [p] is not a directory. *)
Definition fs_glob (p : path) (pattern : string) (fs : option (gmap string node))
    : list path :=
  match fs, p with
  | Some top, [] =>
    map (path_div p) (filter (fun n => fnmatch pattern n = true) (listdir top))
  | Some top, [e] =>
    match top !! e with
    | Some (Dir m) =>
      map (path_div p) (filter (fun n => fnmatch pattern n = true) (listdir m))
    | _ => []
    end
  | _, _ => []
  end.

(** The same, recursively. *)
Definition fs_rglob (p : path) (pattern : string) (fs : option (gmap string node))
    : list path :=
  match fs, p with
  | Some top, [] =>
    flat_map (fun e =>
        (if fnmatch pattern e then [[e]] else []) ++ fs_glob [e] pattern fs)
      (listdir top)
  | _, _ => fs_glob p pattern fs
  end.

(** Running a file-system update inside the monad. *)
Definition update_fs (f : option (gmap string node) -> exn + option (gmap string node))
    : M unit :=
  fun w =>
    match f (out_dir w) with
    | inl e => (Raised e, w)
    | inr fs' => (Returned tt, set_out_dir fs' w)
    end.

Definition time_time : M float :=
  fun w => (Returned (wall_clock (ticks w)),
            mkWorld (out_dir w) (S (ticks w)) (trace w ++ [EvTime])).

Definition path_exists (p : path) : M bool :=
  log (EvExists p);;
  fs ← get_fs;
  ret (match fs_stat fs p with Some _ => true | None => false end).

Definition is_dir (p : path) : M bool :=
  log (EvIsDir p);;
  fs ← get_fs;
  ret (match fs_stat fs p with Some IsDirectory => true | _ => false end).

Definition mkdir (p : path) (parents exist_ok : bool) : M unit :=
  log (EvMkdir p);; update_fs (fs_mkdir parents exist_ok p).

Definition rmtree (p : path) : M unit :=
  log (EvRmtree p);; update_fs (fs_rmtree p).

Definition unlink (p : path) : M unit :=
  log (EvUnlink p);; update_fs (fs_unlink p).

Definition glob (p : path) (pattern : string) : M (list path) :=
  log (EvGlob p pattern);; fs ← get_fs; ret (fs_glob p pattern fs).

Definition rglob (p : path) (pattern : string) : M (list path) :=
  log (EvRglob p pattern);; fs ← get_fs; ret (fs_rglob p pattern fs).

Definition stat_st_size (p : path) : M Z :=
  log (EvStat p);;
  fs ← get_fs;
  match fs_stat fs p with
  | Some (IsFile b) => ret (st_size b)
  | Some IsDirectory => ret dir_st_size
  | None => raise (FileNotFoundError p)
  end.

Definition to_parquet (df : DataFrame) (p : path) : M unit :=
  log (EvToParquet df p);; update_fs (fs_save p (to_parquet_blob df)).

Definition to_csv (df : DataFrame) (p : path) : M unit :=
  log (EvToCsv df p);; update_fs (fs_save p (to_csv_blob df)).

(** [pd.read_parquet(p)] on a regular file, the only use the script makes
    of it (pandas would read a directory as a dataset). *)
Definition read_parquet (p : path) : M DataFrame :=
  log (EvReadParquet p);;
  fs ← get_fs;
  match fs_stat fs p with
  | Some (IsFile b) =>
    match read_parquet_blob b with
    | Some df => ret df
    | None => raise (ArrowInvalid p)
    end
  | Some IsDirectory => raise (IsADirectoryError p)
  | None => raise (FileNotFoundError p)
  end.

(** [next(it)] *)
Definition next {A} (it : list A) : M A :=
  match it with
  | x :: _ => ret x
  | [] => raise StopIteration
  end.

(** Reading a local variable that may not have been assigned. *)
Definition local_var {A} (var : string) (v : option A) : M A :=
  match v with
  | Some x => ret x
  | None => raise (UnboundLocalError var)
  end.

Fixpoint mapM_ {A B} (f : A -> M B) (l : list A) : M (list B) :=
  match l with
  | [] => ret []
  | x :: l' => y ← f x; ys ← mapM_ f l'; ret (y :: ys)
  end.

Fixpoint foldM {A S} (f : S -> A -> M S) (s : S) (l : list A) : M S :=
  match l with
  | [] => ret s
  | x :: l' => s' ← f s x; foldM f s' l'
  end.

(** [sum(xs)] *)
Definition sum (xs : list Z) : Z := fold_left Z.add xs 0.

End Primitives.

(** ** A DuckDB connection *)

Section DuckDB.
Context {PF : PyFloat} {ST : Storage} {EN : Engine} {HO : Host}.

Inductive view_def :=
| ViewParquet (dir : path) (pattern : string)
| ViewCsv (file : path).

(** The session state the script relies on.  Tables created in an
    in-memory database are not tracked: the script creates none. *)
Record connection := mkConnection {
  database : option path;          (* [None]: ":memory:" *)
  views : gmap string view_def;
  attached : gmap string path;
  current : option string          (* the alias selected by USE *)
}.

Definition set_views (v : gmap string view_def) (con : connection) : connection :=
  mkConnection (database con) v (attached con) (current con).
Definition set_attached (a : gmap string path) (con : connection) : connection :=
  mkConnection (database con) (views con) a (current con).
Definition set_current (c : option string) (con : connection) : connection :=
  mkConnection (database con) (views con) (attached con) c.

(** The Parquet files a glob over a directory entry selects. *)
Definition parquet_files (dir : path) (pattern : string)
    (fs : option (gmap string node)) : gmap string blob :=
  match fs, dir with
  | Some top, [e] =>
    match top !! e with
    | Some (Dir m) => filter (fun kv => fnmatch pattern kv.1 = true) m
    | _ => ∅
    end
  | _, _ => ∅
  end.

Definition table_scan (fs : option (gmap string node)) (file : path) (t : string)
    : option relation :=
  match fs_stat fs file with
  | Some (IsFile b) => Some (TableScan b t)
  | _ => None
  end.

(** What the name [t] denotes for the connection, given the files on disk. *)
Definition resolve (con : connection) (fs : option (gmap string node)) (t : string)
    : option relation :=
  match current con with
  | Some alias =>
    match attached con !! alias with
    | Some file => table_scan fs file t
    | None => None
    end
  | None =>
    match views con !! t with
    | Some (ViewParquet dir pattern) => Some (ParquetScan (parquet_files dir pattern fs))
    | Some (ViewCsv file) =>
      match fs_stat fs file with
      | Some (IsFile b) => Some (CsvScan b)
      | _ => None
      end
    | None =>
      match database con with
      | Some file => table_scan fs file t
      | None => None
      end
    end
  end.

(** The database file a CREATE TABLE writes to, if any. *)
Definition target_db (con : connection) : option path :=
  match current con with
  | Some alias => attached con !! alias
  | None => database con
  end.

(** A write performed by the engine: failures surface as [duckdb.Error]. *)
Definition db_write (p : path) (b : blob) : M unit :=
  fun w =>
    match fs_write p b (out_dir w) with
    | inl _ => (Raised DuckDBError, w)
    | inr fs' => (Returned tt, set_out_dir fs' w)
    end.

(** Opening the database file at [p]: created empty when absent. *)
Definition db_open (p : path) : M unit :=
  fs ← get_fs;
  match fs_stat fs p with
  | None => db_write p empty_db
  | Some (IsFile b) => if valid_db b then ret tt else raise DuckDBError
  | Some IsDirectory => raise DuckDBError
  end.

(** [duckdb.connect(database)] *)
Definition duckdb_connect (db : option path) : M connection :=
  log (EvConnect db);;
  match db with
  | None => ret (mkConnection None ∅ ∅ None)
  | Some p => db_open p;; ret (mkConnection (Some p) ∅ ∅ None)
  end.

(** [con.execute(stmt)]; the connection is returned, as DuckDB does. *)
Definition con_execute (con : connection) (s : stmt) : M connection :=
  log (EvExecute s);;
  match s with
  | CreateTableAs t df =>
    match target_db con with
    | None => ret con
    | Some p =>
      fs ← get_fs;
      match fs_stat fs p with
      | Some (IsFile b) =>
        match create_table_blob b t df with
        | Some b' => db_write p b';; ret con
        | None => raise DuckDBError
        end
      | _ => raise DuckDBError
      end
    end
  | CreateViewParquet v dir pattern =>
    fs ← get_fs;
    if bind_ok (ParquetScan (parquet_files dir pattern fs))
    then ret (set_views (<[ v := ViewParquet dir pattern ]> (views con)) con)
    else raise DuckDBError
  | CreateViewCsv v file =>
    fs ← get_fs;
    match fs_stat fs file with
    | Some (IsFile b) =>
      if bind_ok (CsvScan b)
      then ret (set_views (<[ v := ViewCsv file ]> (views con)) con)
      else raise DuckDBError
    | _ => raise DuckDBError
    end
  | Attach file alias =>
    db_open file;;
    ret (set_attached (<[ alias := file ]> (attached con)) con)
  | Use alias =>
    match attached con !! alias with
    | Some _ => ret (set_current (Some alias) con)
    | None => raise DuckDBError
    end
  | Select q =>
    fs ← get_fs;
    match resolve con fs (q_from q) with
    | Some rel => if select_ok rel q then ret con else raise DuckDBError
    | None => raise DuckDBError
    end
  end.

Definition fetchall : M unit := log EvFetchall.

Definition con_close (con : connection) : M unit := log EvClose.

End DuckDB.

(** ** The script *)

Section Script.
Context {PF : PyFloat} {ST : Storage} {EN : Engine} {HO : Host} {FK : Faker} {CF : Config}.

Definition COLUMNS : list string :=
  [ "id_transacao"; "data"; "loja"; "produto"; "quantidade";
    "preco_unitario"; "total"; "cliente"; "cidade"; "estado" ].

Definition PRODUTOS : list string := [ "Console"; "Jogo"; "Funko"; "Controle"; "Headset" ].

(** One pass of the body of [for _ in range(n)]: the draws are made in
    Python's evaluation order, [qtde] and [preco] before the list display. *)
Definition gen_row (g : rng) : list cell * rng :=
  let '(qtde, g) := random_int 1 6 g in
  let '(k, g) := random_number 4 g in
  let preco := round_nd (fdiv (of_int k) (of_int 100)) 2 in
  let '(id_transacao, g) := uuid4 g in
  let '(data, g) := date_this_decade g in
  let '(loja, g) := company g in
  let '(produto, g) := random_element PRODUTOS g in
  let '(cliente, g) := name g in
  let '(cidade, g) := city g in
  let '(estado, g) := state_abbr g in
  ([ CStr id_transacao; CDate data; CStr loja; CStr produto;
     CInt qtde; CFloat preco; CFloat (round_nd (fmul (of_int qtde) preco) 2);
     CStr cliente; CStr cidade; CStr estado ], g).

(** [rows = []; for _ in range(n): rows.append(..)] *)
Fixpoint gen_rows (n : nat) (g : rng) : list (list cell) * rng :=
  match n with
  | O => ([], g)
  | S n' =>
    let '(r, g) := gen_row g in
    let '(rs, g) := gen_rows n' g in
    (r :: rs, g)
  end.

(** [while linhas_rest > 0: ..] *)
Fixpoint gerar_loop (fuel : nat) (linhas_rest : Z) (part : nat) (g : rng) : M unit :=
  match fuel with
  | O => out_of_fuel
  | S fuel' =>
    if 0 <? linhas_rest then
      let n := Z.min CHUNK linhas_rest in
      let '(rows, g') := gen_rows (Z.to_nat n) g in
      let df := mkDataFrame COLUMNS rows in
      to_parquet df (PARQUET_DIR // part_name part);;
      gerar_loop fuel' (linhas_rest - n) (S part) g'
    else ret tt
  end.

Definition gerar_dados (fuel : nat) : M unit :=
  b ← path_exists PARQUET_DIR;
  if b then ret tt
  else
    let fake := seed 42 in
    mkdir PARQUET_DIR true true;;
    gerar_loop fuel N_LINHAS 0 fake.

(** *** The variables of the loop that hold rows

    [rows] and [df] are local variables of [gerar_dados].  [rows] is bound
    to a new list at the start of each pass and [df] is rebound only when
    the frame of the pass is built, so the frame of the previous pass stays
    bound while the list is filled again.  Each row carries its rank in the
    order of generation, which tells the rows of the list from those of an
    earlier frame. *)
Record locals := mkLocals {
  rows_var : list (nat * list cell);          (* [rows] *)
  df_var : option (list (nat * list cell))    (* the rows of [df]; [None]: not assigned yet *)
}.

(** The rows the two variables reference, by rank. *)
Definition ranks (s : locals) : gset nat :=
  list_to_set (rows_var s).*1 ∪ list_to_set (default [] (df_var s)).*1.

(** How many rows they hold at once: a row in both the list and the frame
    built from it counts once. *)
Definition rows_held (s : locals) : nat := size (ranks s).

(** [for _ in range(n): .. rows.append([..])]: the variables after each
    append, then the variables and the generator when the loop ends. *)
Fixpoint fill_rows (n : nat) (g : rng) (rank : nat) (s : locals)
    : list locals * (locals * rng) :=
  match n with
  | O => ([], (s, g))
  | S n' =>
    let '(r, g) := gen_row g in
    let s := mkLocals (rows_var s ++ [(rank, r)]) (df_var s) in
    let '(snaps, end_) := fill_rows n' g (S rank) s in
    (s :: snaps, end_)
  end.

(** The variables after each statement of [while linhas_rest > 0: ..] that
    binds or extends them: [rows = []], every [rows.append(..)], and
    [df = pd.DataFrame(rows, ..)]; [rank] counts the rows generated so
    far. *)
Fixpoint loop_locals (fuel : nat) (linhas_rest : Z) (g : rng) (rank : nat) (s : locals)
    : list locals :=
  match fuel with
  | O => []
  | S fuel' =>
    if 0 <? linhas_rest then
      let n := Z.min CHUNK linhas_rest in
      let s0 := mkLocals [] (df_var s) in
      let '(snaps, (s1, g')) := fill_rows (Z.to_nat n) g rank s0 in
      let s2 := mkLocals (rows_var s1) (Some (rows_var s1)) in
      s0 :: snaps ++ s2 :: loop_locals fuel' (linhas_rest - n) g' (rank + Z.to_nat n) s2
    else []
  end.

Definition medir_gravacao (df : DataFrame) (fmt : string) : M (float * decimal) :=
  start ← time_time;
  path ←
    (if String.eqb fmt "parquet" then
       b ← path_exists PARQUET_DIR;
       (if b then rmtree PARQUET_DIR else ret tt);;
       mkdir PARQUET_DIR false false;;
       to_parquet df (PARQUET_DIR // "part_00000.parquet");;
       ret (Some PARQUET_DIR)
     else if String.eqb fmt "csv" then
       to_csv df CSV_FILE;;
       ret (Some CSV_FILE)
     else if String.eqb fmt "duckdb" then
       b ← path_exists DUCKDB_FILE;
       (if b then unlink DUCKDB_FILE else ret tt);;
       con ← duckdb_connect (Some DUCKDB_FILE);
       con ← con_execute con (CreateTableAs "vendas" df);
       con_close con;;
       ret (Some DUCKDB_FILE)
     else ret None);
  now ← time_time;
  let dur := round_nd (fsub now start) 3 in
  path ← local_var "path" path;
  d ← is_dir path;
  size ←
    (if d then
       fs ← rglob path "*";
       sizes ← mapM_ stat_st_size fs;
       ret (sum sizes)
     else stat_st_size path);
  ret (dur, round_ratio size (1024 * 1024) 1).

(** The body of [for nome, sql in QUERIES.items()]. *)
Definition time_query (con : connection) (tempos : list (string * float))
    (item : string * query) : M (list (string * float)) :=
  let '(nome, sql) := item in
  ini ← time_time;
  con_execute con (Select sql);;
  fetchall;;
  fim ← time_time;
  ret (dict_set tempos nome (round_nd (fsub fim ini) 3)).

Definition executar_queries (fmt : string) : M (list (string * float)) :=
  con ← duckdb_connect None;
  con ←
    (if String.eqb fmt "parquet" then
       con_execute con (CreateViewParquet "vendas" PARQUET_DIR "*.parquet")
     else if String.eqb fmt "csv" then
       con_execute con (CreateViewCsv "vendas" CSV_FILE)
     else
       con ← con_execute con (Attach DUCKDB_FILE "db");
       con_execute con (Use "db"));
  tempos ← foldM (time_query con) [] QUERIES;
  con_close con;;
  ret tempos.

Definition FORMATOS : list string := [ "parquet"; "csv"; "duckdb" ].

(** The body of [for fmt in ["parquet","csv","duckdb"]]. *)
Definition measure_format (df_sample : DataFrame) (formatos : list Measurement)
    (fmt : string) : M (list Measurement) :=
  '(t_write, size_mb) ←
    medir_gravacao (if negb (String.eqb fmt "parquet") then df_sample else df_sample) fmt;
  tempos_q ← executar_queries fmt;
  ret (formatos ++
         [ mkMeasurement (upper fmt) t_write size_mb
             (map (fun '(q, t) => (q +:+ "_s", t)) tempos_q) ]).

Definition main (fuel : nat) : M (list Measurement) :=
  mkdir OUT_DIR false true;;
  gerar_dados fuel;;
  parts ← glob PARQUET_DIR "*.parquet";
  first ← next parts;
  df_sample ← read_parquet first;
  formatos ← foldM (measure_format df_sample) [] FORMATOS;
  log (EvWriteNotebook formatos);;
  ret formatos.

End Script.

(** ** Vocabulary of the properties *)

Section Vocabulary.
Context {PF : PyFloat} {ST : Storage} {EN : Engine} {HO : Host} {FK : Faker} {CF : Config}.

(** The calls a computation adds to the trace when run from [w]. *)
Definition events_of {A} (m : M A) (w : World) : list event :=
  drop (length (trace w)) (trace (m w).2).

(** The path each format is stored at, with the dispatch of
    [executar_queries]: anything that is neither parquet nor csv is taken
    to be the database. *)
Definition artifact_path (fmt : string) : path :=
  if String.eqb fmt "parquet" then PARQUET_DIR
  else if String.eqb fmt "csv" then CSV_FILE
  else DUCKDB_FILE.

Definition entry_name (fmt : string) : string :=
  if String.eqb fmt "parquet" then "vendas.parquet"
  else if String.eqb fmt "csv" then "vendas.csv"
  else "vendas.duckdb".

(** The database file [medir_gravacao] leaves for a frame. *)
Definition db_blob (df : DataFrame) : blob :=
  default empty_db (create_table_blob empty_db "vendas" df).

(** What [medir_gravacao] leaves at the path of the format. *)
Definition artifact_node (fmt : string) (df : DataFrame) : node :=
  if String.eqb fmt "parquet" then Dir {[ "part_00000.parquet" := to_parquet_blob df ]}
  else if String.eqb fmt "csv" then File (to_csv_blob df)
  else File (db_blob df).

(** The bytes it occupies. *)
Definition artifact_size (fmt : string) (df : DataFrame) : Z :=
  if String.eqb fmt "parquet" then st_size (to_parquet_blob df)
  else if String.eqb fmt "csv" then st_size (to_csv_blob df)
  else st_size (db_blob df).

(** The rounded difference of two successive clock readings, the first
    being reading number [t]. *)
Definition duration_at (t : nat) : float :=
  round_nd (fsub (wall_clock (S t)) (wall_clock t)) 3.

Definition duration (w : World) : float := duration_at (ticks w).

(** The calls of the write of one format, between the two clock readings;
    [present] tells whether something was stored at the path before. *)
Definition write_calls (fmt : string) (df : DataFrame) (present : bool) : list event :=
  if String.eqb fmt "parquet" then
    EvExists PARQUET_DIR :: (if present then [EvRmtree PARQUET_DIR] else []) ++
    [ EvMkdir PARQUET_DIR; EvToParquet df (PARQUET_DIR // "part_00000.parquet") ]
  else if String.eqb fmt "csv" then
    [ EvToCsv df CSV_FILE ]
  else
    EvExists DUCKDB_FILE :: (if present then [EvUnlink DUCKDB_FILE] else []) ++
    [ EvConnect (Some DUCKDB_FILE); EvExecute (CreateTableAs "vendas" df); EvClose ].

(** The calls of the size computation. *)
Definition size_calls (fmt : string) : list event :=
  if String.eqb fmt "parquet" then
    [ EvIsDir PARQUET_DIR; EvRglob PARQUET_DIR "*"; EvStat (PARQUET_DIR // "part_00000.parquet") ]
  else [ EvIsDir (artifact_path fmt); EvStat (artifact_path fmt) ].

(** A call that takes part in replacing the artifact of a format: probing
    its path, removing what was there, creating the directory or opening the
    database there, and writing the frame to it. *)
Definition is_write_call (fmt : string) (e : event) : bool :=
  match e with
  | EvExists p | EvRmtree p | EvMkdir p | EvUnlink p | EvToCsv _ p
  | EvConnect (Some p) => bool_decide (p = artifact_path fmt)
  | EvToParquet _ p => bool_decide (p = artifact_path fmt // "part_00000.parquet")
  | EvExecute (CreateTableAs _ _) | EvClose => true
  | _ => false
  end.

(** A call of the size computation. *)
Definition is_size_call (e : event) : bool :=
  match e with
  | EvIsDir _ | EvRglob _ _ | EvStat _ => true
  | _ => false
  end.

(** The call that persists the frame in a format. *)
Definition format_write (fmt : string) (df : DataFrame) : event :=
  if String.eqb fmt "parquet" then EvToParquet df (PARQUET_DIR // "part_00000.parquet")
  else if String.eqb fmt "csv" then EvToCsv df CSV_FILE
  else EvExecute (CreateTableAs "vendas" df).

(** A call that persists a frame in one of the three formats. *)
Definition is_format_write (e : event) : bool :=
  match e with
  | EvToParquet _ _ | EvToCsv _ _ | EvExecute (CreateTableAs _ _) => true
  | _ => false
  end.

(** The calls of [executar_queries] when nothing fails. *)
Definition setup_calls (fmt : string) : list event :=
  EvConnect None ::
  (if String.eqb fmt "parquet" then
     [ EvExecute (CreateViewParquet "vendas" PARQUET_DIR "*.parquet") ]
   else if String.eqb fmt "csv" then
     [ EvExecute (CreateViewCsv "vendas" CSV_FILE) ]
   else [ EvExecute (Attach DUCKDB_FILE "db"); EvExecute (Use "db") ]).

Definition loop_calls (qs : list (string * query)) : list event :=
  flat_map (fun '(_, q) => [ EvTime; EvExecute (Select q); EvFetchall; EvTime ]) qs.

Definition query_calls (fmt : string) : list event :=
  setup_calls fmt ++ loop_calls QUERIES ++ [ EvClose ].

(** The keys of a dict after [d[k] = ..]. *)
Definition add_key (ks : list string) (k : string) : list string :=
  if existsb (fun k' => String.eqb k' k) ks then ks else ks ++ [k].

(** The queries run, in the order of the trace. *)
Definition selects (l : list event) : list query :=
  omap (fun e => match e with EvExecute (Select q) => Some q | _ => None end) l.

(** The relation the queries of a format scan, when the artifact can be
    opened. *)
Definition artifact_relation (fmt : string) (fs : option (gmap string node))
    : option relation :=
  if String.eqb fmt "parquet" then
    Some (ParquetScan (parquet_files PARQUET_DIR "*.parquet" fs))
  else if String.eqb fmt "csv" then
    match fs_stat fs CSV_FILE with
    | Some (IsFile b) => Some (CsvScan b)
    | _ => None
    end
  else
    match fs_stat fs DUCKDB_FILE with
    | Some (IsFile b) => Some (TableScan b "vendas")
    | _ => None
    end.

(** The session can be set up on it. *)
Definition setup_ok (rel : relation) : bool :=
  match rel with
  | TableScan b _ => valid_db b
  | _ => bind_ok rel
  end.

(** A computation that, started where [pre] holds of the output
    directory, leaves the directory as it was and persists no frame. *)
Definition quiet_on {A} (pre : option (gmap string node) -> Prop) (m : M A) : Prop :=
  forall w, pre (out_dir w) ->
    out_dir (m w).2 = out_dir w /\
    exists l, trace (m w).2 = trace w ++ l /\ List.filter is_format_write l = [].

(** The invariant of a generated row. *)
Definition total_invariant (r : list cell) : Prop :=
  exists (qtde : Z) (preco : float),
    field_of COLUMNS r "quantidade" = Some (CInt qtde) /\
    field_of COLUMNS r "preco_unitario" = Some (CFloat preco) /\
    field_of COLUMNS r "total" = Some (CFloat (round_nd (fmul (of_int qtde) preco) 2)).

(** The frames the generation loop builds, one per pass, from the rows
    still to generate and the state of the generator. *)
Fixpoint chunks_of (fuel : nat) (linhas_rest : Z) (g : rng) : list DataFrame :=
  match fuel with
  | O => []
  | S fuel' =>
    if 0 <? linhas_rest then
      let n := Z.min CHUNK linhas_rest in
      let '(rows, g') := gen_rows (Z.to_nat n) g in
      mkDataFrame COLUMNS rows :: chunks_of fuel' (linhas_rest - n) g'
    else []
  end.

(** The directory after the frames are written as consecutive partitions. *)
Fixpoint write_parts (part : nat) (chunks : list DataFrame) (m : gmap string blob)
    : gmap string blob :=
  match chunks with
  | [] => m
  | df :: chunks' => write_parts (S part) chunks' (<[ part_name part := to_parquet_blob df ]> m)
  end.

(** The calls that write them. *)
Fixpoint part_events (part : nat) (chunks : list DataFrame) : list event :=
  match chunks with
  | [] => []
  | df :: chunks' => EvToParquet df (PARQUET_DIR // part_name part) :: part_events (S part) chunks'
  end.

Definition total_rows (chunks : list DataFrame) : Z :=
  foldr (fun df acc => Z.of_nat (n_rows df) + acc) 0 chunks.

(** The fuel that lets the loop finish: one pass per chunk and the last test. *)
Definition enough_fuel (fuel : nat) (linhas : Z) : Prop :=
  (1 <= fuel)%nat /\ linhas <= (Z.of_nat fuel - 1) * CHUNK.

(** What a run of [gerar_dados] that finds the dataset in place leaves:
    the world after one probe of the directory. *)
Definition probed (w : World) : World :=
  mkWorld (out_dir w) (ticks w) (trace w ++ [EvExists PARQUET_DIR]).

(** The members of the Parquet directory, when it is one. *)
Definition dataset (fs : option (gmap string node)) : option (gmap string blob) :=
  match fs with
  | Some top =>
    match top !! "vendas.parquet" with
    | Some (Dir m) => Some m
    | _ => None
    end
  | None => None
  end.

(** The frames written as partitions, in the order of the trace. *)
Definition written_frames (l : list event) : list DataFrame :=
  omap (fun e => match e with EvToParquet df _ => Some df | _ => None end) l.

(** [pd.read_parquet(next(PARQUET_DIR.glob("*.parquet")))], the expression
    [main] loads its sample with. *)
Definition load_sample : M DataFrame :=
  parts ← glob PARQUET_DIR "*.parquet";
  first ← next parts;
  read_parquet first.

(** Whether the write of a format can go through: the output directory is
    there, and what is stored at the path of the format, if anything, is of
    the kind the format replaces (a directory for parquet, a regular file
    for csv and duckdb). *)
Definition can_write (fmt : string) (fs : option (gmap string node)) : bool :=
  match fs with
  | None => false
  | Some top =>
    match top !! entry_name fmt with
    | None => true
    | Some (Dir _) => String.eqb fmt "parquet"
    | Some (File _) => negb (String.eqb fmt "parquet")
    end
  end.

(** The relation the queries scan once a frame is stored in a format. *)
Definition written_relation (fmt : string) (df : DataFrame) : relation :=
  if String.eqb fmt "parquet" then
    ParquetScan {[ "part_00000.parquet" := to_parquet_blob df ]}
  else if String.eqb fmt "csv" then CsvScan (to_csv_blob df)
  else TableScan (db_blob df) "vendas".

(** A computation whose calls all satisfy [Q] and whose exceptions all
    satisfy [P], wherever it is started. *)
Definition emits {A} (Q : event -> Prop) (P : exn -> Prop) (m : M A) : Prop :=
  forall w,
    (exists l, trace (m w).2 = trace w ++ l /\ Forall Q l) /\
    (forall e, (m w).1 = Raised e -> P e).

(** The engine sets up a session on a relation and runs the three queries
    over it. *)
Definition engine_accepts (rel : relation) : Prop :=
  setup_ok rel = true /\
  forall item, In item QUERIES -> select_ok rel item.2 = true.

(** The kinds of cell the queries rely on. *)
Definition is_text (c : cell) : bool :=
  match c with CStr _ => true | _ => false end.

Definition is_number (c : cell) : bool :=
  match c with CInt _ | CFloat _ => true | _ => false end.

End Vocabulary.

(** ** A concrete instance of the interfaces

    Decimal fixed-point numbers for floats, a linear congruential generator
    for Faker, files that record the frame they hold and are sized by the
    text pandas would write for it, and an engine that runs a query when the
    relation has the columns the query names. *)

Module Sample.

(** Floats with six decimals: [x] stands for [x * 10^-6]. *)
Definition unit6 : Z := 1000000.

#[export] Instance fixed6 : PyFloat := {|
  float := Z;
  of_int n := n * unit6;
  fmul x y := round_half_even (x * y) unit6;
  fdiv x y := if y =? 0 then 0 else round_half_even (x * unit6) y;
  fsub x y := x - y;
  round_nd x n := round_half_even x (10 ^ (6 - n)) * 10 ^ (6 - n)
|}.

Definition lcg_next (g : Z) : Z := (g * 1103515245 + 12345) mod 2147483648.

Definition pick (l : list string) (g : Z) : string :=
  nth (Z.to_nat (g mod Z.of_nat (length l))) l "".

Definition str_of_Z (n : Z) : string := NilEmpty.string_of_int (Z.to_int n).

Definition zero_pad_Z (width : nat) (n : Z) : string :=
  let s := str_of_Z n in zeros (width - String.length s) +:+ s.

#[export] Instance lcg : Faker := {|
  rng := Z;
  seed s := s;
  random_int a b g := let g' := lcg_next g in (a + g' mod (b - a + 1), g');
  random_number d g := let g' := lcg_next g in (g' mod 10 ^ d, g');
  random_element l g := let g' := lcg_next g in (pick l g', g');
  uuid4 g := let g' := lcg_next g in ("id-" +:+ str_of_Z g', g');
  date_this_decade g :=
    let g' := lcg_next g in (mkDate (2020 + g' mod 6) (1 + g' mod 12) (1 + g' mod 28), g');
  company g := let g' := lcg_next g in (pick ["Loja Norte"; "Loja Sul"; "Loja Centro"] g', g');
  name g := let g' := lcg_next g in (pick ["Ana"; "Bruno"; "Carla"; "Davi"] g', g');
  city g := let g' := lcg_next g in (pick ["Recife"; "Manaus"; "Curitiba"] g', g');
  state_abbr g := let g' := lcg_next g in (pick ["PE"; "AM"; "PR"] g', g')
|}.

(** The text of a cell in a CSV file. *)
Definition two_digits (n : Z) : string := zero_pad_Z 2 n.

Definition cell_text (c : cell) : string :=
  match c with
  | CStr s => s
  | CInt n => str_of_Z n
  | CFloat x => str_of_Z (x / unit6) +:+ "." +:+ zero_pad_Z 6 (x mod unit6)
  | CDate d => str_of_Z (year d) +:+ "-" +:+ two_digits (month d) +:+ "-" +:+ two_digits (day d)
  end.

Definition newline : string := String (ascii_of_nat 10) EmptyString.

Definition csv_line (fields : list string) : string :=
  String.concat "," fields +:+ newline.

Definition csv_text (df : DataFrame) : string :=
  csv_line (columns df) +:+ String.concat "" (map (fun r => csv_line (map cell_text r)) (rows df)).

Inductive sample_blob :=
| ParquetBlob (df : DataFrame)
| CsvBlob (df : DataFrame)
| DbBlob (tables : list (string * DataFrame)).

Definition text_size (df : DataFrame) : Z := Z.of_nat (String.length (csv_text df)).

(** File sizes: the CSV text itself; for Parquet the same data between a
    fixed header and footer; for a database a header of three 4 KiB pages
    followed by one 256 KiB block per table. *)
Definition sample_size (b : sample_blob) : Z :=
  match b with
  | ParquetBlob df => 2048 + text_size df
  | CsvBlob df => text_size df
  | DbBlob tables => 12288 + 262144 * Z.of_nat (length tables)
  end.

Definition has_table (t : string) (tables : list (string * DataFrame)) : bool :=
  existsb (fun '(t', _) => String.eqb t' t) tables.

Definition sample_read_parquet (b : sample_blob) : option DataFrame :=
  match b with
  | ParquetBlob df => Some df
  | _ => None
  end.

Definition sample_create_table (b : sample_blob) (t : string) (df : DataFrame)
    : option sample_blob :=
  match b with
  | DbBlob tables =>
    if has_table t tables then None else Some (DbBlob (tables ++ [(t, df)]))
  | _ => None
  end.

Lemma sample_size_nonneg (b : sample_blob) : 0 <= sample_size b.
Proof. destruct b; unfold sample_size, text_size; lia. Qed.

Lemma sample_create_table_fresh (t : string) (df : DataFrame) :
  is_Some (sample_create_table (DbBlob []) t df).
Proof. simpl. eauto. Qed.

#[export] Instance tagged : Storage := {|
  blob := sample_blob;
  st_size := sample_size;
  st_size_nonneg := sample_size_nonneg;
  to_parquet_blob := ParquetBlob;
  read_parquet_blob := sample_read_parquet;
  read_to_parquet := fun df => eq_refl;
  to_csv_blob := CsvBlob;
  empty_db := DbBlob [];
  create_table_blob := sample_create_table;
  create_table_fresh := sample_create_table_fresh
|}.

(** The columns a relation offers, when it can be read at all. *)
Definition relation_columns (rel : relation) : option (list string) :=
  match rel with
  | ParquetScan files =>
    match map_to_list files with
    | [] => None
    | (_, b) :: rest =>
      match b with
      | ParquetBlob df =>
        if forallb (fun '(_, b') =>
             match b' with
             | ParquetBlob df' => bool_decide (columns df' = columns df)
             | _ => false
             end) rest
        then Some (columns df) else None
      | _ => None
      end
    end
  | CsvScan (CsvBlob df) => Some (columns df)
  | CsvScan _ => None
  | TableScan (DbBlob tables) t =>
    match find (fun '(t', _) => String.eqb t' t) tables with
    | Some (_, df) => Some (columns df)
    | None => None
    end
  | TableScan _ _ => None
  end.

Definition has_column (c : string) (cols : list string) : bool :=
  existsb (String.eqb c) cols.

#[export] Instance columns_engine : Engine := {|
  valid_db b := match b with DbBlob _ => true | _ => false end;
  bind_ok rel := match relation_columns rel with Some _ => true | None => false end;
  select_ok rel q :=
    match relation_columns rel with
    | Some cols => has_column (q_group_by q) cols && has_column (q_arg q) cols
    | None => false
    end
|}.

(** A clock that starts at a fixed instant and advances a quarter of a
    second between readings; directories listed in the order of the map. *)
Definition map_order {A : Type} (d : gmap string A) : list string := (map_to_list d).*1.

Lemma map_order_spec (A : Type) (d : gmap string A) (n : string) :
  n ∈ map_order d <-> is_Some (d !! n).
Proof.
  unfold map_order. rewrite list_elem_of_fmap. split.
  - intros [[k v] [-> Hin]]. apply elem_of_map_to_list in Hin. eauto.
  - intros [v Hv]. exists (n, v). split; [done|]. by apply elem_of_map_to_list.
Qed.

Lemma map_order_NoDup (A : Type) (d : gmap string A) : NoDup (map_order d).
Proof. apply NoDup_fst_map_to_list. Qed.

#[export] Instance quarter_clock : Host := {|
  wall_clock n := 1700000000 * unit6 + Z.of_nat n * 250000;
  listdir := @map_order;
  listdir_spec := map_order_spec;
  listdir_NoDup := map_order_NoDup;
  dir_st_size := 4096
|}.

(** Five rows in chunks of two, and six rows in chunks of two. *)
Definition small_config : Config := {| N_LINHAS := 5; CHUNK := 2 |}.
Definition even_config : Config := {| N_LINHAS := 6; CHUNK := 2 |}.

(** Before the first run: no output directory, no clock reading, no call. *)
Definition empty_world : World := mkWorld None 0 [].

(** An empty output directory. *)
Definition ready_world : World := mkWorld (Some ∅) 0 [].

(** The first row the generator yields: four items at 22.64 make 90.56. *)
Definition first_row : list cell :=
  [ CStr "id-1000676753"; CDate (mkDate 2024 11 23); CStr "Loja Sul"; CStr "Funko";
    CInt 4; CFloat 22640000; CFloat 90560000; CStr "Bruno"; CStr "Recife"; CStr "PR" ].

(** A frame made of that row alone, and the first chunk of the small
    dataset. *)
Definition one_row : DataFrame := mkDataFrame COLUMNS [ first_row ].
Definition first_chunk : DataFrame := Eval vm_compute in
  mkDataFrame COLUMNS (gen_rows 2 (seed 42)).1.

(** The world the generation of the small dataset leaves. *)
Definition generated_world : World := Eval vm_compute in
  (gerar_dados (CF := small_config) 10 empty_world).2.

(** What a first run of the pipeline returns and the world it leaves, for
    the small dataset and for the even one; the sample each run loaded. *)
Definition benchmark_run : outcome (list Measurement) * World := Eval vm_compute in
  main (CF := small_config) 10 empty_world.
Definition benchmark_records : list Measurement := Eval vm_compute in
    match benchmark_run.1 with
    | Returned recs => recs
    | _ => []
    end.
Definition benchmarked_world : World := Eval vm_compute in benchmark_run.2.

Definition even_run : outcome (list Measurement) * World := Eval vm_compute in
  main (CF := even_config) 10 empty_world.
Definition even_records : list Measurement := Eval vm_compute in
    match even_run.1 with
    | Returned recs => recs
    | _ => []
    end.
Definition even_world : World := Eval vm_compute in even_run.2.

(** The CSV file of the benchmarked world, as the queries scan it. *)
Definition benchmarked_csv : relation := Eval vm_compute in
    match artifact_relation "csv" (out_dir benchmarked_world) with
    | Some rel => rel
    | None => CsvScan (to_csv_blob one_row)
    end.

(** What writing the one-row frame as CSV returns. *)
Definition one_row_csv_run : outcome (float * decimal) * World := Eval vm_compute in
  medir_gravacao one_row "csv" ready_world.

(** The variables of the loop of the small dataset when the second pass
    has filled its list. *)
Definition refilled_locals : locals := Eval vm_compute in
  nth 6 (loop_locals (CF := small_config) 10 5 (seed 42) 0 (mkLocals [] None))
    (mkLocals [] None).

(** A chunk size of zero, and no row to generate. *)
Definition stuck_config : Config := {| N_LINHAS := 5; CHUNK := 0 |}.
Definition no_rows_config : Config := {| N_LINHAS := 0; CHUNK := 2 |}.

(** A dataset directory that holds a marker file and no partition. *)
Definition stale_world : World := Eval vm_compute in
  mkWorld (Some {[ "vendas.parquet" := Dir {[ "_SUCCESS" := CsvBlob one_row ]} ]}) 0 [].

(** What writing the one-row frame as Parquet returns, and the query batch
    over the CSV file of the benchmarked world. *)
Definition one_row_parquet_run : outcome (float * decimal) * World := Eval vm_compute in
  medir_gravacao one_row "parquet" ready_world.
Definition csv_queries_run : outcome (list (string * float)) * World := Eval vm_compute in
  executar_queries "csv" benchmarked_world.
Definition csv_latencies : list (string * float) := Eval vm_compute in
    match csv_queries_run.1 with
    | Returned tempos => tempos
    | _ => []
    end.

(** The chunks of the small dataset. *)
Definition small_chunks : list DataFrame := Eval vm_compute in
  chunks_of (CF := small_config) 10 5 (seed 42).

End Sample.

(** * Properties *)

Section Properties.
Context {PF : PyFloat} {ST : Storage} {EN : Engine} {HO : Host} {FK : Faker} {CF : Config}.

(** ** Strings and directory listings *)

Lemma ends_with_empty (s : string) : ends_with "" s = true.
Proof. induction s as [|c s IH]; simpl; [done|]. exact IH. Qed.

Lemma listdir_singleton {A} (n : string) (x : A) :
  listdir ({[ n := x ]} : gmap string A) = [n].
Proof.
  pose proof (listdir_NoDup A {[ n := x ]}) as ND.
  pose proof (listdir_spec A {[ n := x ]}) as Sp.
  assert (Hall : forall a, a ∈ listdir ({[ n := x ]} : gmap string A) -> a = n).
  { intros a Ha. apply Sp in Ha as [v Hv].
    apply lookup_singleton_Some in Hv as [Hn _]. by symmetry. }
  destruct (listdir ({[ n := x ]} : gmap string A)) as [|a l] eqn:E.
  - destruct (Sp n) as [_ Sp2]. rewrite lookup_singleton_eq in Sp2.
    specialize (Sp2 (mk_is_Some _ _ eq_refl)). inversion Sp2.
  - rewrite (Hall a) by left. destruct l as [|b l']; [done|].
    apply NoDup_cons in ND as [ND _]. exfalso. apply ND.
    rewrite (Hall a), (Hall b); [left | right; left | left].
Qed.

(** ** Symbolic execution of the script *)

Ltac munfold :=
  unfold medir_gravacao, path_exists, is_dir, mkdir, rmtree, unlink, glob, rglob,
    stat_st_size, to_parquet, to_csv, read_parquet, duckdb_connect, con_execute, con_close,
    fetchall, db_open, db_write, update_fs, time_time, local_var, next, bind, ret, raise,
    log, get_fs, put_fs, set_out_dir, fs_rmtree, fs_unlink, fs_save, parent, fs_write, fs_mkdir,
    fs_stat,
    fs_rglob, fs_glob, target_db, PARQUET_DIR, CSV_FILE, DUCKDB_FILE, OUT_DIR, path_div in *.

Ltac mrun :=
  repeat (progress (munfold; simpl in *;
    repeat match goal with
    | H : ?x = _ |- context [?x] => rewrite H
    | |- context [<[ ?k := _ ]> _ !! ?k] => rewrite (lookup_insert_eq (M:=gmap string))
    | |- context [delete ?k _ !! ?k] => rewrite lookup_delete_eq
    | |- context [filter _ []] => rewrite filter_nil
    | |- context [filter _ (?x :: _)] => rewrite filter_cons_True by apply ends_with_empty
    | |- context [listdir (<[ _ := _ ]> ∅)] => rewrite insert_empty, listdir_singleton
    end)).

Ltac mdone :=
  unfold duration, duration_at, sum, db_blob; simpl; repeat rewrite <- app_assoc; simpl;
  rewrite ?insert_insert_eq, ?insert_delete_eq; try reflexivity.

(** *** [medir_gravacao], case by case on what is stored at the path *)

Lemma medir_parquet_present df w top m :
  out_dir w = Some top -> top !! "vendas.parquet" = Some (Dir m) ->
  medir_gravacao df "parquet" w =
    (Returned (duration w, round_ratio (st_size (to_parquet_blob df)) (1024 * 1024) 1),
     mkWorld
       (Some (<[ "vendas.parquet" := Dir {[ "part_00000.parquet" := to_parquet_blob df ]} ]> top))
       (S (S (ticks w)))
       (trace w ++ EvTime :: write_calls "parquet" df true ++ EvTime :: size_calls "parquet")).
Proof. intros Hfs He. mrun. mdone. Qed.

Lemma medir_parquet_absent df w top :
  out_dir w = Some top -> top !! "vendas.parquet" = None ->
  medir_gravacao df "parquet" w =
    (Returned (duration w, round_ratio (st_size (to_parquet_blob df)) (1024 * 1024) 1),
     mkWorld
       (Some (<[ "vendas.parquet" := Dir {[ "part_00000.parquet" := to_parquet_blob df ]} ]> top))
       (S (S (ticks w)))
       (trace w ++ EvTime :: write_calls "parquet" df false ++ EvTime :: size_calls "parquet")).
Proof. intros Hfs He. mrun. mdone. Qed.

Lemma medir_parquet_file df w top b :
  out_dir w = Some top -> top !! "vendas.parquet" = Some (File b) ->
  medir_gravacao df "parquet" w =
    (Raised (NotADirectoryError PARQUET_DIR),
     mkWorld (out_dir w) (S (ticks w))
       (trace w ++ [EvTime; EvExists PARQUET_DIR; EvRmtree PARQUET_DIR])).
Proof. intros Hfs He. mrun. mdone. Qed.

Lemma medir_parquet_no_out_dir df w :
  out_dir w = None ->
  medir_gravacao df "parquet" w =
    (Raised (FileNotFoundError PARQUET_DIR),
     mkWorld (out_dir w) (S (ticks w))
       (trace w ++ [EvTime; EvExists PARQUET_DIR; EvMkdir PARQUET_DIR])).
Proof. intros Hfs. mrun. mdone. Qed.

Lemma medir_csv_ok df w top :
  out_dir w = Some top -> (forall m, top !! "vendas.csv" <> Some (Dir m)) ->
  medir_gravacao df "csv" w =
    (Returned (duration w, round_ratio (st_size (to_csv_blob df)) (1024 * 1024) 1),
     mkWorld (Some (<[ "vendas.csv" := File (to_csv_blob df) ]> top)) (S (S (ticks w)))
       (trace w ++ EvTime :: write_calls "csv" df true ++ EvTime :: size_calls "csv")).
Proof.
  intros Hfs He. mrun.
  destruct (top !! "vendas.csv") as [[b|m]|] eqn:E; try (by destruct (He m)); mrun; mdone.
Qed.

Lemma medir_csv_dir df w top m :
  out_dir w = Some top -> top !! "vendas.csv" = Some (Dir m) ->
  medir_gravacao df "csv" w =
    (Raised (IsADirectoryError CSV_FILE),
     mkWorld (out_dir w) (S (ticks w)) (trace w ++ [EvTime; EvToCsv df CSV_FILE])).
Proof. intros Hfs He. mrun. mdone. Qed.

Lemma medir_csv_no_out_dir df w :
  out_dir w = None ->
  medir_gravacao df "csv" w =
    (Raised (OSError OUT_DIR),
     mkWorld (out_dir w) (S (ticks w)) (trace w ++ [EvTime; EvToCsv df CSV_FILE])).
Proof. intros Hfs. mrun. mdone. Qed.

Lemma medir_duckdb_absent df w top :
  out_dir w = Some top -> top !! "vendas.duckdb" = None ->
  medir_gravacao df "duckdb" w =
    (Returned (duration w, round_ratio (st_size (db_blob df)) (1024 * 1024) 1),
     mkWorld (Some (<[ "vendas.duckdb" := File (db_blob df) ]> top)) (S (S (ticks w)))
       (trace w ++ EvTime :: write_calls "duckdb" df false ++ EvTime :: size_calls "duckdb")).
Proof.
  intros Hfs He. destruct (create_table_fresh "vendas" df) as [b' Hb'].
  mrun. mdone. rewrite Hb'. reflexivity.
Qed.

Lemma medir_duckdb_file df w top b :
  out_dir w = Some top -> top !! "vendas.duckdb" = Some (File b) ->
  medir_gravacao df "duckdb" w =
    (Returned (duration w, round_ratio (st_size (db_blob df)) (1024 * 1024) 1),
     mkWorld (Some (<[ "vendas.duckdb" := File (db_blob df) ]> top)) (S (S (ticks w)))
       (trace w ++ EvTime :: write_calls "duckdb" df true ++ EvTime :: size_calls "duckdb")).
Proof.
  intros Hfs He. destruct (create_table_fresh "vendas" df) as [b' Hb'].
  mrun. mdone. rewrite Hb'. reflexivity.
Qed.

Lemma medir_duckdb_dir df w top m :
  out_dir w = Some top -> top !! "vendas.duckdb" = Some (Dir m) ->
  medir_gravacao df "duckdb" w =
    (Raised (IsADirectoryError DUCKDB_FILE),
     mkWorld (out_dir w) (S (ticks w))
       (trace w ++ [EvTime; EvExists DUCKDB_FILE; EvUnlink DUCKDB_FILE])).
Proof. intros Hfs He. mrun. mdone. Qed.

Lemma medir_duckdb_no_out_dir df w :
  out_dir w = None ->
  medir_gravacao df "duckdb" w =
    (Raised DuckDBError,
     mkWorld (out_dir w) (S (ticks w))
       (trace w ++ [EvTime; EvExists DUCKDB_FILE; EvConnect (Some DUCKDB_FILE)])).
Proof. intros Hfs. mrun. mdone. Qed.

(** *** Summary: a supported format either is written or fails inside the write *)

Lemma in_FORMATOS (fmt : string) :
  In fmt FORMATOS -> fmt = "parquet" \/ fmt = "csv" \/ fmt = "duckdb".
Proof. unfold FORMATOS. simpl. intuition. Qed.

Lemma medir_gravacao_run df fmt w :
  In fmt FORMATOS ->
  (exists top present,
      out_dir w = Some top /\
      medir_gravacao df fmt w =
        (Returned (duration w, round_ratio (artifact_size fmt df) (1024 * 1024) 1),
         mkWorld (Some (<[ entry_name fmt := artifact_node fmt df ]> top)) (S (S (ticks w)))
           (trace w ++ EvTime :: write_calls fmt df present ++ EvTime :: size_calls fmt)))
  \/
  (exists e calls,
      medir_gravacao df fmt w =
        (Raised e, mkWorld (out_dir w) (S (ticks w)) (trace w ++ EvTime :: calls)) /\
      (forall v, e <> UnboundLocalError v) /\
      forallb (is_write_call fmt) calls = true).
Proof.
  intros Hin. apply in_FORMATOS in Hin as [-> | [-> | ->]].
  - destruct (out_dir w) as [top|] eqn:Hfs.
    + destruct (top !! "vendas.parquet") as [[b|m]|] eqn:He.
      * right. eexists _, _. rewrite (medir_parquet_file df w top b Hfs He), Hfs. by repeat split.
      * left. exists top, true. split; [done|]. apply (medir_parquet_present df w top m Hfs He).
      * left. exists top, false. split; [done|]. apply (medir_parquet_absent df w top Hfs He).
    + right. eexists _, _. rewrite (medir_parquet_no_out_dir df w Hfs), Hfs. by repeat split.
  - destruct (out_dir w) as [top|] eqn:Hfs.
    + destruct (top !! "vendas.csv") as [[b|m]|] eqn:He.
      * left. exists top, true. split; [done|]. apply (medir_csv_ok df w top Hfs). congruence.
      * right. eexists _, _. rewrite (medir_csv_dir df w top m Hfs He), Hfs. by repeat split.
      * left. exists top, true. split; [done|]. apply (medir_csv_ok df w top Hfs). congruence.
    + right. eexists _, _. rewrite (medir_csv_no_out_dir df w Hfs), Hfs. by repeat split.
  - destruct (out_dir w) as [top|] eqn:Hfs.
    + destruct (top !! "vendas.duckdb") as [[b|m]|] eqn:He.
      * left. exists top, true. split; [done|]. apply (medir_duckdb_file df w top b Hfs He).
      * right. eexists _, _. rewrite (medir_duckdb_dir df w top m Hfs He), Hfs. by repeat split.
      * left. exists top, false. split; [done|]. apply (medir_duckdb_absent df w top Hfs He).
    + right. eexists _, _. rewrite (medir_duckdb_no_out_dir df w Hfs), Hfs. by repeat split.
Qed.

Lemma medir_gravacao_unsupported df fmt w :
  ~ In fmt FORMATOS ->
  medir_gravacao df fmt w =
    (Raised (UnboundLocalError "path"),
     mkWorld (out_dir w) (S (S (ticks w))) (trace w ++ [EvTime; EvTime])).
Proof.
  intros Hnot. unfold FORMATOS in Hnot. simpl in Hnot.
  assert (H1 : String.eqb fmt "parquet" = false) by (apply String.eqb_neq; intuition).
  assert (H2 : String.eqb fmt "csv" = false) by (apply String.eqb_neq; intuition).
  assert (H3 : String.eqb fmt "duckdb" = false) by (apply String.eqb_neq; intuition).
  unfold medir_gravacao. rewrite H1, H2, H3. mrun. mdone.
Qed.

Lemma events_of_app {A} (m : M A) w l :
  trace (m w).2 = trace w ++ l -> events_of m w = l.
Proof. unfold events_of. intros ->. apply drop_app_length. Qed.

Lemma size_positive_iff (s : Z) :
  0 <= s ->
  0 <= mantissa (round_ratio s (1024 * 1024) 1) /\
  (decimal_pos (round_ratio s (1024 * 1024) 1) <-> 52429 <= s).
Proof.
  intros Hs. unfold decimal_pos, round_ratio, round_half_even. simpl mantissa.
  change (10 ^ 1) with 10. change (1024 * 1024) with 1048576.
  pose proof (Z.div_mod (s * 10) 1048576 ltac:(lia)) as Hdm.
  pose proof (Z.mod_pos_bound (s * 10) 1048576 ltac:(lia)) as Hb.
  assert (Hq : 0 <= (s * 10) / 1048576) by (apply Z.div_pos; lia).
  destruct (Z.ltb_spec (2 * ((s * 10) mod 1048576)) 1048576);
    [|destruct (Z.ltb_spec 1048576 (2 * ((s * 10) mod 1048576)));
      [|destruct (Z.even ((s * 10) / 1048576)) eqn:Ev]]; lia.
Qed.

(** ** Computations that leave the output directory alone *)

Lemma quiet_on_weaken {A} (pre pre' : option (gmap string node) -> Prop) (m : M A) :
  (forall fs, pre' fs -> pre fs) -> quiet_on pre m -> quiet_on pre' m.
Proof. intros Himp Hm w Hw. apply Hm, Himp, Hw. Qed.

Lemma quiet_on_ret {A} pre (a : A) : quiet_on pre (ret a).
Proof. intros w _. split; [done|]. exists []. by rewrite app_nil_r. Qed.

Lemma quiet_on_raise {A} pre (e : exn) : quiet_on pre (raise e : M A).
Proof. intros w _. split; [done|]. exists []. by rewrite app_nil_r. Qed.

Lemma quiet_on_log pre (e : event) : is_format_write e = false -> quiet_on pre (log e).
Proof. intros He w _. split; [done|]. exists [e]. simpl. by rewrite He. Qed.

Lemma quiet_on_get_fs pre : quiet_on pre get_fs.
Proof. intros w _. split; [done|]. exists []. by rewrite app_nil_r. Qed.

Lemma quiet_on_time_time pre : quiet_on pre time_time.
Proof. intros w _. split; [done|]. by exists [EvTime]. Qed.

Lemma quiet_on_bind {A B} pre (m : M A) (k : A -> M B) :
  quiet_on pre m -> (forall a, quiet_on pre (k a)) -> quiet_on pre (bind m k).
Proof.
  intros Hm Hk w Hpre. unfold bind.
  destruct (Hm w Hpre) as [Hfs [l [Htr Hl]]].
  destruct (m w) as [[a|e|] w'] eqn:E; simpl in *; try (split; [done|]; by exists l).
  assert (Hpre' : pre (out_dir w')) by (by rewrite Hfs).
  destruct (Hk a w' Hpre') as [Hfs' [l' [Htr' Hl']]].
  split; [congruence|]. exists (l ++ l').
  rewrite Htr', Htr, <- app_assoc. split; [done|].
  by rewrite List.filter_app, Hl, Hl'.
Qed.

Lemma quiet_on_foldM {A S} pre (f : S -> A -> M S) (l : list A) :
  (forall s x, quiet_on pre (f s x)) -> forall s, quiet_on pre (foldM f s l).
Proof.
  intros Hf. induction l as [|x l IH]; intros s; simpl.
  - apply quiet_on_ret.
  - apply quiet_on_bind; [apply Hf | intros s'; apply IH].
Qed.

Ltac quiet :=
  repeat first
    [ apply quiet_on_ret | apply quiet_on_raise | apply quiet_on_get_fs
    | apply quiet_on_time_time | apply quiet_on_log; reflexivity
    | apply quiet_on_bind; [|intros ?]
    | match goal with
      | |- quiet_on _ (if ?b then _ else _) => destruct b
      | |- quiet_on _ (match ?x with _ => _ end) => destruct x
      end ].

Lemma quiet_on_select pre con q : quiet_on pre (con_execute con (Select q)).
Proof. unfold con_execute. quiet. Qed.

Lemma quiet_on_time_query pre con tempos item : quiet_on pre (time_query con tempos item).
Proof.
  destruct item as [nome q]. unfold time_query, fetchall.
  apply quiet_on_bind; [apply quiet_on_time_time|intros ini].
  apply quiet_on_bind; [apply quiet_on_select|intros _]. quiet.
Qed.

Lemma quiet_on_db_open (p : path) :
  quiet_on (fun fs => is_Some (fs_stat fs p)) (db_open p).
Proof.
  intros w [st Hst]. unfold db_open, bind, get_fs. rewrite Hst.
  destruct st as [b|]; [destruct (valid_db b)|];
    (split; [done|]; exists []; by rewrite app_nil_r).
Qed.

Lemma executar_queries_quiet (fmt : string) :
  quiet_on (fun fs => is_Some (fs_stat fs (artifact_path fmt))) (executar_queries fmt).
Proof.
  unfold executar_queries, artifact_path, duckdb_connect, con_close.
  apply quiet_on_bind; [quiet|intros con].
  apply quiet_on_bind; [|intros con'].
  2: { apply quiet_on_bind; [|intros tempos; quiet].
       apply quiet_on_foldM. intros. apply quiet_on_time_query. }
  destruct (String.eqb fmt "parquet"); [unfold con_execute; quiet|].
  destruct (String.eqb fmt "csv"); [unfold con_execute; quiet|].
  apply quiet_on_bind; [|intros ?; unfold con_execute; quiet].
  unfold con_execute. apply quiet_on_bind; [quiet|intros _].
  apply quiet_on_bind; [apply quiet_on_db_open | quiet].
Qed.

(** ** The query loop *)

Lemma bind_Returned_inv {A B} (m : M A) (k : A -> M B) w b w2 :
  bind m k w = (Returned b, w2) ->
  exists a w1, m w = (Returned a, w1) /\ k a w1 = (Returned b, w2).
Proof.
  unfold bind. destruct (m w) as [[a|e|] w1]; intros Heq; try discriminate. eauto.
Qed.

Lemma bind_Returned {A B} (m : M A) (k : A -> M B) w a w1 :
  m w = (Returned a, w1) -> bind m k w = k a w1.
Proof. unfold bind. by intros ->. Qed.

Lemma dict_keys_set {V} (d : list (string * V)) k v :
  dict_keys (dict_set d k v) = add_key (dict_keys d) k.
Proof.
  unfold add_key, dict_keys. induction d as [|[k' v'] d IH]; simpl; [done|].
  destruct (String.eqb k' k) eqn:E; simpl.
  - apply String.eqb_eq in E. by subst.
  - rewrite IH. by destruct (existsb _ (map fst d)).
Qed.

Lemma time_query_Returned con tempos item w tempos' w' :
  time_query con tempos item w = (Returned tempos', w') ->
  tempos' = dict_set tempos item.1 (duration w) /\
  w' = mkWorld (out_dir w) (S (S (ticks w))) (trace w ++ loop_calls [item]).
Proof.
  destruct item as [nome q]. unfold time_query, fetchall. mrun.
  destruct (resolve con (out_dir w) (q_from q)) as [rel|]; [|discriminate].
  destruct (select_ok rel q); [|discriminate].
  intros [= <- <-]. mdone. done.
Qed.

Lemma time_query_ok con tempos item w rel :
  resolve con (out_dir w) (q_from item.2) = Some rel ->
  select_ok rel item.2 = true ->
  time_query con tempos item w =
    (Returned (dict_set tempos item.1 (duration w)),
     mkWorld (out_dir w) (S (S (ticks w))) (trace w ++ loop_calls [item])).
Proof.
  destruct item as [nome q]. simpl. intros Hrel Hok.
  unfold time_query, fetchall. mrun. mdone.
Qed.

Lemma query_loop_Returned con qs : forall tempos w tempos' w',
  foldM (time_query con) tempos qs w = (Returned tempos', w') ->
  dict_keys tempos' = fold_left add_key (map fst qs) (dict_keys tempos) /\
  out_dir w' = out_dir w /\
  ticks w' = (2 * length qs + ticks w)%nat /\
  trace w' = trace w ++ loop_calls qs.
Proof.
  induction qs as [|item qs IH]; intros tempos w tempos' w'; simpl.
  - unfold ret. intros [= <- <-]. by rewrite app_nil_r.
  - intros Hrun. apply bind_Returned_inv in Hrun as (t1 & w1 & H1 & H2).
    apply time_query_Returned in H1 as [-> ->].
    apply IH in H2 as (Hk & Hfs & Hti & Htr). simpl in *.
    rewrite Hk, dict_keys_set, Hfs, Hti, Htr.
    repeat split; [lia|]. destruct item as [nome q]. simpl.
    by rewrite <- app_assoc.
Qed.

Lemma query_loop_ok con rel qs : forall tempos w,
  (forall item, In item qs -> resolve con (out_dir w) (q_from item.2) = Some rel /\
                              select_ok rel item.2 = true) ->
  exists tempos' w', foldM (time_query con) tempos qs w = (Returned tempos', w').
Proof.
  induction qs as [|item qs IH]; intros tempos w Hall; simpl.
  - by eexists _, _.
  - destruct (Hall item (or_introl eq_refl)) as [Hrel Hok].
    rewrite (bind_Returned _ _ _ _ _ (time_query_ok con tempos item w rel Hrel Hok)).
    apply IH. intros item' Hin. simpl. apply Hall. by right.
Qed.

(** ** [executar_queries] from end to end *)

Lemma executar_queries_Returned fmt w tempos w' :
  executar_queries fmt w = (Returned tempos, w') ->
  dict_keys tempos = dict_keys QUERIES /\
  ticks w' = (6 + ticks w)%nat /\
  trace w' = trace w ++ query_calls fmt.
Proof.
  unfold executar_queries. intros Hrun.
  apply bind_Returned_inv in Hrun as (con & w1 & Hcon & Hrun).
  apply bind_Returned_inv in Hrun as (con' & w2 & Hset & Hrun).
  apply bind_Returned_inv in Hrun as (t0 & w3 & Hloop & Hrun).
  apply query_loop_Returned in Hloop as (Hk & _ & Hti & Htr).
  unfold con_close, bind, log, ret in Hrun. simpl in Hrun.
  injection Hrun as <- <-. simpl.
  unfold duckdb_connect, bind, log, ret in Hcon. simpl in Hcon.
  injection Hcon as <- <-.
  assert (Hw2 : ticks w2 = ticks w /\
                trace w2 = trace w ++ setup_calls fmt).
  { clear Hk Hti Htr. unfold setup_calls.
    destruct (String.eqb fmt "parquet").
    - mrun. destruct (bind_ok _); [|discriminate]. injection Hset as <- <-. simpl.
      by rewrite <- app_assoc.
    - destruct (String.eqb fmt "csv").
      + mrun. destruct (out_dir w) as [top|]; [|discriminate].
        destruct (top !! "vendas.csv") as [[b|m]|]; try discriminate.
        destruct (bind_ok _); [|discriminate]. injection Hset as <- <-. simpl.
        by rewrite <- app_assoc.
      + mrun. destruct (out_dir w) as [top|]; simpl in *; [|discriminate].
        destruct (top !! "vendas.duckdb") as [[b|m]|] eqn:He; simpl in *;
          rewrite ?He in Hset; simpl in Hset; try discriminate.
        * destruct (valid_db b); simpl in *; [|discriminate].
          rewrite (lookup_insert_eq (M:=gmap string)) in Hset. injection Hset as <- <-. simpl.
          by repeat rewrite <- app_assoc.
        * rewrite (lookup_insert_eq (M:=gmap string)) in Hset. injection Hset as <- <-. simpl.
          by repeat rewrite <- app_assoc. }
  destruct Hw2 as [Hti2 Htr2]. rewrite Hk, Hti, Htr, Hti2, Htr2.
  unfold query_calls. by rewrite <- !app_assoc.
Qed.

Lemma in_QUERIES_from (item : string * query) :
  In item QUERIES -> q_from item.2 = "vendas".
Proof. unfold QUERIES. simpl. intuition; by subst. Qed.

Lemma executar_queries_ok fmt w rel :
  artifact_relation fmt (out_dir w) = Some rel ->
  setup_ok rel = true ->
  (forall item, In item QUERIES -> select_ok rel item.2 = true) ->
  exists tempos w', executar_queries fmt w = (Returned tempos, w').
Proof.
  unfold executar_queries, artifact_relation. intros Hrel Hset Hsel.
  assert (Hloop : forall con w2,
            out_dir w2 = out_dir w ->
            resolve con (out_dir w) "vendas" = Some rel ->
            exists tempos w', bind (foldM (time_query con) [] QUERIES)
                                (fun tempos => con_close con;; ret tempos) w2
                              = (Returned tempos, w')).
  { intros con w2 Hfs Hres.
    destruct (query_loop_ok con rel QUERIES [] w2) as (t & w3 & Hl).
    - intros item Hin. rewrite (in_QUERIES_from item Hin), Hfs. eauto.
    - rewrite (bind_Returned _ _ _ _ _ Hl). unfold con_close, bind, log, ret. simpl.
      by eexists _, _. }
  destruct (String.eqb fmt "parquet").
  - injection Hrel as <-. simpl in Hset.
    unfold duckdb_connect, con_execute, bind, log, get_fs, ret. simpl.
    rewrite Hset. simpl. apply Hloop; [done|].
    unfold resolve. simpl. by rewrite lookup_insert_eq.
  - destruct (String.eqb fmt "csv").
    + destruct (fs_stat (out_dir w) CSV_FILE) as [[b|]|] eqn:Hst; try discriminate.
      injection Hrel as <-. simpl in Hset.
      unfold duckdb_connect, con_execute, bind, log, get_fs, ret. simpl.
      rewrite Hst, Hset. simpl. apply Hloop; [done|].
      unfold resolve. simpl. rewrite lookup_insert_eq. by rewrite Hst.
    + destruct (fs_stat (out_dir w) DUCKDB_FILE) as [[b|]|] eqn:Hst; try discriminate.
      injection Hrel as <-. simpl in Hset.
      unfold duckdb_connect, con_execute, db_open, bind, log, get_fs, ret. simpl.
      rewrite Hst, Hset. simpl. rewrite lookup_insert_eq. apply Hloop; [done|].
      unfold resolve, table_scan. simpl. rewrite lookup_insert_eq. by rewrite Hst.
Qed.

(** ** Partition names *)

Lemma zeros_string_of_uint (k : nat) (d : uint) :
  zeros k +:+ NilEmpty.string_of_uint d = NilEmpty.string_of_uint (Nat.iter k D0 d).
Proof. induction k as [|k IH]; simpl; [done|]. by rewrite <- IH. Qed.

Lemma of_uint_leading_zeros (k : nat) (d : uint) :
  Nat.of_uint (Nat.iter k D0 d) = Nat.of_uint d.
Proof. induction k as [|k IH]; simpl; [done|]. exact IH. Qed.

Lemma string_of_uint_inj (d d' : uint) :
  NilEmpty.string_of_uint d = NilEmpty.string_of_uint d' -> d = d'.
Proof.
  intros Heq. pose proof (NilEmpty.usu d) as H1. rewrite Heq, NilEmpty.usu in H1.
  by injection H1.
Qed.

Lemma zero_pad_inj (width a b : nat) : zero_pad width a = zero_pad width b -> a = b.
Proof.
  unfold zero_pad, str_of_nat. rewrite !zeros_string_of_uint.
  intros Heq%string_of_uint_inj.
  apply (f_equal Nat.of_uint) in Heq.
  by rewrite !of_uint_leading_zeros, !DecimalNat.Unsigned.of_to in Heq.
Qed.

Lemma append_cons (c : ascii) (s t : string) : String c s +:+ t = String c (s +:+ t).
Proof. reflexivity. Qed.

Lemma append_length (s t : string) :
  String.length (s +:+ t) = (String.length s + String.length t)%nat.
Proof.
  induction s as [|c s IH]; [done|]. rewrite append_cons. simpl. by rewrite IH.
Qed.

Lemma append_inj_r (s x y : string) : x +:+ s = y +:+ s -> x = y.
Proof.
  revert y. induction x as [|c x IH]; intros [|c' y] Heq.
  - done.
  - apply (f_equal String.length) in Heq. rewrite append_cons in Heq.
    simpl in Heq. rewrite !append_length in Heq. simpl in Heq. lia.
  - apply (f_equal String.length) in Heq. rewrite append_cons in Heq.
    simpl in Heq. rewrite !append_length in Heq. simpl in Heq. lia.
  - rewrite !append_cons in Heq. injection Heq as -> Heq. by rewrite (IH y Heq).
Qed.

Lemma part_name_inj (a b : nat) : part_name a = part_name b -> a = b.
Proof.
  unfold part_name. intros Heq.
  apply (String.app_inj "part_") in Heq. apply append_inj_r in Heq.
  by apply zero_pad_inj in Heq.
Qed.

Lemma ends_with_refl (s : string) : ends_with s s = true.
Proof. destruct s; simpl; [done|]. by rewrite Ascii.eqb_refl, String.eqb_refl. Qed.

Lemma ends_with_append (x suffix : string) : ends_with suffix (x +:+ suffix) = true.
Proof.
  induction x as [|c x IH].
  - apply ends_with_refl.
  - rewrite append_cons. simpl. rewrite IH. apply orb_true_r.
Qed.

Lemma append_assoc (s t u : string) : (s +:+ t) +:+ u = s +:+ (t +:+ u).
Proof. induction s as [|c s IH]; [done|]. by rewrite !append_cons, IH. Qed.

Lemma part_name_matches (part : nat) : fnmatch "*.parquet" (part_name part) = true.
Proof.
  unfold part_name, fnmatch. rewrite <- append_assoc. apply ends_with_append.
Qed.

(** ** The generation loop *)

Lemma gen_row_invariant (g : rng) : total_invariant (gen_row g).1.
Proof.
  unfold gen_row.
  destruct (random_int 1 6 g) as [qtde g1].
  destruct (random_number 4 g1) as [k g2].
  destruct (uuid4 g2) as [id g3].
  destruct (date_this_decade g3) as [data g4].
  destruct (company g4) as [loja g5].
  destruct (random_element PRODUTOS g5) as [produto g6].
  destruct (name g6) as [cliente g7].
  destruct (city g7) as [cidade g8].
  destruct (state_abbr g8) as [estado g9].
  simpl. by eexists _, _.
Qed.

Lemma gen_rows_spec (n : nat) : forall g,
  length (gen_rows n g).1 = n /\ Forall total_invariant (gen_rows n g).1.
Proof.
  induction n as [|n IH]; intros g; simpl; [by split|].
  pose proof (gen_row_invariant g) as Hrow.
  destruct (gen_row g) as [r g1]. specialize (IH g1).
  destruct (gen_rows n g1) as [rs g2]. simpl in *.
  destruct IH as [Hlen Hall]. split; [by rewrite Hlen | by constructor].
Qed.

Lemma gerar_loop_run (fuel : nat) : forall linhas_rest part g w top m,
  out_dir w = Some top ->
  top !! "vendas.parquet" = Some (Dir m) ->
  (gerar_loop fuel linhas_rest part g w).2 =
    mkWorld
      (Some (<[ "vendas.parquet" := Dir (write_parts part (chunks_of fuel linhas_rest g) m) ]> top))
      (ticks w)
      (trace w ++ part_events part (chunks_of fuel linhas_rest g)).
Proof.
  induction fuel as [|fuel IH]; intros rest part g w top m Hfs He; simpl.
  - unfold out_of_fuel. simpl. rewrite app_nil_r, insert_id by done.
    destruct w; simpl in *; by subst.
  - destruct (0 <? rest).
    + destruct (gen_rows (Z.to_nat (Z.min CHUNK rest)) g) as [rows g'].
      unfold bind, to_parquet at 1, log, update_fs, bind. simpl. unfold fs_save, parent, fs_stat, fs_write. rewrite Hfs.
      unfold PARQUET_DIR, OUT_DIR, path_div. simpl. rewrite He. simpl.
      erewrite IH; simpl; [| reflexivity | apply lookup_insert_eq].
      by rewrite insert_insert_eq, <- app_assoc.
    + unfold ret. simpl. rewrite app_nil_r, insert_id by done.
      destruct w; simpl in *; by subst.
Qed.

Lemma gerar_loop_Returned (fuel : nat) : forall linhas_rest part g w top m,
  out_dir w = Some top ->
  top !! "vendas.parquet" = Some (Dir m) ->
  0 < CHUNK ->
  enough_fuel fuel linhas_rest ->
  (gerar_loop fuel linhas_rest part g w).1 = Returned tt.
Proof.
  induction fuel as [|fuel IH]; intros rest part g w top m Hfs He Hc [Hf1 Hf2]; simpl.
  - lia.
  - destruct (Z.ltb_spec 0 rest) as [Hpos|Hneg]; [|done].
    destruct (gen_rows (Z.to_nat (Z.min CHUNK rest)) g) as [rows g'].
    unfold bind, to_parquet at 1, log, update_fs, bind. simpl. unfold fs_save, parent, fs_stat, fs_write. rewrite Hfs.
    unfold PARQUET_DIR, OUT_DIR, path_div. simpl. rewrite He. simpl.
    eapply IH; simpl; [reflexivity | apply lookup_insert_eq | done |].
    rewrite Nat2Z.inj_succ in Hf2.
    split; [destruct fuel; [simpl in *; lia | lia] |].
    destruct (Z.min_spec CHUNK rest) as [[_ ->]|[_ ->]]; [lia|].
    destruct fuel; [simpl in *; lia | nia].
Qed.

(** *** The chunks *)

Lemma chunks_invariant (fuel : nat) : forall linhas_rest g,
  Forall (fun df => columns df = COLUMNS /\ Forall total_invariant (rows df))
    (chunks_of fuel linhas_rest g).
Proof.
  induction fuel as [|fuel IH]; intros rest g; simpl; [constructor|].
  destruct (0 <? rest); [|constructor].
  pose proof (gen_rows_spec (Z.to_nat (Z.min CHUNK rest)) g) as [_ Hall].
  destruct (gen_rows (Z.to_nat (Z.min CHUNK rest)) g) as [rows g'].
  constructor; [by split | apply IH].
Qed.

Lemma chunks_bound (fuel : nat) : forall linhas_rest g,
  0 < CHUNK ->
  Forall (fun df => 0 < Z.of_nat (n_rows df) <= CHUNK) (chunks_of fuel linhas_rest g).
Proof.
  induction fuel as [|fuel IH]; intros rest g Hc; simpl; [constructor|].
  destruct (Z.ltb_spec 0 rest) as [Hpos|Hneg]; [|constructor].
  pose proof (gen_rows_spec (Z.to_nat (Z.min CHUNK rest)) g) as [Hlen _].
  destruct (gen_rows (Z.to_nat (Z.min CHUNK rest)) g) as [rows g'].
  constructor; [|by apply IH]. unfold n_rows. simpl in *. rewrite Hlen. lia.
Qed.

Lemma chunks_total (fuel : nat) : forall linhas_rest g,
  0 < CHUNK -> enough_fuel fuel linhas_rest ->
  total_rows (chunks_of fuel linhas_rest g) = Z.max 0 linhas_rest.
Proof.
  induction fuel as [|fuel IH]; intros rest g Hc [Hf1 Hf2]; simpl; [lia|].
  destruct (Z.ltb_spec 0 rest) as [Hpos|Hneg]; [|simpl; lia].
  pose proof (gen_rows_spec (Z.to_nat (Z.min CHUNK rest)) g) as [Hlen _].
  destruct (gen_rows (Z.to_nat (Z.min CHUNK rest)) g) as [rows g'].
  simpl. rewrite IH; [unfold n_rows; simpl in *; rewrite Hlen; lia | done |].
  rewrite Nat2Z.inj_succ in Hf2.
  split; [destruct fuel; [simpl in *; lia | lia] |].
  destruct (Z.min_spec CHUNK rest) as [[_ ->]|[_ ->]]; [lia|].
  destruct fuel; [simpl in *; lia | nia].
Qed.

Lemma chunks_exact (fuel : nat) : forall linhas_rest g,
  0 < CHUNK -> (CHUNK | linhas_rest) ->
  Forall (fun df => Z.of_nat (n_rows df) = CHUNK) (chunks_of fuel linhas_rest g).
Proof.
  induction fuel as [|fuel IH]; intros rest g Hc [k Hk]; simpl; [constructor|].
  destruct (Z.ltb_spec 0 rest) as [Hpos|Hneg]; [|constructor].
  pose proof (gen_rows_spec (Z.to_nat (Z.min CHUNK rest)) g) as [Hlen _].
  destruct (gen_rows (Z.to_nat (Z.min CHUNK rest)) g) as [rows g'].
  assert (Hk1 : 1 <= k) by nia.
  assert (Hge : CHUNK <= rest) by nia.
  assert (Hmin : Z.min CHUNK rest = CHUNK) by lia.
  constructor.
  - unfold n_rows. simpl in *. rewrite Hlen. lia.
  - apply IH; [done|]. exists (k - 1). rewrite Hmin. lia.
Qed.

Lemma chunks_nonempty (fuel : nat) (linhas_rest : Z) (g : rng) :
  (1 <= fuel)%nat -> 0 < linhas_rest -> chunks_of fuel linhas_rest g <> [].
Proof.
  intros Hf Hpos. destruct fuel as [|fuel]; [lia|]. simpl.
  destruct (Z.ltb_spec 0 linhas_rest) as [_|Hneg]; [|lia].
  by destruct (gen_rows (Z.to_nat (Z.min CHUNK linhas_rest)) g).
Qed.

(** *** The variables of the loop *)

Lemma size_list_to_set_le (l : list nat) : (size (list_to_set l : gset nat) <= length l)%nat.
Proof.
  induction l as [|x l IH].
  - change (list_to_set [] : gset nat) with (∅ : gset nat). rewrite size_empty. simpl. lia.
  - change (list_to_set (x :: l) : gset nat) with ({[x]} ∪ list_to_set l : gset nat).
    rewrite size_union_alt, size_singleton.
    assert (Hsub : list_to_set l ∖ {[x]} ⊆ (list_to_set l : gset nat))
      by (by apply subseteq_difference_l).
    apply subseteq_size in Hsub. simpl. lia.
Qed.

Lemma rows_held_le (s : locals) :
  (rows_held s <= length (rows_var s) + length (default [] (df_var s)))%nat.
Proof.
  unfold rows_held, ranks. rewrite size_union_alt.
  pose proof (size_list_to_set_le (rows_var s).*1) as H1.
  pose proof (size_list_to_set_le (default [] (df_var s)).*1) as H2.
  assert (Hsub : list_to_set (default [] (df_var s)).*1 ∖ list_to_set (rows_var s).*1
                 ⊆ (list_to_set (default [] (df_var s)).*1 : gset nat))
    by (by apply subseteq_difference_l).
  apply subseteq_size in Hsub. rewrite !length_fmap in *. lia.
Qed.

Lemma fill_rows_spec (n : nat) : forall g rank s,
  (rows_var (fill_rows n g rank s).2.1).*2 = (rows_var s).*2 ++ (gen_rows n g).1 /\
  length (rows_var (fill_rows n g rank s).2.1) = (length (rows_var s) + n)%nat /\
  df_var (fill_rows n g rank s).2.1 = df_var s /\
  (fill_rows n g rank s).2.2 = (gen_rows n g).2 /\
  Forall (fun x => df_var x = df_var s /\
                   (length (rows_var x) <= length (rows_var s) + n)%nat)
    (fill_rows n g rank s).1.
Proof.
  induction n as [|n IH]; intros g rank s; simpl.
  - rewrite app_nil_r. repeat split; [lia | constructor].
  - destruct (gen_row g) as [r g1].
    specialize (IH g1 (S rank) (mkLocals (rows_var s ++ [(rank, r)]) (df_var s))).
    destruct (fill_rows n g1 (S rank) _) as [snaps [s' g']].
    destruct (gen_rows n g1) as [rs g2]. simpl in *.
    destruct IH as (Hrows & Hlen & Hdf & Hg & Hall).
    rewrite fmap_app, <- app_assoc in Hrows. rewrite length_app in Hlen. simpl in *.
    repeat split; [done | lia | done | done |].
    constructor; [simpl; rewrite length_app; simpl; split; [done | lia]|].
    eapply Forall_impl; [exact Hall|]. intros x [Hx1 Hx2]. simpl in *.
    rewrite length_app in Hx2. simpl in Hx2. split; [done | lia].
Qed.

(** Neither the list nor the frame ever holds more than [CHUNK] rows. *)
Lemma loop_locals_bound (fuel : nat) : forall linhas_rest g rank s,
  0 < CHUNK ->
  Z.of_nat (length (default [] (df_var s))) <= CHUNK ->
  Forall (fun x => Z.of_nat (length (rows_var x)) <= CHUNK /\
                   Z.of_nat (length (default [] (df_var x))) <= CHUNK)
    (loop_locals fuel linhas_rest g rank s).
Proof.
  induction fuel as [|fuel IH]; intros rest g rank s Hc Hs; simpl; [constructor|].
  destruct (Z.ltb_spec 0 rest) as [Hpos|Hneg]; [|constructor].
  pose proof (fill_rows_spec (Z.to_nat (Z.min CHUNK rest)) g rank (mkLocals [] (df_var s)))
    as (_ & Hlen & Hdf & _ & Hall).
  destruct (fill_rows (Z.to_nat (Z.min CHUNK rest)) g rank (mkLocals [] (df_var s)))
    as [snaps [s1 g']]. simpl in *.
  constructor; [simpl; split; [lia | done]|].
  apply Forall_app. split.
  - eapply Forall_impl; [exact Hall|]. intros x [Hx1 Hx2]. simpl in *.
    rewrite Hx1. split; [lia | done].
  - constructor; [simpl; lia|]. apply IH; [done|]. simpl. lia.
Qed.

(** The frames bound to [df] are the chunks. *)
Lemma loop_locals_frames (fuel : nat) : forall linhas_rest g rank s x rs,
  In x (loop_locals fuel linhas_rest g rank s) ->
  df_var x = Some rs ->
  df_var s = Some rs \/ In (mkDataFrame COLUMNS rs.*2) (chunks_of fuel linhas_rest g).
Proof.
  induction fuel as [|fuel IH]; intros rest g rank s x rs Hin Hx; simpl in *; [done|].
  destruct (0 <? rest); [|done].
  pose proof (fill_rows_spec (Z.to_nat (Z.min CHUNK rest)) g rank (mkLocals [] (df_var s)))
    as (Hrows & _ & Hdf & Hg & Hall).
  destruct (fill_rows (Z.to_nat (Z.min CHUNK rest)) g rank (mkLocals [] (df_var s)))
    as [snaps [s1 g']].
  destruct (gen_rows (Z.to_nat (Z.min CHUNK rest)) g) as [rows g2]. simpl in *. subst g2.
  destruct Hin as [<- | Hin]; [by left|].
  apply in_app_or in Hin as [Hin | [<- | Hin]].
  - rewrite List.Forall_forall in Hall. destruct (Hall x Hin) as [Hd _].
    left. by rewrite <- Hd.
  - right. left. simpl in Hx. injection Hx as <-. by rewrite Hrows.
  - apply (IH _ _ _ _ _ _ Hin) in Hx as [Hx | Hx]; [|by right; right].
    right. left. simpl in Hx. injection Hx as <-. by rewrite Hrows.
Qed.

(** *** The partition files *)

Lemma write_parts_other (chunks : list DataFrame) : forall part m n,
  (forall j, (j < length chunks)%nat -> n <> part_name (part + j)) ->
  write_parts part chunks m !! n = m !! n.
Proof.
  induction chunks as [|df chunks IH]; intros part m n Hne; simpl; [done|].
  rewrite IH.
  - apply lookup_insert_ne. specialize (Hne 0%nat). rewrite Nat.add_0_r in Hne.
    intros Heq. apply Hne; [simpl; lia | done].
  - intros j Hj. replace (S part + j)%nat with (part + S j)%nat by lia.
    apply Hne. simpl. lia.
Qed.

Lemma write_parts_lookup (chunks : list DataFrame) : forall part m i df,
  chunks !! i = Some df ->
  write_parts part chunks m !! part_name (part + i) = Some (to_parquet_blob df).
Proof.
  induction chunks as [|df0 chunks IH]; intros part m i df Hi; [done|].
  destruct i as [|i]; simpl in *.
  - injection Hi as ->. rewrite Nat.add_0_r, write_parts_other.
    + apply lookup_insert_eq.
    + intros j _ Heq%part_name_inj. lia.
  - replace (part + S i)%nat with (S part + i)%nat by lia. by apply IH.
Qed.

Lemma write_parts_size (chunks : list DataFrame) : forall part m,
  (forall j, m !! part_name (part + j) = None) ->
  size (write_parts part chunks m) = (size m + length chunks)%nat.
Proof.
  induction chunks as [|df chunks IH]; intros part m Hfree; simpl; [lia|].
  rewrite IH.
  - rewrite map_size_insert_None; [lia|]. specialize (Hfree 0%nat).
    by rewrite Nat.add_0_r in Hfree.
  - intros j. rewrite lookup_insert_ne.
    + replace (S part + j)%nat with (part + S j)%nat by lia. apply Hfree.
    + intros Heq%part_name_inj. lia.
Qed.

Lemma write_parts_Some (chunks : list DataFrame) : forall part m n b,
  write_parts part chunks m !! n = Some b ->
  m !! n = Some b \/
  exists i df, chunks !! i = Some df /\ n = part_name (part + i) /\ b = to_parquet_blob df.
Proof.
  induction chunks as [|df chunks IH]; intros part m n b Hl; simpl in *; [by left|].
  apply IH in Hl as [Hl | (i & df' & Hi & -> & ->)].
  - destruct (decide (part_name part = n)) as [<-|Hne].
    + rewrite lookup_insert_eq in Hl. injection Hl as <-.
      right. exists 0%nat, df. by rewrite Nat.add_0_r.
    + rewrite lookup_insert_ne in Hl by done. by left.
  - right. exists (S i), df'. split; [done|]. split; [f_equal; lia | done].
Qed.

(** ** [gerar_dados] *)

Lemma gerar_dados_skip (fuel : nat) (w : World) :
  is_Some (fs_stat (out_dir w) PARQUET_DIR) ->
  gerar_dados fuel w = (Returned tt, probed w).
Proof.
  intros [st Hst]. unfold gerar_dados, path_exists, bind, log, get_fs, ret. simpl.
  by rewrite Hst.
Qed.

Lemma gerar_dados_fresh (fuel : nat) (w : World) :
  fs_stat (out_dir w) PARQUET_DIR = None ->
  (gerar_dados fuel w).2 =
    mkWorld
      (Some (<[ "vendas.parquet" := Dir (write_parts 0 (chunks_of fuel N_LINHAS (seed 42)) ∅) ]>
               (default ∅ (out_dir w))))
      (ticks w)
      (trace w ++ EvExists PARQUET_DIR :: EvMkdir PARQUET_DIR ::
         part_events 0 (chunks_of fuel N_LINHAS (seed 42))).
Proof.
  intros Hst. unfold gerar_dados, path_exists, bind at 1 2, log at 1, get_fs, ret. simpl.
  rewrite Hst. unfold mkdir, bind at 1 2, log, update_fs. simpl.
  unfold fs_stat, PARQUET_DIR, OUT_DIR, path_div in Hst. simpl in Hst.
  destruct (out_dir w) as [top|] eqn:Hfs; simpl.
  - destruct (top !! "vendas.parquet") as [[b|m]|] eqn:He; try discriminate.
    simpl. erewrite gerar_loop_run; simpl; [| reflexivity | apply lookup_insert_eq].
    by rewrite insert_insert_eq, <- !app_assoc.
  - erewrite gerar_loop_run; simpl; [| reflexivity | apply lookup_insert_eq].
    rewrite <- insert_empty at 1. by rewrite insert_insert_eq, <- !app_assoc.
Qed.

Lemma gerar_dados_fresh_Returned (fuel : nat) (w : World) :
  fs_stat (out_dir w) PARQUET_DIR = None ->
  0 < CHUNK -> enough_fuel fuel N_LINHAS ->
  (gerar_dados fuel w).1 = Returned tt.
Proof.
  intros Hst Hc Hf. unfold gerar_dados, path_exists, bind at 1 2, log at 1, get_fs, ret. simpl.
  rewrite Hst. unfold mkdir, bind at 1 2, log, update_fs. simpl.
  unfold fs_stat, PARQUET_DIR, OUT_DIR, path_div in Hst. simpl in Hst.
  destruct (out_dir w) as [top|] eqn:Hfs; simpl.
  - destruct (top !! "vendas.parquet") as [[b|m]|] eqn:He; try discriminate.
    simpl. eapply gerar_loop_Returned; simpl; [reflexivity | apply lookup_insert_eq | done..].
  - eapply gerar_loop_Returned; simpl; [reflexivity | apply lookup_insert_eq | done..].
Qed.

(** After a run that returns, the directory is there. *)
Lemma gerar_dados_leaves_directory (fuel : nat) (w w1 : World) :
  gerar_dados fuel w = (Returned tt, w1) ->
  is_Some (fs_stat (out_dir w1) PARQUET_DIR).
Proof.
  intros Hrun. destruct (fs_stat (out_dir w) PARQUET_DIR) as [st|] eqn:Hst.
  - rewrite gerar_dados_skip in Hrun by eauto. injection Hrun as <-. simpl. eauto.
  - pose proof (gerar_dados_fresh fuel w Hst) as Hw. rewrite Hrun in Hw. simpl in Hw.
    rewrite Hw. simpl. unfold fs_stat, PARQUET_DIR, OUT_DIR, path_div. simpl.
    rewrite lookup_insert_eq. eauto.
Qed.

(** ** One pass of the loop of [main] *)

Lemma filter_write_calls (fmt : string) (df : DataFrame) (present : bool) :
  In fmt FORMATOS ->
  List.filter is_format_write
    (EvTime :: write_calls fmt df present ++ EvTime :: size_calls fmt) = [format_write fmt df].
Proof.
  intros [-> | [-> | ->]]%in_FORMATOS; by destruct present.
Qed.

Lemma artifact_stored (fmt : string) (df : DataFrame) (top : gmap string node) :
  In fmt FORMATOS ->
  is_Some (fs_stat (Some (<[ entry_name fmt := artifact_node fmt df ]> top)) (artifact_path fmt)).
Proof.
  intros [-> | [-> | ->]]%in_FORMATOS; unfold fs_stat; simpl;
    rewrite lookup_insert_eq; simpl; eauto.
Qed.

Lemma measure_format_Returned df formatos fmt w formatos' w' :
  In fmt FORMATOS ->
  measure_format df formatos fmt w = (Returned formatos', w') ->
  exists top l tempos,
    out_dir w = Some top /\
    out_dir w' = Some (<[ entry_name fmt := artifact_node fmt df ]> top) /\
    ticks w' = (8 + ticks w)%nat /\
    trace w' = trace w ++ l /\
    List.filter is_format_write l = [format_write fmt df] /\
    dict_keys tempos = dict_keys QUERIES /\
    formatos' = formatos ++
      [ mkMeasurement (upper fmt) (duration w)
          (round_ratio (artifact_size fmt df) (1024 * 1024) 1)
          (map (fun '(q, t) => (q +:+ "_s", t)) tempos) ].
Proof.
  intros Hin Hrun. unfold measure_format in Hrun.
  replace (if negb (String.eqb fmt "parquet") then df else df) with df in Hrun
    by (by destruct (negb _)).
  apply bind_Returned_inv in Hrun as ([t_write size_mb] & w2 & Hwrite & Hrun).
  apply bind_Returned_inv in Hrun as (tempos & w3 & Hquery & Hrun).
  unfold ret in Hrun. injection Hrun as <- <-.
  destruct (medir_gravacao_run df fmt w Hin) as
    [(top & present & Hfs & Hw) | (e & calls & Hw & _)];
    rewrite Hw in Hwrite; [|discriminate].
  injection Hwrite as <- <- <-.
  match type of Hquery with executar_queries _ ?w2 = _ =>
    destruct (executar_queries_quiet fmt w2 (artifact_stored fmt df top Hin))
      as [Hfs' (l & Htr & Hl)]
  end.
  rewrite Hquery in Hfs', Htr. simpl in Hfs', Htr.
  apply executar_queries_Returned in Hquery as (Hk & Hti & _). simpl in Hti.
  exists top, ((EvTime :: write_calls fmt df present ++ EvTime :: size_calls fmt) ++ l), tempos.
  repeat split; try done.
  - by rewrite Htr, <- app_assoc.
  - by rewrite List.filter_app, Hl, app_nil_r, filter_write_calls.
Qed.

(** ** [main] from end to end *)

Lemma fs_glob_dataset (fs : option (gmap string node)) (pattern : string) (p : path) :
  In p (fs_glob PARQUET_DIR pattern fs) ->
  exists m n b,
    dataset fs = Some m /\ p = PARQUET_DIR // n /\ m !! n = Some b /\
    fnmatch pattern n = true.
Proof.
  unfold fs_glob, dataset, PARQUET_DIR, OUT_DIR, path_div. simpl.
  destruct fs as [top|]; [|done].
  destruct (top !! "vendas.parquet") as [[b|m]|]; try done.
  intros Hin. apply in_map_iff in Hin as (n & <- & Hn).
  apply list_elem_of_In, list_elem_of_filter in Hn as [Hmatch Hn].
  apply listdir_spec in Hn as [b Hb]. by exists m, n, b.
Qed.

Lemma main_Returned (fuel : nat) (w : World) (recs : list Measurement) (w' : World) :
  main fuel w = (Returned recs, w') ->
  exists w1 top1 m n b df l tq1 tq2 tq3,
    (mkdir OUT_DIR false true;; gerar_dados fuel) w = (Returned tt, w1) /\
    out_dir w1 = Some top1 /\
    dataset (out_dir w1) = Some m /\
    m !! n = Some b /\
    fnmatch "*.parquet" n = true /\
    read_parquet_blob b = Some df /\
    out_dir w' =
      Some (<[ "vendas.duckdb" := File (db_blob df) ]>
             (<[ "vendas.csv" := File (to_csv_blob df) ]>
               (<[ "vendas.parquet" := Dir {[ "part_00000.parquet" := to_parquet_blob df ]} ]>
                  top1))) /\
    trace w' = trace w1 ++ l /\
    List.filter is_format_write l = map (fun fmt => format_write fmt df) FORMATOS /\
    recs =
      [ mkMeasurement "PARQUET" (duration_at (ticks w1))
          (round_ratio (st_size (to_parquet_blob df)) (1024 * 1024) 1) tq1;
        mkMeasurement "CSV" (duration_at (8 + ticks w1))
          (round_ratio (st_size (to_csv_blob df)) (1024 * 1024) 1) tq2;
        mkMeasurement "DUCKDB" (duration_at (16 + ticks w1))
          (round_ratio (st_size (db_blob df)) (1024 * 1024) 1) tq3 ].
Proof.
  unfold main. intros Hrun.
  apply bind_Returned_inv in Hrun as ([] & wA & HA & Hrun).
  apply bind_Returned_inv in Hrun as ([] & w1 & H1 & Hrun).
  apply bind_Returned_inv in Hrun as (parts & wg & Hg & Hrun).
  apply bind_Returned_inv in Hrun as (first & wn & Hn & Hrun).
  apply bind_Returned_inv in Hrun as (df & wr & Hr & Hrun).
  apply bind_Returned_inv in Hrun as (formatos & w7 & Hloop & Hrun).
  unfold bind, log, ret in Hrun. simpl in Hrun. injection Hrun as <- <-.
  (* the sample *)
  unfold glob, bind, log, get_fs, ret in Hg. simpl in Hg. injection Hg as <- <-.
  destruct (fs_glob PARQUET_DIR "*.parquet" (out_dir w1)) as [|p ps] eqn:Hparts;
    [discriminate|].
  unfold next, ret in Hn. injection Hn as <- <-.
  destruct (fs_glob_dataset (out_dir w1) "*.parquet" p) as (m & n & b & Hm & -> & Hb & Hmatch).
  { rewrite Hparts. by left. }
  assert (Hst : fs_stat (out_dir w1) (PARQUET_DIR // n) = Some (IsFile b)).
  { unfold dataset in Hm. unfold fs_stat, PARQUET_DIR, OUT_DIR, path_div. simpl.
    destruct (out_dir w1) as [top|]; [|done].
    destruct (top !! "vendas.parquet") as [[?|m']|]; try done.
    injection Hm as ->. by rewrite Hb. }
  unfold read_parquet, bind, log, get_fs, ret in Hr. simpl in Hr. rewrite Hst in Hr.
  destruct (read_parquet_blob b) as [df'|] eqn:Hdf; [|discriminate].
  unfold ret in Hr. injection Hr as <- <-.
  (* the three passes *)
  simpl in Hloop.
  apply bind_Returned_inv in Hloop as (f1 & w3 & Hp & Hloop).
  apply bind_Returned_inv in Hloop as (f2 & w5 & Hc & Hloop).
  apply bind_Returned_inv in Hloop as (f3 & w7' & Hd & Hloop).
  unfold ret in Hloop. injection Hloop as Hf3 <-. symmetry in Hf3.
  rename Hf3 into Hformatos.
  apply measure_format_Returned in Hp as (top1 & l1 & tq1 & Hfs1 & Hfs3 & Hti3 & Htr3 & Hl1 & _ & ->);
    [|simpl; tauto].
  apply measure_format_Returned in Hc as (top3 & l2 & tq2 & Hfs3' & Hfs5 & Hti5 & Htr5 & Hl2 & _ & ->);
    [|simpl; tauto].
  apply measure_format_Returned in Hd as (top5 & l3 & tq3 & Hfs5' & Hfs7 & Hti7 & Htr7 & Hl3 & _ & ->);
    [|simpl; tauto].
  simpl in Hfs1. rewrite Hfs3 in Hfs3'. injection Hfs3' as <-.
  rewrite Hfs5 in Hfs5'. injection Hfs5' as <-.
  exists w1, top1, m, n, b, df'.
  exists ([EvGlob PARQUET_DIR "*.parquet"; EvReadParquet (PARQUET_DIR // n)] ++
          l1 ++ l2 ++ l3 ++ [EvWriteNotebook formatos]).
  subst formatos. eexists _, _, _.
  split; [unfold bind; by rewrite HA, H1|].
  repeat split; try done.
  - simpl. rewrite Htr7, Htr5, Htr3. simpl. by rewrite <- !app_assoc.
  - simpl. by rewrite !List.filter_app, Hl1, Hl2, Hl3.
  - simpl. unfold duration. rewrite Hti5, Hti3. simpl. reflexivity.
Qed.

(** * The claims *)

Lemma part_events_In (chunks : list DataFrame) : forall part df p,
  In (EvToParquet df p) (part_events part chunks) -> In df chunks.
Proof.
  induction chunks as [|df0 chunks IH]; intros part df p Hin; simpl in *; [done|].
  destruct Hin as [Heq | Hin]; [injection Heq as -> _; by left | right; eauto].
Qed.

(** C1. Every row of every frame that [gerar_dados] writes has, under the
    column [total], the product of its [quantidade] and its
    [preco_unitario] rounded to two decimals; the frame carries the ten
    columns of the script. *)
Theorem gerar_dados_total_invariant (fuel : nat) (w : World) (df : DataFrame)
    (p : path) (r : list cell) :
  In (EvToParquet df p) (events_of (gerar_dados fuel) w) ->
  In r (rows df) ->
  columns df = COLUMNS /\ total_invariant r.
Proof.
  intros Hev Hr.
  destruct (fs_stat (out_dir w) PARQUET_DIR) as [st|] eqn:Hst.
  - unfold events_of in Hev. rewrite gerar_dados_skip in Hev by eauto.
    simpl in Hev. rewrite drop_app_length in Hev. simpl in Hev.
    destruct Hev as [Hev|[]]. discriminate.
  - rewrite (events_of_app _ _ _ (f_equal trace (gerar_dados_fresh fuel w Hst))) in Hev.
    destruct Hev as [Hev | [Hev | Hev]]; try discriminate.
    apply part_events_In in Hev.
    pose proof (chunks_invariant fuel N_LINHAS (seed 42)) as Hall.
    rewrite List.Forall_forall in Hall. destruct (Hall df Hev) as [Hcols Hrows].
    split; [done|]. rewrite List.Forall_forall in Hrows. by apply Hrows.
Qed.

(** C2. When [main] returns, the three format writes it performs after
    generation all carry one and the same frame, which is the content of a
    single partition file of the dataset as [gerar_dados] left it, and the
    size recorded for each format is the size of that frame's artifact. *)
Theorem main_writes_one_sample (fuel : nat) (w : World) (recs : list Measurement)
    (w' : World) :
  main fuel w = (Returned recs, w') ->
  exists w1 m n b df_sample,
    (mkdir OUT_DIR false true;; gerar_dados fuel) w = (Returned tt, w1) /\
    dataset (out_dir w1) = Some m /\
    m !! n = Some b /\
    read_parquet_blob b = Some df_sample /\
    List.filter is_format_write (drop (length (trace w1)) (trace w')) =
      [ EvToParquet df_sample (PARQUET_DIR // "part_00000.parquet");
        EvToCsv df_sample CSV_FILE;
        EvExecute (CreateTableAs "vendas" df_sample) ] /\
    map Formato recs = [ "PARQUET"; "CSV"; "DUCKDB" ] /\
    map Size_MB recs =
      [ round_ratio (st_size (to_parquet_blob df_sample)) (1024 * 1024) 1;
        round_ratio (st_size (to_csv_blob df_sample)) (1024 * 1024) 1;
        round_ratio (st_size (db_blob df_sample)) (1024 * 1024) 1 ].
Proof.
  intros Hrun.
  apply main_Returned in Hrun
    as (w1 & top1 & m & n & b & df & l & tq1 & tq2 & tq3 &
        Hgen & _ & Hm & Hb & _ & Hdf & _ & Htr & Hl & ->).
  exists w1, m, n, b, df. rewrite Htr, drop_app_length. by repeat split.
Qed.

(** C3. For every frame and every supported format, the calls of
    [medir_gravacao] are: a clock reading, then only calls that replace the
    artifact of the format and none of the size computation, then (unless
    the write raised) the second clock reading, and only after it the calls
    of the size computation.  The duration returned is the rounded
    difference of these two readings. *)
Theorem medir_gravacao_timed_region (df : DataFrame) (fmt : string) (w : World) :
  In fmt FORMATOS ->
  exists timed rest,
    events_of (medir_gravacao df fmt) w = EvTime :: timed ++ rest /\
    forallb (is_write_call fmt) timed = true /\
    existsb is_size_call timed = false /\
    ((exists e, (medir_gravacao df fmt w).1 = Raised e /\ rest = []) \/
     (exists present size_mb,
        (medir_gravacao df fmt w).1 = Returned (duration w, size_mb) /\
        timed = write_calls fmt df present /\
        rest = EvTime :: size_calls fmt /\
        forallb is_size_call (size_calls fmt) = true)).
Proof.
  intros Hin.
  assert (Hdisjoint : forall l, forallb (is_write_call fmt) l = true ->
                                existsb is_size_call l = false).
  { induction l as [|e l IH]; simpl; [done|].
    intros [He Hl]%andb_prop. rewrite (IH Hl), orb_false_r.
    by destruct e as [| | | | | | | | | | | |[]|[]| | |]. }
  assert (Hwrite : forall present, forallb (is_write_call fmt) (write_calls fmt df present) = true).
  { intros present. apply in_FORMATOS in Hin as [-> | [-> | ->]]; by destruct present. }
  destruct (medir_gravacao_run df fmt w Hin) as
    [(top & present & Hfs & Hw) | (e & calls & Hw & _ & Hcalls)].
  - exists (write_calls fmt df present), (EvTime :: size_calls fmt).
    split; [apply events_of_app; by rewrite Hw|].
    split; [apply Hwrite|]. split; [apply Hdisjoint, Hwrite|].
    right. exists present, (round_ratio (artifact_size fmt df) (1024 * 1024) 1).
    rewrite Hw. apply in_FORMATOS in Hin as [-> | [-> | ->]]; by repeat split.
  - exists calls, []. split; [apply events_of_app; by rewrite Hw, app_nil_r|].
    split; [done|]. split; [by apply Hdisjoint|]. left. exists e. by rewrite Hw.
Qed.

(** C4. A call of [gerar_dados] that finds something at the path of the
    dataset returns after probing the path, leaving the output directory as
    it was; and after a call that returned, a second call does just that. *)
Theorem gerar_dados_idempotent (fuel fuel' : nat) (w : World) :
  (is_Some (fs_stat (out_dir w) PARQUET_DIR) ->
   gerar_dados fuel w = (Returned tt, probed w)) /\
  (forall w1, gerar_dados fuel w = (Returned tt, w1) ->
   gerar_dados fuel' w1 = (Returned tt, probed w1) /\ out_dir (probed w1) = out_dir w1).
Proof.
  split; [apply gerar_dados_skip|].
  intros w1 Hrun. split; [|done].
  apply gerar_dados_skip. by apply gerar_dados_leaves_directory in Hrun.
Qed.

(** C5. Whatever the format, a call of [executar_queries] that returns
    yields a mapping whose keys are the three query names in the order of
    [QUERIES], having run the three queries in that order; and it does
    return whenever the artifact opens and the engine runs each query. *)
Theorem executar_queries_keys (fmt : string) (w : World) :
  (forall tempos w', executar_queries fmt w = (Returned tempos, w') ->
     dict_keys tempos = [ "vendas_por_loja"; "ticket_medio_cliente"; "produto_top_qtd" ] /\
     selects (events_of (executar_queries fmt) w) = map snd QUERIES) /\
  (forall rel,
     artifact_relation fmt (out_dir w) = Some rel ->
     setup_ok rel = true ->
     (forall item, In item QUERIES -> select_ok rel item.2 = true) ->
     exists tempos w', executar_queries fmt w = (Returned tempos, w')).
Proof.
  split; [|apply executar_queries_ok].
  intros tempos w' Hrun. pose proof Hrun as Hrun'.
  apply executar_queries_Returned in Hrun as (Hk & _ & Htr).
  split; [done|].
  rewrite (events_of_app (executar_queries fmt) w (query_calls fmt)) by (by rewrite Hrun').
  unfold query_calls, setup_calls.
  destruct (String.eqb fmt "parquet"); [done|]. by destruct (String.eqb fmt "csv").
Qed.

(** C6, as amended. When nothing is stored at the path of the dataset,
    the chunk size is positive, the row count is not negative and the loop
    is given the fuel to finish, [gerar_dados] returns having written one
    partition file per chunk, under distinct names in the order of
    generation; the chunks hold [N_LINHAS] rows in total and none holds more
    than [CHUNK].  While it runs, the list [rows] never holds more than
    [CHUNK] rows, nor does the frame [df], which is one of the chunks; the
    two together never hold more than twice [CHUNK] rows. *)
Theorem gerar_dados_partitions (fuel : nat) (w : World) :
  fs_stat (out_dir w) PARQUET_DIR = None ->
  0 < CHUNK ->
  0 <= N_LINHAS ->
  enough_fuel fuel N_LINHAS ->
  exists chunks m w',
    gerar_dados fuel w = (Returned tt, w') /\
    events_of (gerar_dados fuel) w =
      EvExists PARQUET_DIR :: EvMkdir PARQUET_DIR :: part_events 0 chunks /\
    total_rows chunks = N_LINHAS /\
    Forall (fun df => 0 < Z.of_nat (n_rows df) <= CHUNK) chunks /\
    dataset (out_dir w') = Some m /\
    size m = length chunks /\
    (forall i df, chunks !! i = Some df -> m !! part_name i = Some (to_parquet_blob df)) /\
    Forall (fun s =>
        Z.of_nat (length (rows_var s)) <= CHUNK /\
        Z.of_nat (length (default [] (df_var s))) <= CHUNK /\
        Z.of_nat (rows_held s) <= 2 * CHUNK)
      (loop_locals fuel N_LINHAS (seed 42) 0 (mkLocals [] None)) /\
    (forall s rs,
       In s (loop_locals fuel N_LINHAS (seed 42) 0 (mkLocals [] None)) ->
       df_var s = Some rs -> In (mkDataFrame COLUMNS rs.*2) chunks).
Proof.
  intros Hst Hc Hn Hf.
  pose proof (gerar_dados_fresh fuel w Hst) as Hw.
  pose proof (gerar_dados_fresh_Returned fuel w Hst Hc Hf) as Hr.
  destruct (gerar_dados fuel w) as [o w'] eqn:Hrun. simpl in Hw, Hr. subst o w'.
  eexists (chunks_of fuel N_LINHAS (seed 42)), _, _.
  split; [reflexivity|].
  split; [apply events_of_app; by rewrite Hrun|].
  split; [rewrite chunks_total by done; lia|].
  split; [by apply chunks_bound|].
  split; [unfold dataset; simpl; by rewrite lookup_insert_eq|].
  split; [by rewrite write_parts_size|].
  split; [intros i df Hi; by apply (write_parts_lookup _ 0%nat)|].
  split.
  - eapply Forall_impl;
      [apply (loop_locals_bound fuel N_LINHAS (seed 42) 0%nat (mkLocals [] None) Hc);
       simpl; lia|].
    intros s [Hr Hd]. pose proof (rows_held_le s). repeat split; [done | done | lia].
  - intros s rs Hin Hs.
    by destruct (loop_locals_frames fuel N_LINHAS (seed 42) 0%nat (mkLocals [] None)
                   s rs Hin Hs).
Qed.

(** C7, as amended. For each of the three formats, the size that
    [medir_gravacao] returns is the byte size of the artifact it wrote
    divided by 1024 * 1024 and rounded to one decimal; it is never negative,
    and it is strictly positive exactly when the artifact occupies at least
    52429 bytes. *)
Theorem medir_gravacao_size (df : DataFrame) (fmt : string) (w : World)
    (dur : float) (size_mb : decimal) (w' : World) :
  In fmt FORMATOS ->
  medir_gravacao df fmt w = (Returned (dur, size_mb), w') ->
  size_mb = round_ratio (artifact_size fmt df) (1024 * 1024) 1 /\
  0 <= mantissa size_mb /\
  (decimal_pos size_mb <-> 52429 <= artifact_size fmt df).
Proof.
  intros Hin Hrun.
  destruct (medir_gravacao_run df fmt w Hin) as
    [(top & present & Hfs & Hw) | (e & calls & Hw & _)];
    rewrite Hw in Hrun; [|discriminate].
  injection Hrun as <- <- <-. split; [done|].
  apply size_positive_iff. unfold artifact_size.
  destruct (String.eqb fmt "parquet"); [apply st_size_nonneg|].
  destruct (String.eqb fmt "csv"); apply st_size_nonneg.
Qed.

(** C8. For every format whose artifact is stored, running the query batch
    leaves the output directory, and with it the artifact, exactly as it
    was, whether the queries succeed or fail. *)
Theorem executar_queries_read_only (fmt : string) (w : World) :
  is_Some (fs_stat (out_dir w) (artifact_path fmt)) ->
  out_dir (executar_queries fmt w).2 = out_dir w.
Proof. intros Hst. by apply executar_queries_quiet. Qed.

(** C10. For a format outside the three supported ones, [medir_gravacao]
    reads the clock twice and raises [UnboundLocalError] for [path] without
    touching the output directory; for a supported format it never raises
    that error. *)
Theorem medir_gravacao_unbound_path (df : DataFrame) (fmt : string) (w : World) :
  (~ In fmt FORMATOS ->
   medir_gravacao df fmt w =
     (Raised (UnboundLocalError "path"),
      mkWorld (out_dir w) (S (S (ticks w))) (trace w ++ [EvTime; EvTime]))) /\
  (In fmt FORMATOS ->
   forall var, (medir_gravacao df fmt w).1 <> Raised (UnboundLocalError var)).
Proof.
  split; [apply medir_gravacao_unsupported|].
  intros Hin var.
  destruct (medir_gravacao_run df fmt w Hin) as
    [(top & present & Hfs & Hw) | (e & calls & Hw & He & _)]; rewrite Hw; simpl.
  - discriminate.
  - intros [= ->]. by apply (He var).
Qed.

(** A loop that returned has generated every row. *)
Lemma gerar_loop_Returned_total (fuel : nat) : forall linhas_rest part g w top m,
  out_dir w = Some top ->
  top !! "vendas.parquet" = Some (Dir m) ->
  0 < CHUNK ->
  (gerar_loop fuel linhas_rest part g w).1 = Returned tt ->
  total_rows (chunks_of fuel linhas_rest g) = Z.max 0 linhas_rest.
Proof.
  induction fuel as [|fuel IH]; intros rest part g w top m Hfs He Hc Hret; simpl in *.
  - discriminate.
  - destruct (Z.ltb_spec 0 rest) as [Hpos|Hneg]; [|simpl; lia].
    pose proof (gen_rows_spec (Z.to_nat (Z.min CHUNK rest)) g) as [Hlen _].
    destruct (gen_rows (Z.to_nat (Z.min CHUNK rest)) g) as [rows g'].
    unfold bind, to_parquet at 1, log, update_fs, bind in Hret. simpl in Hret.
    unfold fs_save, parent, fs_stat, fs_write in Hret. rewrite Hfs in Hret.
    unfold PARQUET_DIR, OUT_DIR, path_div in Hret. simpl in Hret. rewrite He in Hret.
    simpl in Hret. eapply IH in Hret; simpl; [| reflexivity | apply lookup_insert_eq | done].
    simpl. rewrite Hret. unfold n_rows. simpl in *. rewrite Hlen. lia.
Qed.

Lemma gerar_dados_Returned_total (fuel : nat) (w : World) :
  fs_stat (out_dir w) PARQUET_DIR = None ->
  0 < CHUNK ->
  (gerar_dados fuel w).1 = Returned tt ->
  total_rows (chunks_of fuel N_LINHAS (seed 42)) = Z.max 0 N_LINHAS.
Proof.
  intros Hst Hc. unfold gerar_dados, path_exists, bind at 1 2, log at 1, get_fs, ret. simpl.
  rewrite Hst. unfold mkdir, bind at 1 2, log, update_fs. simpl.
  unfold fs_stat, PARQUET_DIR, OUT_DIR, path_div in Hst. simpl in Hst.
  destruct (out_dir w) as [top|] eqn:Hfs; simpl.
  - destruct (top !! "vendas.parquet") as [[b|m]|] eqn:He; try discriminate.
    simpl. intros Hret.
    eapply gerar_loop_Returned_total in Hret; simpl;
      [done | reflexivity | apply lookup_insert_eq | done].
  - intros Hret.
    eapply gerar_loop_Returned_total in Hret; simpl;
      [done | reflexivity | apply lookup_insert_eq | done].
Qed.

Lemma mkdir_out_dir (w : World) :
  mkdir OUT_DIR false true w =
    (Returned tt,
     mkWorld (Some (default ∅ (out_dir w))) (ticks w) (trace w ++ [EvMkdir OUT_DIR])).
Proof.
  unfold mkdir, bind, log, update_fs, fs_mkdir, OUT_DIR. simpl.
  by destruct (out_dir w).
Qed.

(** C9. Take a run of [main] that starts with no dataset, with a positive
    chunk size that divides the row count, and returns.  It generated
    [N_LINHAS] rows in partitions of [CHUNK] rows, yet what it leaves at the
    path of the dataset is a single partition holding the sample, one chunk
    of [CHUNK] rows.  From there [gerar_dados] generates nothing, and a
    further run of [main] that returns writes no partition but the three
    artifacts of that same sample, and leaves the same single partition. *)
Theorem main_truncates_dataset (fuel : nat) (w : World) (recs : list Measurement)
    (w1 : World) :
  fs_stat (out_dir w) PARQUET_DIR = None ->
  0 < CHUNK ->
  (CHUNK | N_LINHAS) ->
  main fuel w = (Returned recs, w1) ->
  exists chunks df_sample,
    events_of (mkdir OUT_DIR false true;; gerar_dados fuel) w =
      EvMkdir OUT_DIR :: EvExists PARQUET_DIR :: EvMkdir PARQUET_DIR ::
      part_events 0 chunks /\
    total_rows chunks = N_LINHAS /\
    In df_sample chunks /\
    Z.of_nat (n_rows df_sample) = CHUNK /\
    dataset (out_dir w1) = Some {[ "part_00000.parquet" := to_parquet_blob df_sample ]} /\
    (forall fuel', gerar_dados fuel' w1 = (Returned tt, probed w1)) /\
    (forall fuel' recs' w2,
       main fuel' w1 = (Returned recs', w2) ->
       List.filter is_format_write (events_of (main fuel') w1) =
         map (fun fmt => format_write fmt df_sample) FORMATOS /\
       dataset (out_dir w2) =
         Some {[ "part_00000.parquet" := to_parquet_blob df_sample ]}).
Proof.
  intros Hst Hc Hdiv Hrun.
  apply main_Returned in Hrun
    as (wg & top1 & m & n & b & df & l & tq1 & tq2 & tq3 &
        Hgen & Htop1 & Hm & Hb & _ & Hdf & Hfs1 & _ & _ & _).
  (* the generation phase *)
  unfold bind in Hgen. rewrite mkdir_out_dir in Hgen.
  set (wA := mkWorld (Some (default ∅ (out_dir w))) (ticks w) (trace w ++ [EvMkdir OUT_DIR]))
    in Hgen.
  assert (HstA : fs_stat (out_dir wA) PARQUET_DIR = None).
  { unfold wA. simpl. destruct (out_dir w); [done|]. unfold fs_stat. simpl.
    by rewrite lookup_empty. }
  pose proof (gerar_dados_fresh fuel wA HstA) as HwA. rewrite Hgen in HwA. simpl in HwA.
  set (chunks := chunks_of fuel N_LINHAS (seed 42)) in HwA.
  assert (Hm' : m = write_parts 0 chunks ∅).
  { rewrite HwA in Hm. unfold dataset in Hm. simpl in Hm.
    rewrite lookup_insert_eq in Hm. by injection Hm. }
  subst m. apply write_parts_Some in Hb as [Hb | (i & dfi & Hi & -> & ->)];
    [by rewrite lookup_empty in Hb|].
  rewrite read_to_parquet in Hdf. injection Hdf as ->.
  assert (Hin : In df chunks) by (apply list_elem_of_In; eapply list_elem_of_lookup_2, Hi).
  assert (Hrows : Z.of_nat (n_rows df) = CHUNK).
  { pose proof (chunks_exact fuel N_LINHAS (seed 42) Hc Hdiv) as Hall.
    rewrite List.Forall_forall in Hall. by apply Hall. }
  assert (Htotal : total_rows chunks = N_LINHAS).
  { assert (Hret : (gerar_dados fuel wA).1 = Returned tt) by (by rewrite Hgen).
    pose proof (gerar_dados_Returned_total fuel wA HstA Hc Hret) as Hmax. fold chunks in Hmax.
    destruct (Z.le_gt_cases N_LINHAS 0) as [Hle|Hgt]; [|lia].
    exfalso. unfold chunks in Hin. destruct fuel; simpl in Hin; [done|].
    destruct (Z.ltb_spec 0 N_LINHAS); [lia | done]. }
  (* what the run leaves *)
  assert (Hds : dataset (out_dir w1) =
                Some {[ "part_00000.parquet" := to_parquet_blob df ]}).
  { rewrite Hfs1. unfold dataset.
    rewrite lookup_insert_ne, lookup_insert_ne, lookup_insert_eq by done. done. }
  assert (Hst1 : is_Some (fs_stat (out_dir w1) PARQUET_DIR)).
  { rewrite Hfs1. unfold fs_stat. simpl.
    rewrite lookup_insert_ne, lookup_insert_ne, lookup_insert_eq by done. eauto. }
  exists chunks, df.
  split. { apply events_of_app. unfold bind. rewrite mkdir_out_dir. fold wA.
           rewrite Hgen. simpl. rewrite HwA. simpl. by rewrite <- app_assoc. }
  do 4 (split; [done|]).
  split; [intros fuel'; by apply gerar_dados_skip|].
  (* the next run *)
  intros fuel' recs' w2 Hrun2. pose proof Hrun2 as Hrun2'.
  apply main_Returned in Hrun2
    as (wg2 & top2 & m2 & n2 & b2 & df2 & l2 & tq1' & tq2' & tq3' &
        Hgen2 & Htop2 & Hm2 & Hb2 & _ & Hdf2 & Hfs2 & Htr2 & Hl2 & _).
  assert (Hout : Some (default ∅ (out_dir w1)) = out_dir w1) by (by rewrite Hfs1).
  unfold bind in Hgen2. rewrite mkdir_out_dir in Hgen2.
  rewrite gerar_dados_skip in Hgen2 by (cbn [out_dir]; by rewrite Hout).
  injection Hgen2 as <-. cbn [out_dir probed trace] in Hm2, Htop2, Htr2.
  rewrite Hout in Hm2, Htop2. rewrite Hds in Hm2. injection Hm2 as <-.
  apply lookup_singleton_Some in Hb2 as [<- <-].
  rewrite read_to_parquet in Hdf2. injection Hdf2 as <-.
  rewrite Hfs1 in Htop2. injection Htop2 as <-.
  split.
  - rewrite (events_of_app (main fuel') w1
               ([EvMkdir OUT_DIR; EvExists PARQUET_DIR] ++ l2)).
    + by rewrite List.filter_app, Hl2.
    + rewrite Hrun2'. simpl. by rewrite Htr2, <- !app_assoc.
  - rewrite Hfs2. unfold dataset.
    rewrite lookup_insert_ne, lookup_insert_ne, lookup_insert_eq by done. done.
Qed.
Lemma total_rows_exact (chunks : list DataFrame) (c : Z) :
  Forall (fun df => Z.of_nat (n_rows df) = c) chunks ->
  total_rows chunks = Z.of_nat (length chunks) * c.
Proof.
  induction 1 as [|df chunks Hdf _ IH]; simpl; [done|].
  rewrite IH, Hdf. lia.
Qed.

(** * Further properties of the script *)

(** ** The generation loop, row by row *)

Lemma listdir_empty {A} : listdir (∅ : gmap string A) = [].
Proof.
  destruct (listdir (∅ : gmap string A)) as [|n l] eqn:E; [done|].
  assert (Hin : n ∈ listdir (∅ : gmap string A)) by (rewrite E; left).
  apply listdir_spec in Hin as [x Hx]. by rewrite lookup_empty in Hx.
Qed.

(** A first call of [gerar_dados] runs the loop in an output directory
    where the dataset directory has just been created. *)
Lemma gerar_dados_fresh_loop (fuel : nat) (w : World) :
  fs_stat (out_dir w) PARQUET_DIR = None ->
  gerar_dados fuel w =
    gerar_loop fuel N_LINHAS 0 (seed 42)
      (mkWorld (Some (<[ "vendas.parquet" := Dir ∅ ]> (default ∅ (out_dir w)))) (ticks w)
         (trace w ++ [EvExists PARQUET_DIR; EvMkdir PARQUET_DIR])).
Proof.
  intros Hst. unfold gerar_dados, path_exists, bind at 1 2, log at 1, get_fs, ret. simpl.
  rewrite Hst. unfold mkdir, bind at 1 2, log, update_fs. simpl.
  unfold fs_stat, PARQUET_DIR, OUT_DIR, path_div in Hst. simpl in Hst.
  destruct (out_dir w) as [top|] eqn:Hfs; simpl.
  - destruct (top !! "vendas.parquet") as [[b|m]|] eqn:He; try discriminate.
    simpl. by rewrite <- app_assoc.
  - rewrite insert_empty. by rewrite <- app_assoc.
Qed.

Lemma gerar_loop_stuck (fuel : nat) : forall linhas_rest part g w top m,
  out_dir w = Some top ->
  top !! "vendas.parquet" = Some (Dir m) ->
  CHUNK <= 0 -> 0 < linhas_rest ->
  (gerar_loop fuel linhas_rest part g w).1 = OutOfFuel.
Proof.
  induction fuel as [|fuel IH]; intros rest part g w top m Hfs He Hc Hpos; simpl; [done|].
  destruct (Z.ltb_spec 0 rest) as [_|Hneg]; [|lia].
  destruct (gen_rows (Z.to_nat (Z.min CHUNK rest)) g) as [rows g'].
  unfold bind, to_parquet at 1, log, update_fs, bind. simpl. unfold fs_save, parent, fs_stat, fs_write. rewrite Hfs.
  unfold PARQUET_DIR, OUT_DIR, path_div. simpl. rewrite He. simpl.
  eapply IH; simpl; [reflexivity | apply lookup_insert_eq | done | lia].
Qed.

Lemma chunks_stuck (fuel : nat) : forall linhas_rest g,
  CHUNK <= 0 -> 0 < linhas_rest ->
  length (chunks_of fuel linhas_rest g) = fuel /\
  Forall (fun df => n_rows df = 0%nat) (chunks_of fuel linhas_rest g).
Proof.
  induction fuel as [|fuel IH]; intros rest g Hc Hpos; simpl; [by split|].
  destruct (Z.ltb_spec 0 rest) as [_|Hneg]; [|lia].
  pose proof (gen_rows_spec (Z.to_nat (Z.min CHUNK rest)) g) as [Hlen _].
  destruct (gen_rows (Z.to_nat (Z.min CHUNK rest)) g) as [rows g'].
  assert (Hpos' : 0 < rest - Z.min CHUNK rest) by lia.
  destruct (IH (rest - Z.min CHUNK rest) g' Hc Hpos') as [IH1 IH2].
  simpl. split; [by rewrite IH1|]. constructor; [|done].
  unfold n_rows. simpl in *. rewrite Hlen. lia.
Qed.

Lemma gen_rows_app (n k : nat) : forall g,
  gen_rows (n + k) g =
    ((gen_rows n g).1 ++ (gen_rows k (gen_rows n g).2).1, (gen_rows k (gen_rows n g).2).2).
Proof.
  induction n as [|n IH]; intros g; simpl.
  - by destruct (gen_rows k g).
  - destruct (gen_row g) as [r g1]. rewrite IH.
    destruct (gen_rows n g1) as [rs g2]. simpl.
    by destruct (gen_rows k g2).
Qed.

Lemma chunks_rows (fuel : nat) : forall linhas_rest g,
  0 < CHUNK -> enough_fuel fuel linhas_rest ->
  concat (map rows (chunks_of fuel linhas_rest g)) = (gen_rows (Z.to_nat linhas_rest) g).1.
Proof.
  induction fuel as [|fuel IH]; intros rest g Hc [Hf1 Hf2]; simpl; [lia|].
  destruct (Z.ltb_spec 0 rest) as [Hpos|Hneg].
  - replace (Z.to_nat rest)
      with (Z.to_nat (Z.min CHUNK rest) + Z.to_nat (rest - Z.min CHUNK rest))%nat by lia.
    rewrite gen_rows_app.
    destruct (gen_rows (Z.to_nat (Z.min CHUNK rest)) g) as [rs g']. simpl.
    rewrite IH; [done | done |].
    rewrite Nat2Z.inj_succ in Hf2.
    split; [destruct fuel; [simpl in *; lia | lia] |].
    destruct (Z.min_spec CHUNK rest) as [[_ ->]|[_ ->]]; [lia|].
    destruct fuel; [simpl in *; lia | nia].
  - by replace (Z.to_nat rest) with 0%nat by lia.
Qed.

Lemma written_frames_app (l l' : list event) :
  written_frames (l ++ l') = written_frames l ++ written_frames l'.
Proof. apply omap_app. Qed.

Lemma written_frames_parts (chunks : list DataFrame) : forall part,
  written_frames (part_events part chunks) = chunks.
Proof.
  induction chunks as [|df chunks IH]; intros part; [done|].
  simpl. unfold written_frames in *. simpl. by rewrite IH.
Qed.

Lemma chunks_length (fuel : nat) : forall linhas_rest g,
  0 < CHUNK -> enough_fuel fuel linhas_rest ->
  Z.of_nat (length (chunks_of fuel linhas_rest g)) = (Z.max 0 linhas_rest + CHUNK - 1) / CHUNK.
Proof.
  induction fuel as [|fuel IH]; intros rest g Hc [Hf1 Hf2]; simpl; [lia|].
  destruct (Z.ltb_spec 0 rest) as [Hpos|Hneg].
  - destruct (gen_rows (Z.to_nat (Z.min CHUNK rest)) g) as [rows g'].
    cbn [length]. rewrite Nat2Z.inj_succ, IH; [| done |].
    + destruct (Z.min_spec CHUNK rest) as [[Hlt ->]|[Hge ->]].
      * replace (Z.max 0 rest + CHUNK - 1)
          with (Z.max 0 (rest - CHUNK) + CHUNK - 1 + 1 * CHUNK) by lia.
        rewrite Z.div_add by lia. lia.
      * replace (rest - rest) with 0 by lia.
        rewrite (Z.div_small (Z.max 0 0 + CHUNK - 1)) by lia.
        change (Z.succ 0) with 1. apply (Z.div_unique _ _ 1 (rest - 1)); lia.
    + rewrite Nat2Z.inj_succ in Hf2.
      split; [destruct fuel; [simpl in *; lia | lia] |].
      destruct (Z.min_spec CHUNK rest) as [[_ ->]|[_ ->]]; [lia|].
      destruct fuel; [simpl in *; lia | nia].
  - simpl. rewrite Z.div_small; lia.
Qed.

Lemma chunks_nth (fuel : nat) : forall linhas_rest g i df,
  0 < CHUNK ->
  chunks_of fuel linhas_rest g !! i = Some df ->
  Z.of_nat i * CHUNK < linhas_rest /\
  Z.of_nat (n_rows df) = Z.min CHUNK (linhas_rest - Z.of_nat i * CHUNK).
Proof.
  induction fuel as [|fuel IH]; intros rest g i df Hc Hi; simpl in Hi; [done|].
  destruct (Z.ltb_spec 0 rest) as [Hpos|Hneg]; [|done].
  pose proof (gen_rows_spec (Z.to_nat (Z.min CHUNK rest)) g) as [Hlen _].
  destruct (gen_rows (Z.to_nat (Z.min CHUNK rest)) g) as [rows g'].
  destruct i as [|i]; simpl in Hi.
  - injection Hi as <-. unfold n_rows. simpl in *. rewrite Hlen. lia.
  - apply IH in Hi as [Hlt Hn]; [|done]. rewrite Hn, Nat2Z.inj_succ.
    destruct (Z.min_spec CHUNK rest) as [[Hlt' Hm]|[Hge Hm]]; rewrite Hm in *; [|nia].
    split; [nia|]. f_equal. lia.
Qed.

Lemma filter_no_match (pattern : string) (l : list string) :
  (forall n, n ∈ l -> fnmatch pattern n = false) ->
  filter (fun n => fnmatch pattern n = true) l = [].
Proof.
  induction l as [|n l IH]; intros Hno; [done|].
  rewrite filter_cons_False by (rewrite Hno; [done | left]).
  apply IH. intros n' Hn'. apply Hno. by right.
Qed.

Lemma path_div_inj (p : path) (n n' : string) : p // n = p // n' -> n = n'.
Proof. unfold path_div. intros Heq%app_inv_head. by injection Heq. Qed.

(** What [*.parquet] selects in a directory all of whose members it
    matches. *)
Lemma parquet_files_all (top : gmap string node) (m : gmap string blob) :
  top !! "vendas.parquet" = Some (Dir m) ->
  (forall n, is_Some (m !! n) -> fnmatch "*.parquet" n = true) ->
  parquet_files PARQUET_DIR "*.parquet" (Some top) = m /\
  (forall n, In (PARQUET_DIR // n) (fs_glob PARQUET_DIR "*.parquet" (Some top))
             <-> is_Some (m !! n)).
Proof.
  intros He Hall. unfold parquet_files, fs_glob, PARQUET_DIR, OUT_DIR. simpl. rewrite He.
  split.
  - apply map_filter_id. intros n b Hb. simpl. apply Hall. eauto.
  - intros n. rewrite in_map_iff. split.
    + intros (n' & Heq & Hin). apply path_div_inj in Heq as ->.
      apply list_elem_of_In, list_elem_of_filter in Hin as [_ Hin].
      by apply listdir_spec in Hin.
    + intros Hn. exists n. split; [done|].
      apply list_elem_of_In, list_elem_of_filter. split; [by apply Hall|].
      by apply listdir_spec.
Qed.

(** X1. With a chunk size that is not positive and rows to generate, the
    loop of [gerar_dados] never ends: [n = min(CHUNK, linhas_rest)] is not
    positive, so each pass writes a partition without rows and
    [linhas_rest] does not decrease.  Whatever the fuel, the call is still
    running when it is spent, having written one empty partition per
    pass. *)
Theorem gerar_dados_never_ends (w : World) (fuel : nat) :
  fs_stat (out_dir w) PARQUET_DIR = None ->
  CHUNK <= 0 ->
  0 < N_LINHAS ->
  (gerar_dados fuel w).1 = OutOfFuel /\
  exists chunks,
    events_of (gerar_dados fuel) w =
      EvExists PARQUET_DIR :: EvMkdir PARQUET_DIR :: part_events 0 chunks /\
    length chunks = fuel /\
    Forall (fun df => n_rows df = 0%nat) chunks.
Proof.
  intros Hst Hc Hpos. split.
  - rewrite gerar_dados_fresh_loop by done.
    eapply gerar_loop_stuck; simpl; [reflexivity | apply lookup_insert_eq | done..].
  - exists (chunks_of fuel N_LINHAS (seed 42)).
    split; [|by apply chunks_stuck].
    apply events_of_app. by rewrite gerar_dados_fresh.
Qed.

(** X2. With no row to generate ([N_LINHAS <= 0]) and no dataset in
    place, [main] creates the dataset directory, leaves it empty, and stops
    at [next(PARQUET_DIR.glob("*.parquet"))] with [StopIteration]: no format
    is measured and no notebook is written. *)
Theorem main_without_rows (fuel : nat) (w : World) :
  fs_stat (out_dir w) PARQUET_DIR = None ->
  N_LINHAS <= 0 ->
  (1 <= fuel)%nat ->
  main fuel w =
    (Raised StopIteration,
     mkWorld (Some (<[ "vendas.parquet" := Dir ∅ ]> (default ∅ (out_dir w)))) (ticks w)
       (trace w ++ [ EvMkdir OUT_DIR; EvExists PARQUET_DIR; EvMkdir PARQUET_DIR;
                     EvGlob PARQUET_DIR "*.parquet" ])).
Proof.
  intros Hst Hn Hf. unfold main. unfold bind at 1. rewrite mkdir_out_dir.
  unfold bind at 1. rewrite gerar_dados_fresh_loop.
  2: { simpl. destruct (out_dir w); [done|]. unfold fs_stat. simpl. by rewrite lookup_empty. }
  destruct fuel as [|fuel]; [lia|]. simpl.
  destruct (Z.ltb_spec 0 N_LINHAS) as [Hpos|_]; [lia|].
  unfold ret at 1. unfold glob, bind, log, get_fs, ret, fs_glob, PARQUET_DIR, OUT_DIR, path_div.
  simpl. rewrite lookup_insert_eq, listdir_empty. simpl.
  by rewrite <- !app_assoc.
Qed.

(** X3. When something is stored at the dataset path but offers no member
    whose name ends in [.parquet] (a regular file, or a directory of other
    files), [gerar_dados] takes the dataset to exist and generates nothing,
    and [main] stops with [StopIteration], the output directory left as it
    was. *)
Theorem main_without_partition (fuel : nat) (w : World) :
  is_Some (fs_stat (out_dir w) PARQUET_DIR) ->
  (forall m n, dataset (out_dir w) = Some m -> is_Some (m !! n) ->
               fnmatch "*.parquet" n = false) ->
  main fuel w =
    (Raised StopIteration,
     mkWorld (out_dir w) (ticks w)
       (trace w ++ [ EvMkdir OUT_DIR; EvExists PARQUET_DIR; EvGlob PARQUET_DIR "*.parquet" ])).
Proof.
  intros Hst Hno. unfold main. unfold bind at 1. rewrite mkdir_out_dir.
  assert (Hout : Some (default ∅ (out_dir w)) = out_dir w).
  { destruct (out_dir w); [done|]. by destruct Hst. }
  unfold bind at 1. rewrite gerar_dados_skip by (cbn [out_dir]; by rewrite Hout).
  unfold probed. cbn [out_dir ticks trace]. rewrite Hout.
  assert (Hglob : fs_glob PARQUET_DIR "*.parquet" (out_dir w) = []).
  { unfold fs_glob, dataset in *.
    destruct (out_dir w) as [top|]; [|done].
    change PARQUET_DIR with ["vendas.parquet"]. cbv iota beta.
    destruct (top !! "vendas.parquet") as [[b|m]|]; try done.
    rewrite filter_no_match; [done|].
    intros n Hn%listdir_spec. by apply (Hno m n). }
  unfold glob, bind, log, get_fs, ret. simpl. rewrite Hglob. simpl.
  by rewrite <- !app_assoc.
Qed.

(** X4. The rows a first call of [gerar_dados] writes, taken partition
    after partition, are the first [N_LINHAS] rows the generator seeded
    with 42 yields: the chunk size decides where the partitions are cut,
    not what the rows are. *)
Theorem gerar_dados_rows_of_seed (fuel : nat) (w : World) :
  fs_stat (out_dir w) PARQUET_DIR = None ->
  0 < CHUNK ->
  enough_fuel fuel N_LINHAS ->
  concat (map rows (written_frames (events_of (gerar_dados fuel) w))) =
    (gen_rows (Z.to_nat N_LINHAS) (seed 42)).1.
Proof.
  intros Hst Hc Hf.
  rewrite (events_of_app (gerar_dados fuel) w
             (EvExists PARQUET_DIR :: EvMkdir PARQUET_DIR ::
              part_events 0 (chunks_of fuel N_LINHAS (seed 42))))
    by (by rewrite gerar_dados_fresh).
  change (concat (map rows (written_frames (part_events 0 (chunks_of fuel N_LINHAS (seed 42)))))
          = (gen_rows (Z.to_nat N_LINHAS) (seed 42)).1).
  rewrite written_frames_parts. by apply chunks_rows.
Qed.

(** X5. A first call of [gerar_dados] with a positive chunk size leaves
    [ceil(N_LINHAS / CHUNK)] partition files, named [part_00000.parquet]
    onwards without a gap; partition [i] holds
    [min(CHUNK, N_LINHAS - i * CHUNK)] rows, so every partition is full
    except possibly the last. *)
Theorem gerar_dados_row_distribution (fuel : nat) (w : World) :
  fs_stat (out_dir w) PARQUET_DIR = None ->
  0 < CHUNK ->
  enough_fuel fuel N_LINHAS ->
  exists m,
    dataset (out_dir (gerar_dados fuel w).2) = Some m /\
    Z.of_nat (size m) = (Z.max 0 N_LINHAS + CHUNK - 1) / CHUNK /\
    (forall i, Z.of_nat i * CHUNK < N_LINHAS ->
       exists df, m !! part_name i = Some (to_parquet_blob df) /\
                  Z.of_nat (n_rows df) = Z.min CHUNK (N_LINHAS - Z.of_nat i * CHUNK)) /\
    (forall n, is_Some (m !! n) ->
       exists i, n = part_name i /\ Z.of_nat i * CHUNK < N_LINHAS).
Proof.
  intros Hst Hc Hf. rewrite gerar_dados_fresh by done.
  set (chunks := chunks_of fuel N_LINHAS (seed 42)).
  exists (write_parts 0 chunks ∅).
  split. { unfold dataset. simpl. by rewrite lookup_insert_eq. }
  split. { rewrite write_parts_size by (intros j; apply lookup_empty).
           rewrite map_size_empty. simpl. by apply chunks_length. }
  split.
  - intros i Hi.
    assert (Hlt : (i < length chunks)%nat).
    { apply Nat2Z.inj_lt. unfold chunks. rewrite chunks_length by done.
      assert (Z.of_nat i <= (N_LINHAS - 1) / CHUNK) by (apply Z.div_le_lower_bound; lia).
      replace (Z.max 0 N_LINHAS + CHUNK - 1) with (N_LINHAS - 1 + 1 * CHUNK) by lia.
      rewrite Z.div_add by lia. lia. }
    destruct (lookup_lt_is_Some_2 chunks i Hlt) as [df Hdf].
    exists df. split.
    + by apply (write_parts_lookup chunks 0 ∅ i df).
    + by apply (chunks_nth fuel N_LINHAS (seed 42) i df).
  - intros n [b Hb]. apply write_parts_Some in Hb as [Hb | (i & df & Hi & -> & _)].
    + by rewrite lookup_empty in Hb.
    + exists i. split; [done|]. by apply (chunks_nth fuel N_LINHAS (seed 42) i df).
Qed.

(** X6. Every partition a first call of [gerar_dados] leaves is selected
    by the pattern [*.parquet]: the glob [main] draws its sample from lists
    each of them, and the view [executar_queries] creates for parquet scans
    the whole dataset. *)
Theorem generated_partitions_selected (fuel : nat) (w : World) :
  fs_stat (out_dir w) PARQUET_DIR = None ->
  exists m,
    dataset (out_dir (gerar_dados fuel w).2) = Some m /\
    artifact_relation "parquet" (out_dir (gerar_dados fuel w).2) = Some (ParquetScan m) /\
    (forall n, In (PARQUET_DIR // n)
                  (fs_glob PARQUET_DIR "*.parquet" (out_dir (gerar_dados fuel w).2))
               <-> is_Some (m !! n)).
Proof.
  intros Hst. rewrite gerar_dados_fresh by done.
  set (chunks := chunks_of fuel N_LINHAS (seed 42)).
  exists (write_parts 0 chunks ∅). cbn [out_dir].
  split. { unfold dataset. by rewrite lookup_insert_eq. }
  destruct (parquet_files_all
              (<[ "vendas.parquet" := Dir (write_parts 0 chunks ∅) ]> (default ∅ (out_dir w)))
              (write_parts 0 chunks ∅)) as [Hfiles Hglob].
  - apply lookup_insert_eq.
  - intros n [b Hb]. apply write_parts_Some in Hb as [Hb | (i & df & _ & -> & _)].
    + by rewrite lookup_empty in Hb.
    + apply part_name_matches.
  - split; [|exact Hglob]. unfold artifact_relation.
    change (String.eqb "parquet" "parquet") with true. cbv iota. by rewrite Hfiles.
Qed.

Lemma gerar_dados_other (fuel : nat) (w : World) (e : string) :
  e <> "vendas.parquet" ->
  default ∅ (out_dir (gerar_dados fuel w).2) !! e = default ∅ (out_dir w) !! e.
Proof.
  intros Hne. destruct (fs_stat (out_dir w) PARQUET_DIR) as [st|] eqn:Hst.
  - by rewrite gerar_dados_skip by eauto.
  - rewrite gerar_dados_fresh by done. simpl. by rewrite lookup_insert_ne.
Qed.

Lemma gerar_loop_no_exception (fuel : nat) : forall linhas_rest part g w top m e,
  out_dir w = Some top ->
  top !! "vendas.parquet" = Some (Dir m) ->
  (gerar_loop fuel linhas_rest part g w).1 <> Raised e.
Proof.
  induction fuel as [|fuel IH]; intros rest part g w top m e Hfs He; simpl; [done|].
  destruct (0 <? rest); [|done].
  destruct (gen_rows (Z.to_nat (Z.min CHUNK rest)) g) as [rows g'].
  unfold bind, to_parquet at 1, log, update_fs, bind. simpl. unfold fs_save, parent, fs_stat, fs_write. rewrite Hfs.
  unfold PARQUET_DIR, OUT_DIR, path_div. simpl. rewrite He. simpl.
  eapply IH; simpl; [reflexivity | apply lookup_insert_eq].
Qed.

(** X7. [gerar_dados] touches nothing but the dataset path and never
    raises: every other entry of the output directory is after the call
    what it was before, whether the call generates, skips or is still
    running when the fuel is spent, and a first call creates the output
    directory when it is missing ([mkdir(parents=True, exist_ok=True)]). *)
Theorem gerar_dados_frame (fuel : nat) (w : World) (e : string) :
  e <> "vendas.parquet" ->
  default ∅ (out_dir (gerar_dados fuel w).2) !! e = default ∅ (out_dir w) !! e /\
  (fs_stat (out_dir w) PARQUET_DIR = None -> is_Some (out_dir (gerar_dados fuel w).2)) /\
  (forall x, (gerar_dados fuel w).1 <> Raised x).
Proof.
  intros Hne. split; [by apply gerar_dados_other|].
  destruct (fs_stat (out_dir w) PARQUET_DIR) as [st|] eqn:Hst.
  - rewrite gerar_dados_skip by eauto. simpl. split; [discriminate | done].
  - split; [intros _; rewrite gerar_dados_fresh by done; simpl; eauto|].
    intros x. rewrite gerar_dados_fresh_loop by done.
    eapply gerar_loop_no_exception; simpl; [reflexivity | apply lookup_insert_eq].
Qed.

(** ** [medir_gravacao]: when it goes through, and what it leaves *)

Lemma medir_gravacao_cases df fmt w :
  In fmt FORMATOS ->
  (can_write fmt (out_dir w) = true /\
   exists top present,
     out_dir w = Some top /\
     medir_gravacao df fmt w =
       (Returned (duration w, round_ratio (artifact_size fmt df) (1024 * 1024) 1),
        mkWorld (Some (<[ entry_name fmt := artifact_node fmt df ]> top)) (S (S (ticks w)))
          (trace w ++ EvTime :: write_calls fmt df present ++ EvTime :: size_calls fmt)))
  \/
  (can_write fmt (out_dir w) = false /\
   exists e calls,
     medir_gravacao df fmt w =
       (Raised e, mkWorld (out_dir w) (S (ticks w)) (trace w ++ EvTime :: calls)) /\
     In e [ FileNotFoundError (artifact_path fmt); NotADirectoryError (artifact_path fmt);
            IsADirectoryError (artifact_path fmt); OSError OUT_DIR; DuckDBError ]).
Proof.
  intros Hin. unfold can_write. apply in_FORMATOS in Hin as [-> | [-> | ->]].
  - destruct (out_dir w) as [top|] eqn:Hfs.
    + change (entry_name "parquet") with "vendas.parquet".
      destruct (top !! "vendas.parquet") as [[b|m]|] eqn:He.
      * right. split; [done|]. eexists _, _.
        rewrite (medir_parquet_file df w top b Hfs He), Hfs. split; [done|]. simpl. tauto.
      * left. split; [done|]. exists top, true. split; [done|].
        apply (medir_parquet_present df w top m Hfs He).
      * left. split; [done|]. exists top, false. split; [done|].
        apply (medir_parquet_absent df w top Hfs He).
    + right. split; [done|]. eexists _, _.
      rewrite (medir_parquet_no_out_dir df w Hfs), Hfs. split; [done|]. simpl. tauto.
  - destruct (out_dir w) as [top|] eqn:Hfs.
    + change (entry_name "csv") with "vendas.csv".
      destruct (top !! "vendas.csv") as [[b|m]|] eqn:He.
      * left. split; [done|]. exists top, true. split; [done|].
        apply (medir_csv_ok df w top Hfs). congruence.
      * right. split; [done|]. eexists _, _.
        rewrite (medir_csv_dir df w top m Hfs He), Hfs. split; [done|]. simpl. tauto.
      * left. split; [done|]. exists top, true. split; [done|].
        apply (medir_csv_ok df w top Hfs). congruence.
    + right. split; [done|]. eexists _, _.
      rewrite (medir_csv_no_out_dir df w Hfs), Hfs. split; [done|]. simpl. tauto.
  - destruct (out_dir w) as [top|] eqn:Hfs.
    + change (entry_name "duckdb") with "vendas.duckdb".
      destruct (top !! "vendas.duckdb") as [[b|m]|] eqn:He.
      * left. split; [done|]. exists top, true. split; [done|].
        apply (medir_duckdb_file df w top b Hfs He).
      * right. split; [done|]. eexists _, _.
        rewrite (medir_duckdb_dir df w top m Hfs He), Hfs. split; [done|]. simpl. tauto.
      * left. split; [done|]. exists top, false. split; [done|].
        apply (medir_duckdb_absent df w top Hfs He).
    + right. split; [done|]. eexists _, _.
      rewrite (medir_duckdb_no_out_dir df w Hfs), Hfs. split; [done|]. simpl. tauto.
Qed.

Lemma can_write_artifact (fmt : string) (df : DataFrame) (top : gmap string node) :
  In fmt FORMATOS ->
  can_write fmt (Some (<[ entry_name fmt := artifact_node fmt df ]> top)) = true.
Proof.
  intros [-> | [-> | ->]]%in_FORMATOS; unfold can_write; by rewrite lookup_insert_eq.
Qed.

Lemma round_half_even_error (num den : Z) :
  0 < den -> 2 * Z.abs (round_half_even num den * den - num) <= den.
Proof.
  intros Hd. unfold round_half_even.
  pose proof (Z.div_mod num den ltac:(lia)) as Hdm.
  pose proof (Z.mod_pos_bound num den Hd) as Hb.
  destruct (Z.ltb_spec (2 * (num mod den)) den);
    [|destruct (Z.ltb_spec den (2 * (num mod den))); [|destruct (Z.even (num / den))]]; nia.
Qed.

Lemma round_half_even_mono (a b den : Z) :
  0 < den -> a <= b -> round_half_even a den <= round_half_even b den.
Proof.
  intros Hd Hab.
  assert (Hlo : forall x, x / den <= round_half_even x den <= x / den + 1).
  { intros x. unfold round_half_even.
    destruct (2 * (x mod den) <? den); [lia|].
    destruct (den <? 2 * (x mod den)); [lia|]. destruct (Z.even (x / den)); lia. }
  pose proof (Z.div_le_mono a b den Hd Hab) as Hq.
  destruct (Z.eq_dec (a / den) (b / den)) as [Heq|Hne].
  - pose proof (Z.div_mod a den ltac:(lia)) as Ha.
    pose proof (Z.div_mod b den ltac:(lia)) as Hb.
    assert (Hr : a mod den <= b mod den) by nia.
    unfold round_half_even. rewrite Heq.
    destruct (Z.ltb_spec (2 * (a mod den)) den);
      destruct (Z.ltb_spec (2 * (b mod den)) den); try lia;
      destruct (Z.ltb_spec den (2 * (a mod den)));
      destruct (Z.ltb_spec den (2 * (b mod den))); try lia;
      destruct (Z.even (b / den)); lia.
  - pose proof (Hlo a). pose proof (Hlo b). lia.
Qed.

Lemma artifact_relation_written (fmt : string) (df : DataFrame) (top : gmap string node) :
  In fmt FORMATOS ->
  artifact_relation fmt (Some (<[ entry_name fmt := artifact_node fmt df ]> top))
    = Some (written_relation fmt df).
Proof.
  intros Hin.
  apply in_FORMATOS in Hin as [-> | [-> | ->]];
    unfold artifact_relation, written_relation, parquet_files, fs_stat.
  - change (artifact_node "parquet" df)
      with (Dir {[ "part_00000.parquet" := to_parquet_blob df ]}).
    change (entry_name "parquet") with "vendas.parquet".
    change PARQUET_DIR with ["vendas.parquet"]. cbv iota beta.
    change (String.eqb "parquet" "parquet") with true. cbv iota.
    rewrite lookup_insert_eq, map_filter_id; [done|].
    intros n b [<- _]%lookup_singleton_Some. reflexivity.
  - simpl. by rewrite lookup_insert_eq.
  - simpl. by rewrite lookup_insert_eq.
Qed.

(** The expression [main] loads its sample with is [load_sample]. *)
Lemma main_load_sample (fuel : nat) (w : World) :
  main fuel w =
    (mkdir OUT_DIR false true;;
     gerar_dados fuel;;
     df_sample ← load_sample;
     formatos ← foldM (measure_format df_sample) [] FORMATOS;
     log (EvWriteNotebook formatos);;
     ret formatos) w.
Proof.
  unfold main, load_sample, bind.
  destruct (mkdir OUT_DIR false true w) as [[[]|e|] w1]; [|done..].
  destruct (gerar_dados fuel w1) as [[[]|e|] w2]; [|done..].
  destruct (glob PARQUET_DIR "*.parquet" w2) as [[parts|e|] w3]; [|done..].
  destruct (next parts w3) as [[first|e|] w4]; [|done..].
  by destruct (read_parquet first w4) as [[df|e|] w5].
Qed.

(** X8. Writing a format changes the entry of that format and no other:
    whatever the format string and whether the call returns or raises,
    every other entry of the output directory is what it was. *)
Theorem medir_gravacao_frame (df : DataFrame) (fmt : string) (w : World) (e : string) :
  e <> entry_name fmt ->
  default ∅ (out_dir (medir_gravacao df fmt w).2) !! e = default ∅ (out_dir w) !! e.
Proof.
  intros Hne. destruct (decide (In fmt FORMATOS)) as [Hin|Hnot].
  - destruct (medir_gravacao_cases df fmt w Hin)
      as [(_ & top & present & Hfs & ->) | (_ & x & calls & -> & _)]; simpl; [|done].
    rewrite Hfs. simpl. by rewrite lookup_insert_ne.
  - by rewrite medir_gravacao_unsupported.
Qed.

(** X9. For a supported format [medir_gravacao] returns exactly when the
    write can go through: the output directory exists and the path of the
    format is free or holds the kind of entry the format replaces.
    Otherwise it raises inside the write: [FileNotFoundError] from
    [mkdir], [NotADirectoryError] from [rmtree], [IsADirectoryError] from
    opening or unlinking a directory, the plain [OSError] of pandas when
    the CSV file is to be saved with no output directory, or
    [duckdb.Error]; the output directory is then unchanged and the clock
    has been read once only. *)
Theorem medir_gravacao_returns_iff (df : DataFrame) (fmt : string) (w : World) :
  In fmt FORMATOS ->
  ((exists r w', medir_gravacao df fmt w = (Returned r, w')) <->
   can_write fmt (out_dir w) = true) /\
  (can_write fmt (out_dir w) = false ->
   exists e,
     (medir_gravacao df fmt w).1 = Raised e /\
     In e [ FileNotFoundError (artifact_path fmt); NotADirectoryError (artifact_path fmt);
            IsADirectoryError (artifact_path fmt); OSError OUT_DIR; DuckDBError ] /\
     out_dir (medir_gravacao df fmt w).2 = out_dir w /\
     ticks (medir_gravacao df fmt w).2 = S (ticks w)).
Proof.
  intros Hin.
  destruct (medir_gravacao_cases df fmt w Hin)
    as [(Hcan & top & present & Hfs & Hrun) | (Hcan & x & calls & Hrun & Hx)];
    rewrite Hrun, Hcan.
  - split; [|discriminate]. split; [done|]. intros _. by eexists _, _.
  - split.
    + split; [|discriminate]. by intros (r & w' & [=]).
    + intros _. by exists x.
Qed.

(** X10. The last write wins.  Once a write of a supported format has
    returned, a second write of the same format returns too, and leaves
    the output directory as if it had been the only one: nothing of the
    first frame is left. *)
Theorem medir_gravacao_overwrites (df1 df2 : DataFrame) (fmt : string) (w w1 : World)
    (r1 : float * decimal) :
  In fmt FORMATOS ->
  medir_gravacao df1 fmt w = (Returned r1, w1) ->
  exists top dur w2,
    out_dir w = Some top /\
    medir_gravacao df2 fmt w1 =
      (Returned (dur, round_ratio (artifact_size fmt df2) (1024 * 1024) 1), w2) /\
    out_dir w2 = Some (<[ entry_name fmt := artifact_node fmt df2 ]> top) /\
    out_dir w2 = out_dir (medir_gravacao df2 fmt w).2.
Proof.
  intros Hin Hrun1.
  destruct (medir_gravacao_cases df1 fmt w Hin)
    as [(Hcan & top & present & Hfs & Hrun) | (_ & x & calls & Hrun & _)];
    rewrite Hrun in Hrun1; [|discriminate].
  injection Hrun1 as <- <-.
  match goal with |- context [medir_gravacao df2 fmt ?w1] =>
    destruct (medir_gravacao_cases df2 fmt w1 Hin)
      as [(_ & top' & present' & Hfs' & Hrun2) | (Hcan' & _)]
  end.
  2: { cbn [out_dir] in Hcan'. by rewrite can_write_artifact in Hcan'. }
  cbn [out_dir] in Hfs'. injection Hfs' as <-.
  destruct (medir_gravacao_cases df2 fmt w Hin)
    as [(_ & top'' & present'' & Hfs'' & Hrun3) | (Hcan'' & _)];
    [|by rewrite Hcan in Hcan''].
  rewrite Hfs in Hfs''. injection Hfs'' as <-.
  eexists top, _, _. split; [done|]. split; [exact Hrun2|].
  rewrite Hrun3. simpl. by rewrite insert_insert_eq.
Qed.

(** X11. Round trip through Parquet: after [medir_gravacao(df, "parquet")]
    has returned, the expression [main] loads its sample with,
    [pd.read_parquet(next(PARQUET_DIR.glob("*.parquet")))], finds the
    single partition [part_00000.parquet] and returns [df]. *)
Theorem medir_gravacao_parquet_round_trip (df : DataFrame) (w w1 : World)
    (r : float * decimal) :
  medir_gravacao df "parquet" w = (Returned r, w1) ->
  load_sample w1 =
    (Returned df,
     mkWorld (out_dir w1) (ticks w1)
       (trace w1 ++ [ EvGlob PARQUET_DIR "*.parquet";
                      EvReadParquet (PARQUET_DIR // "part_00000.parquet") ])).
Proof.
  intros Hrun.
  destruct (medir_gravacao_cases df "parquet" w ltac:(by left))
    as [(_ & top & present & Hfs & Hrun') | (_ & x & calls & Hrun' & _)];
    rewrite Hrun' in Hrun; [|discriminate].
  injection Hrun as _ <-. change (entry_name "parquet") with "vendas.parquet".
  change (artifact_node "parquet" df)
    with (Dir {[ "part_00000.parquet" := to_parquet_blob df ]}).
  unfold load_sample, glob, bind, log, get_fs, ret, fs_glob. simpl.
  rewrite lookup_insert_eq, listdir_singleton.
  rewrite filter_cons_True by reflexivity. rewrite filter_nil.
  unfold next, read_parquet, bind, log, get_fs, ret, fs_stat, path_div. simpl.
  rewrite lookup_insert_eq. simpl. rewrite lookup_singleton_eq. simpl.
  rewrite read_to_parquet. by rewrite <- !app_assoc.
Qed.

(** X12. What the queries see after a write: once [medir_gravacao] has
    returned for a supported format, [executar_queries] for that format
    scans the frame just written and nothing else (the single partition,
    the CSV file, or the table [vendas] of the new database), and it
    returns as soon as the engine accepts that relation and the three
    queries over it. *)
Theorem medir_gravacao_then_queries (df : DataFrame) (fmt : string) (w w1 : World)
    (r : float * decimal) :
  In fmt FORMATOS ->
  medir_gravacao df fmt w = (Returned r, w1) ->
  artifact_relation fmt (out_dir w1) = Some (written_relation fmt df) /\
  (setup_ok (written_relation fmt df) = true ->
   (forall item, In item QUERIES -> select_ok (written_relation fmt df) item.2 = true) ->
   exists tempos w2, executar_queries fmt w1 = (Returned tempos, w2)).
Proof.
  intros Hin Hrun.
  destruct (medir_gravacao_cases df fmt w Hin)
    as [(_ & top & present & Hfs & Hrun') | (_ & x & calls & Hrun' & _)];
    rewrite Hrun' in Hrun; [|discriminate].
  injection Hrun as _ <-.
  pose proof (artifact_relation_written fmt df top Hin) as Hrel.
  split; [exact Hrel|]. intros Hset Hsel.
  by apply (executar_queries_ok fmt _ (written_relation fmt df)).
Qed.

(** X13. The size [medir_gravacao] reports for a supported format is
    given with one decimal and lies within 0.05 MB of the size of the
    artifact; of two artifacts, the larger never reports the smaller
    size. *)
Theorem reported_size_accuracy (df : DataFrame) (fmt : string) (w w' : World)
    (dur : float) (size_mb : decimal) :
  In fmt FORMATOS ->
  medir_gravacao df fmt w = (Returned (dur, size_mb), w') ->
  places size_mb = 1 /\
  2 * Z.abs (mantissa size_mb * (1024 * 1024) - 10 * artifact_size fmt df) <= 1024 * 1024 /\
  (forall df2 w2 w2' dur2 size_mb2,
     medir_gravacao df2 fmt w2 = (Returned (dur2, size_mb2), w2') ->
     artifact_size fmt df <= artifact_size fmt df2 ->
     mantissa size_mb <= mantissa size_mb2).
Proof.
  intros Hin Hrun.
  destruct (medir_gravacao_cases df fmt w Hin)
    as [(_ & top & present & Hfs & Hrun') | (_ & x & calls & Hrun' & _)];
    rewrite Hrun' in Hrun; [|discriminate].
  injection Hrun as _ <- _. split; [done|]. split.
  - unfold round_ratio. cbn [mantissa]. change (10 ^ 1) with 10.
    pose proof (round_half_even_error (artifact_size fmt df * 10) (1024 * 1024) ltac:(lia)).
    lia.
  - intros df2 w2 w2' dur2 size_mb2 Hrun2 Hle.
    destruct (medir_gravacao_cases df2 fmt w2 Hin)
      as [(_ & top2 & present2 & Hfs2 & Hrun2') | (_ & x & calls & Hrun2' & _)];
      rewrite Hrun2' in Hrun2; [|discriminate].
    injection Hrun2 as _ <- _. unfold round_ratio. cbn [mantissa].
    apply round_half_even_mono; lia.
Qed.

(** ** Calls and exceptions of a computation *)

Lemma emits_ret {A} Q P (a : A) : emits Q P (ret a).
Proof. intros w. split; [|done]. exists []. by rewrite app_nil_r. Qed.

Lemma emits_raise {A} (Q : event -> Prop) (P : exn -> Prop) (e : exn) :
  P e -> emits Q P (raise e : M A).
Proof.
  intros He w. split; [exists []; by rewrite app_nil_r|].
  unfold raise. simpl. by intros e' [= <-].
Qed.

Lemma emits_out_of_fuel {A} Q P : emits Q P (out_of_fuel : M A).
Proof. intros w. split; [|done]. exists []. by rewrite app_nil_r. Qed.

Lemma emits_log (Q : event -> Prop) P (e : event) : Q e -> emits Q P (log e).
Proof. intros He w. split; [|done]. exists [e]. split; [done|]. by constructor. Qed.

Lemma emits_get_fs Q P : emits Q P get_fs.
Proof. intros w. split; [|done]. exists []. by rewrite app_nil_r. Qed.

Lemma emits_time_time (Q : event -> Prop) P : Q EvTime -> emits Q P time_time.
Proof. intros He w. split; [|done]. exists [EvTime]. split; [done|]. by constructor. Qed.

Lemma emits_update_fs Q (P : exn -> Prop) f :
  (forall fs e, f fs = inl e -> P e) -> emits Q P (update_fs f).
Proof.
  intros Hf w. unfold update_fs. destruct (f (out_dir w)) as [e|fs'] eqn:E; simpl.
  - split; [exists []; by rewrite app_nil_r|]. intros e' [= <-]. eauto.
  - split; [exists []; by rewrite app_nil_r | done].
Qed.

Lemma emits_db_write Q (P : exn -> Prop) p b : P DuckDBError -> emits Q P (db_write p b).
Proof.
  intros He w. unfold db_write. destruct (fs_write p b (out_dir w)) as [e|fs']; simpl.
  - split; [exists []; by rewrite app_nil_r|]. by intros e' [= <-].
  - split; [exists []; by rewrite app_nil_r | done].
Qed.

Lemma emits_bind {A B} Q P (m : M A) (k : A -> M B) :
  emits Q P m -> (forall a, emits Q P (k a)) -> emits Q P (bind m k).
Proof.
  intros Hm Hk w. unfold bind.
  destruct (Hm w) as [(l & Htr & Hl) He].
  destruct (m w) as [[a|e|] w'] eqn:E; simpl in *.
  2: { split; [by exists l|]. intros e0 [= <-]. by apply He. }
  2: { split; [by exists l | done]. }
  destruct (Hk a w') as [(l' & Htr' & Hl') He'].
  split; [|done]. exists (l ++ l'). rewrite Htr', Htr, <- app_assoc.
  split; [done|]. by apply Forall_app.
Qed.

Lemma emits_foldM {A S} Q P (f : S -> A -> M S) (l : list A) :
  (forall s x, emits Q P (f s x)) -> forall s, emits Q P (foldM f s l).
Proof.
  intros Hf. induction l as [|x l IH]; intros s; simpl.
  - apply emits_ret.
  - apply emits_bind; [apply Hf | intros s'; apply IH].
Qed.

Lemma emits_mapM {A B} Q P (f : A -> M B) (l : list A) :
  (forall x, emits Q P (f x)) -> emits Q P (mapM_ f l).
Proof.
  intros Hf. induction l as [|x l IH]; simpl.
  - apply emits_ret.
  - apply emits_bind; [apply Hf | intros y].
    apply emits_bind; [apply IH | intros ys; apply emits_ret].
Qed.

Ltac emit :=
  repeat first
    [ apply emits_ret | apply emits_get_fs | apply emits_out_of_fuel
    | apply emits_raise; done
    | apply emits_time_time; done
    | apply emits_log; done
    | apply emits_update_fs; done
    | apply emits_db_write; done
    | apply emits_bind; [|intros ?]
    | apply emits_mapM; intros ?
    | apply emits_foldM; intros ? ?
    | match goal with
      | |- emits _ _ (if ?b then _ else _) => destruct b
      | |- emits _ _ (match ?x with _ => _ end) => destruct x
      end ].

Ltac emit_unfold :=
  unfold path_exists, is_dir, mkdir, rmtree, unlink, glob, rglob, stat_st_size, to_parquet,
    to_csv, read_parquet, duckdb_connect, con_execute, con_close, fetchall, db_open, next,
    local_var.

(** A computation followed by one last call: the call is in the trace
    exactly when the whole returns. *)
Lemma last_call {A} (Q : event -> Prop) P (m : M A) (ev : A -> event) (w : World) :
  emits Q P m ->
  (forall a, ~ Q (ev a)) ->
  let run := bind m (fun a => log (ev a);; ret a) w in
  (forall a, run.1 = Returned a ->
     exists l, trace run.2 = trace w ++ l ++ [ev a] /\ Forall Q l) /\
  ((forall a, run.1 <> Returned a) ->
     exists l, trace run.2 = trace w ++ l /\ Forall Q l /\ m w = run) /\
  (forall e, run.1 = Raised e -> P e).
Proof.
  intros Hm Hev. unfold bind, log, ret. simpl.
  destruct (Hm w) as [(l & Htr & Hl) He].
  destruct (m w) as [[a|e|] w'] eqn:E; simpl in *.
  - split; [|split; [|done]].
    + intros a' [= <-]. exists l. by rewrite Htr, <- app_assoc.
    + intros Hno. by destruct (Hno a).
  - split; [done|]. split; [|done]. intros _. by exists l.
  - split; [done|]. split; [|done]. intros _. by exists l.
Qed.

(** ** [executar_queries]: failures, the connection, the clock *)

(** The part of [executar_queries] before [con.close()]. *)
Lemma executar_queries_open (fmt : string) (w : World) :
  executar_queries fmt w =
    bind (con ← duckdb_connect None;
          con ←
            (if String.eqb fmt "parquet" then
               con_execute con (CreateViewParquet "vendas" PARQUET_DIR "*.parquet")
             else if String.eqb fmt "csv" then
               con_execute con (CreateViewCsv "vendas" CSV_FILE)
             else
               con ← con_execute con (Attach DUCKDB_FILE "db");
               con_execute con (Use "db"));
          foldM (time_query con) [] QUERIES)
      (fun tempos => log EvClose;; ret tempos) w.
Proof.
  unfold executar_queries, con_close, bind.
  destruct (duckdb_connect None w) as [[con|e|] w1]; [|done..].
  match goal with |- context [(if ?b then ?x else ?y) w1] =>
    destruct ((if b then x else y) w1) as [[con'|e|] w2]; [|done..] end.
  by destruct (foldM (time_query con') [] QUERIES w2) as [[tempos|e|] w3].
Qed.

Lemma emits_time_query (Q : event -> Prop) (P : exn -> Prop) con tempos item :
  Q EvTime -> Q EvFetchall -> (forall s, Q (EvExecute s)) -> P DuckDBError ->
  emits Q P (time_query con tempos item).
Proof.
  intros H1 H2 H3 H4. destruct item as [nome q]. unfold time_query. emit_unfold. emit.
Qed.

Lemma emits_queries_open (Q : event -> Prop) (P : exn -> Prop) (fmt : string) :
  Q EvTime -> Q EvFetchall -> (forall s, Q (EvExecute s)) -> Q (EvConnect None) ->
  P DuckDBError ->
  emits Q P
    (con ← duckdb_connect None;
     con ←
       (if String.eqb fmt "parquet" then
          con_execute con (CreateViewParquet "vendas" PARQUET_DIR "*.parquet")
        else if String.eqb fmt "csv" then
          con_execute con (CreateViewCsv "vendas" CSV_FILE)
        else
          con ← con_execute con (Attach DUCKDB_FILE "db");
          con_execute con (Use "db"));
     foldM (time_query con) [] QUERIES).
Proof.
  intros H1 H2 H3 H4 H5.
  apply emits_bind; [emit_unfold; emit|intros con].
  apply emits_bind; [emit_unfold; emit|intros con'].
  apply emits_foldM. intros. by apply emits_time_query.
Qed.

(** The three latencies, by the clock readings they are taken from. *)
Lemma query_loop_values con w tempos w' :
  foldM (time_query con) [] QUERIES w = (Returned tempos, w') ->
  tempos =
    [ ("vendas_por_loja", duration_at (ticks w));
      ("ticket_medio_cliente", duration_at (2 + ticks w));
      ("produto_top_qtd", duration_at (4 + ticks w)) ].
Proof.
  unfold QUERIES. cbn [foldM]. intros Hrun.
  apply bind_Returned_inv in Hrun as (t1 & w1 & H1 & Hrun).
  apply bind_Returned_inv in Hrun as (t2 & w2 & H2 & Hrun).
  apply bind_Returned_inv in Hrun as (t3 & w3 & H3 & Hrun).
  unfold ret in Hrun. injection Hrun as <- <-.
  apply time_query_Returned in H1 as [-> ->].
  apply time_query_Returned in H2 as [-> ->].
  apply time_query_Returned in H3 as [-> ->].
  reflexivity.
Qed.

Lemma executar_queries_values fmt w tempos w' :
  executar_queries fmt w = (Returned tempos, w') ->
  tempos =
    [ ("vendas_por_loja", duration_at (ticks w));
      ("ticket_medio_cliente", duration_at (2 + ticks w));
      ("produto_top_qtd", duration_at (4 + ticks w)) ].
Proof.
  intros Hrun. pose proof (executar_queries_Returned fmt w tempos w' Hrun) as (_ & Hti & _).
  unfold executar_queries in Hrun.
  apply bind_Returned_inv in Hrun as (con & w1 & Hcon & Hrun).
  apply bind_Returned_inv in Hrun as (con' & w2 & Hset & Hrun).
  apply bind_Returned_inv in Hrun as (t0 & w3 & Hloop & Hrun).
  unfold con_close, bind, log, ret in Hrun. simpl in Hrun. injection Hrun as -> <-.
  pose proof (query_loop_Returned _ _ _ _ _ _ Hloop) as (_ & _ & Hti3 & _).
  simpl in Hti, Hti3. rewrite Hti3 in Hti.
  apply query_loop_values in Hloop. rewrite Hloop.
  by replace (ticks w2) with (ticks w) by lia.
Qed.

Lemma bind_assoc {A B C} (m : M A) (k : A -> M B) (k' : B -> M C) (w : World) :
  bind (bind m k) k' w = bind m (fun a => bind (k a) k') w.
Proof. unfold bind. by destruct (m w) as [[a|e|] w1]. Qed.

Lemma attach_creates (con : connection) (w : World) (top : gmap string node) :
  out_dir w = Some top -> top !! "vendas.duckdb" = None ->
  con_execute con (Attach DUCKDB_FILE "db") w =
    (Returned (set_attached (<[ "db" := DUCKDB_FILE ]> (attached con)) con),
     mkWorld (Some (<[ "vendas.duckdb" := File empty_db ]> top)) (ticks w)
       (trace w ++ [ EvExecute (Attach DUCKDB_FILE "db") ])).
Proof. intros Hfs He. mrun. mdone. Qed.

Lemma queries_after_setup_quiet (con : connection) :
  quiet_on (fun _ => True)
    (tempos ← foldM (time_query con) [] QUERIES; con_close con;; ret tempos).
Proof.
  apply quiet_on_bind; [|intros tempos; unfold con_close; quiet].
  apply quiet_on_foldM. intros. apply quiet_on_time_query.
Qed.

(** X14. [executar_queries] fails with [duckdb.Error] and nothing else,
    and it closes its connection exactly when it returns: [con.close()] is
    the last call of a run that returns, and is never reached by a run that
    raises. *)
Theorem executar_queries_close (fmt : string) (w : World) :
  (forall e, (executar_queries fmt w).1 = Raised e -> e = DuckDBError) /\
  (forall tempos, (executar_queries fmt w).1 = Returned tempos ->
     last (events_of (executar_queries fmt) w) = Some EvClose) /\
  ((forall tempos, (executar_queries fmt w).1 <> Returned tempos) ->
     ~ In EvClose (events_of (executar_queries fmt) w)).
Proof.
  unfold events_of. rewrite !executar_queries_open.
  match goal with |- context [bind ?m _ w] =>
    pose proof (last_call (fun ev => ev <> EvClose) (fun e => e = DuckDBError) m
                  (fun _ => EvClose) w) as Hlast
  end.
  destruct Hlast as (Hret & Hnot & Hexn).
  { by apply emits_queries_open. }
  { intros _ Hne. by apply Hne. }
  split; [exact Hexn|]. split.
  - intros tempos Hrun. destruct (Hret tempos Hrun) as (l & Htr & _).
    rewrite Htr, drop_app_length. by rewrite last_snoc.
  - intros Hno. destruct (Hnot Hno) as (l & Htr & Hl & _).
    rewrite Htr, drop_app_length.
    intros Hin. rewrite List.Forall_forall in Hl. by apply (Hl EvClose Hin).
Qed.

(** X15. Each latency [executar_queries] returns is the rounded
    difference of two successive clock readings, taken right before
    [con.execute(sql)] and right after [.fetchall()]: the setup of the
    session and [con.close()] are not timed, and a run that returns reads
    the clock six times. *)
Theorem executar_queries_durations (fmt : string) (w w' : World)
    (tempos : list (string * float)) :
  executar_queries fmt w = (Returned tempos, w') ->
  tempos =
    [ ("vendas_por_loja", duration_at (ticks w));
      ("ticket_medio_cliente", duration_at (2 + ticks w));
      ("produto_top_qtd", duration_at (4 + ticks w)) ] /\
  ticks w' = (6 + ticks w)%nat /\
  events_of (executar_queries fmt) w =
    setup_calls fmt ++
    flat_map (fun '(_, q) => [ EvTime; EvExecute (Select q); EvFetchall; EvTime ]) QUERIES ++
    [ EvClose ].
Proof.
  intros Hrun. split; [by apply (executar_queries_values fmt w tempos w')|].
  pose proof (executar_queries_Returned fmt w tempos w' Hrun) as (_ & Hti & Htr).
  split; [done|]. apply events_of_app. by rewrite Hrun.
Qed.

(** X16. What [executar_queries] does to the disk.  For parquet and csv
    it never changes the output directory, whatever is stored there and
    whether or not it fails.  Any other format string takes the database
    branch, and there [ATTACH] on a path where nothing is stored creates an
    empty database file, which the call leaves behind. *)
Theorem executar_queries_disk (fmt : string) (w : World) :
  (fmt = "parquet" \/ fmt = "csv" ->
   out_dir (executar_queries fmt w).2 = out_dir w) /\
  (fmt <> "parquet" -> fmt <> "csv" ->
   forall top, out_dir w = Some top -> top !! "vendas.duckdb" = None ->
     out_dir (executar_queries fmt w).2 = Some (<[ "vendas.duckdb" := File empty_db ]> top)).
Proof.
  split.
  - intros Hfmt.
    assert (Hq : quiet_on (fun _ => True) (executar_queries fmt)).
    { unfold executar_queries, duckdb_connect.
      apply quiet_on_bind; [quiet|intros con].
      apply quiet_on_bind; [|intros con'; apply queries_after_setup_quiet].
      destruct Hfmt as [-> | ->]; simpl; unfold con_execute; quiet. }
    by destruct (Hq w I).
  - intros H1 H2 top Hfs He.
    apply String.eqb_neq in H1, H2. unfold executar_queries. rewrite H1, H2.
    erewrite bind_Returned by reflexivity.
    rewrite bind_assoc. erewrite bind_Returned by (by apply attach_creates).
    match goal with |- out_dir (bind ?m ?k ?w2).2 = _ =>
      assert (Hq : quiet_on (fun _ => True) (bind m k))
    end.
    { apply quiet_on_bind; [|intros con'; apply queries_after_setup_quiet].
      unfold con_execute; quiet. }
    match goal with |- out_dir (?k ?w2).2 = _ => by destruct (Hq w2 I) as [-> _] end.
Qed.

(** ** [main]: the records, the notebook, the artifacts *)

Lemma gerar_dados_ticks (fuel : nat) (w : World) : ticks (gerar_dados fuel w).2 = ticks w.
Proof.
  destruct (fs_stat (out_dir w) PARQUET_DIR) as [st|] eqn:Hst.
  - by rewrite gerar_dados_skip by eauto.
  - by rewrite gerar_dados_fresh by done.
Qed.

(** The part of [main] before the notebook is written. *)
Lemma main_open (fuel : nat) (w : World) :
  main fuel w =
    bind (mkdir OUT_DIR false true;;
          gerar_dados fuel;;
          parts ← glob PARQUET_DIR "*.parquet";
          first ← next parts;
          df_sample ← read_parquet first;
          foldM (measure_format df_sample) [] FORMATOS)
      (fun formatos => log (EvWriteNotebook formatos);; ret formatos) w.
Proof.
  unfold main, bind.
  destruct (mkdir OUT_DIR false true w) as [[[]|e|] w1]; [|done..].
  destruct (gerar_dados fuel w1) as [[[]|e|] w2]; [|done..].
  destruct (glob PARQUET_DIR "*.parquet" w2) as [[parts|e|] w3]; [|done..].
  destruct (next parts w3) as [[first|e|] w4]; [|done..].
  destruct (read_parquet first w4) as [[df|e|] w5]; [|done..].
  by destruct (foldM (measure_format df) [] FORMATOS w5) as [[formatos|e|] w6].
Qed.

Lemma emits_gerar_loop (Q : event -> Prop) (P : exn -> Prop) (fuel : nat) :
  (forall df p, Q (EvToParquet df p)) -> (forall e, P e) ->
  forall linhas_rest part g, emits Q P (gerar_loop fuel linhas_rest part g).
Proof.
  intros HQ HP. induction fuel as [|fuel IH]; intros rest part g; simpl.
  - apply emits_out_of_fuel.
  - destruct (0 <? rest); [|apply emits_ret].
    destruct (gen_rows (Z.to_nat (Z.min CHUNK rest)) g) as [rows g'].
    apply emits_bind; [|intros _; apply IH].
    unfold to_parquet. emit.
Qed.

Lemma emits_executar_queries (Q : event -> Prop) (P : exn -> Prop) (fmt : string) :
  Q EvTime -> Q EvFetchall -> (forall s, Q (EvExecute s)) -> Q (EvConnect None) ->
  Q EvClose -> P DuckDBError ->
  emits Q P (executar_queries fmt).
Proof.
  intros H1 H2 H3 H4 H5 H6. unfold executar_queries.
  apply emits_bind; [emit_unfold; emit|intros con].
  apply emits_bind; [emit_unfold; emit|intros con'].
  apply emits_bind; [|intros tempos; emit_unfold; emit].
  apply emits_foldM. intros. by apply emits_time_query.
Qed.

(** Up to the notebook, [main] makes every call but [nbformat.write]. *)
Lemma emits_main_open (fuel : nat) :
  emits (fun ev => forall recs, ev <> EvWriteNotebook recs) (fun _ => True)
    (mkdir OUT_DIR false true;;
     gerar_dados fuel;;
     parts ← glob PARQUET_DIR "*.parquet";
     first ← next parts;
     df_sample ← read_parquet first;
     foldM (measure_format df_sample) [] FORMATOS).
Proof.
  apply emits_bind; [emit_unfold; emit|intros _].
  apply emits_bind; [|intros _].
  { unfold gerar_dados. emit_unfold.
    apply emits_bind; [emit|intros b]. destruct b; [emit|].
    apply emits_bind; [emit|intros _]. by apply emits_gerar_loop. }
  apply emits_bind; [emit_unfold; emit|intros parts].
  apply emits_bind; [emit_unfold; emit|intros first].
  apply emits_bind; [emit_unfold; emit|intros df].
  apply emits_foldM. intros formatos fmt. unfold measure_format.
  apply emits_bind; [|intros [t_write size_mb]].
  { unfold medir_gravacao. emit_unfold. emit. }
  apply emits_bind; [|intros tempos; emit].
  by apply emits_executar_queries.
Qed.

(** One pass of the loop of [main], with the clock readings it uses. *)
Lemma measure_format_record df formatos fmt w formatos' w' :
  In fmt FORMATOS ->
  measure_format df formatos fmt w = (Returned formatos', w') ->
  formatos' = formatos ++
    [ mkMeasurement (upper fmt) (duration_at (ticks w))
        (round_ratio (artifact_size fmt df) (1024 * 1024) 1)
        [ ("vendas_por_loja_s", duration_at (2 + ticks w));
          ("ticket_medio_cliente_s", duration_at (4 + ticks w));
          ("produto_top_qtd_s", duration_at (6 + ticks w)) ] ].
Proof.
  intros Hin Hrun. unfold measure_format in Hrun.
  replace (if negb (String.eqb fmt "parquet") then df else df) with df in Hrun
    by (by destruct (negb _)).
  apply bind_Returned_inv in Hrun as ([t_write size_mb] & w2 & Hwrite & Hrun).
  apply bind_Returned_inv in Hrun as (tempos & w3 & Hquery & Hrun).
  unfold ret in Hrun. injection Hrun as <- <-.
  destruct (medir_gravacao_run df fmt w Hin) as
    [(top & present & Hfs & Hw) | (e & calls & Hw & _)];
    rewrite Hw in Hwrite; [|discriminate].
  injection Hwrite as <- <- <-.
  apply executar_queries_values in Hquery. by rewrite Hquery.
Qed.

(** X17. The records [main] returns are fixed by the sample and by the
    clock: three records, for PARQUET, CSV and DUCKDB in this order, each
    with the write time, the size of the artifact of the sample, and the
    three latencies under the keys [vendas_por_loja_s],
    [ticket_medio_cliente_s] and [produto_top_qtd_s].  A run reads the
    clock 24 times, eight per format, and the twelve durations come from
    twelve disjoint pairs of successive readings. *)
Theorem main_records (fuel : nat) (w w' : World) (recs : list Measurement) :
  main fuel w = (Returned recs, w') ->
  exists df,
    recs =
      [ mkMeasurement "PARQUET" (duration_at (ticks w))
          (round_ratio (st_size (to_parquet_blob df)) (1024 * 1024) 1)
          [ ("vendas_por_loja_s", duration_at (2 + ticks w));
            ("ticket_medio_cliente_s", duration_at (4 + ticks w));
            ("produto_top_qtd_s", duration_at (6 + ticks w)) ];
        mkMeasurement "CSV" (duration_at (8 + ticks w))
          (round_ratio (st_size (to_csv_blob df)) (1024 * 1024) 1)
          [ ("vendas_por_loja_s", duration_at (10 + ticks w));
            ("ticket_medio_cliente_s", duration_at (12 + ticks w));
            ("produto_top_qtd_s", duration_at (14 + ticks w)) ];
        mkMeasurement "DUCKDB" (duration_at (16 + ticks w))
          (round_ratio (st_size (db_blob df)) (1024 * 1024) 1)
          [ ("vendas_por_loja_s", duration_at (18 + ticks w));
            ("ticket_medio_cliente_s", duration_at (20 + ticks w));
            ("produto_top_qtd_s", duration_at (22 + ticks w)) ] ] /\
    ticks w' = (24 + ticks w)%nat.
Proof.
  unfold main. intros Hrun.
  apply bind_Returned_inv in Hrun as ([] & wA & HA & Hrun).
  apply bind_Returned_inv in Hrun as ([] & w1 & H1 & Hrun).
  apply bind_Returned_inv in Hrun as (parts & wg & Hg & Hrun).
  apply bind_Returned_inv in Hrun as (first & wn & Hn & Hrun).
  apply bind_Returned_inv in Hrun as (df & wr & Hr & Hrun).
  apply bind_Returned_inv in Hrun as (formatos & w7 & Hloop & Hrun).
  unfold bind, log, ret in Hrun. simpl in Hrun. injection Hrun as <- <-.
  assert (Hti : ticks wr = ticks w).
  { rewrite mkdir_out_dir in HA. injection HA as <-.
    pose proof (gerar_dados_ticks fuel
                  (mkWorld (Some (default ∅ (out_dir w))) (ticks w)
                     (trace w ++ [EvMkdir OUT_DIR]))) as Ht.
    rewrite H1 in Ht. simpl in Ht.
    unfold glob, bind, log, get_fs, ret in Hg. simpl in Hg. injection Hg as <- <-.
    destruct (fs_glob PARQUET_DIR "*.parquet" (out_dir w1)) as [|p ps]; [discriminate|].
    unfold next, ret in Hn. injection Hn as <- <-.
    unfold read_parquet, bind, log, get_fs, ret in Hr. simpl in Hr.
    destruct (fs_stat (out_dir w1) p) as [[b|]|]; try discriminate.
    destruct (read_parquet_blob b); [|discriminate].
    unfold ret in Hr. by injection Hr as <- <-. }
  cbn [foldM FORMATOS] in Hloop. unfold FORMATOS in Hloop. cbn [foldM] in Hloop.
  apply bind_Returned_inv in Hloop as (f1 & w3 & Hp & Hloop).
  apply bind_Returned_inv in Hloop as (f2 & w5 & Hc & Hloop).
  apply bind_Returned_inv in Hloop as (f3 & w7' & Hd & Hloop).
  unfold ret in Hloop. injection Hloop as <- <-.
  assert (Hin1 : In "parquet" FORMATOS) by (simpl; tauto).
  assert (Hin2 : In "csv" FORMATOS) by (simpl; tauto).
  assert (Hin3 : In "duckdb" FORMATOS) by (simpl; tauto).
  pose proof (measure_format_Returned _ _ _ _ _ _ Hin1 Hp) as (_ & _ & _ & _ & _ & Hti3 & _).
  pose proof (measure_format_Returned _ _ _ _ _ _ Hin2 Hc) as (_ & _ & _ & _ & _ & Hti5 & _).
  pose proof (measure_format_Returned _ _ _ _ _ _ Hin3 Hd) as (_ & _ & _ & _ & _ & Hti7 & _).
  apply measure_format_record in Hp; [|done].
  apply measure_format_record in Hc; [|done].
  apply measure_format_record in Hd; [|done].
  exists df. subst f3 f2 f1. rewrite Hti5, Hti3, Hti. cbn [ticks].
  split; [reflexivity|]. lia.
Qed.

(** X18. [main] writes the notebook exactly when it returns:
    [nbformat.write] is the last call of a run that returns, it is made
    once, with the records the run returns; a run that raises, at any
    step, or is still generating when the fuel is spent, writes no
    notebook. *)
Theorem main_notebook (fuel : nat) (w : World) :
  (forall recs, (main fuel w).1 = Returned recs ->
     exists l,
       events_of (main fuel) w = l ++ [ EvWriteNotebook recs ] /\
       Forall (fun ev => forall recs', ev <> EvWriteNotebook recs') l) /\
  ((forall recs, (main fuel w).1 <> Returned recs) ->
     forall recs, ~ In (EvWriteNotebook recs) (events_of (main fuel) w)).
Proof.
  unfold events_of. rewrite !main_open.
  match goal with |- context [bind ?m _ w] =>
    pose proof (last_call (fun ev => forall recs, ev <> EvWriteNotebook recs) (fun _ => True)
                  m (fun formatos => EvWriteNotebook formatos) w) as Hlast
  end.
  destruct Hlast as (Hret & Hnot & _).
  { apply emits_main_open. }
  { intros formatos Hne. by apply (Hne formatos). }
  split.
  - intros recs Hrun. destruct (Hret recs Hrun) as (l & Htr & Hl).
    exists l. by rewrite Htr, drop_app_length.
  - intros Hno recs. destruct (Hnot Hno) as (l & Htr & Hl & _).
    rewrite Htr, drop_app_length.
    intros Hin. rewrite List.Forall_forall in Hl. by apply (Hl _ Hin recs).
Qed.

(** X19. After a run of [main] that returns, the three artifacts hold one
    and the same frame, the sample: the dataset directory is its single
    partition, the CSV file and the table [vendas] of the database are
    written from it, so that the queries of every format scan the same
    data.  Every other entry of the output directory is what it was
    before the run. *)
Theorem main_artifacts (fuel : nat) (w w' : World) (recs : list Measurement) :
  main fuel w = (Returned recs, w') ->
  exists df,
    dataset (out_dir w') = Some {[ "part_00000.parquet" := to_parquet_blob df ]} /\
    fs_stat (out_dir w') CSV_FILE = Some (IsFile (to_csv_blob df)) /\
    fs_stat (out_dir w') DUCKDB_FILE = Some (IsFile (db_blob df)) /\
    (forall fmt, In fmt FORMATOS ->
       artifact_relation fmt (out_dir w') = Some (written_relation fmt df)) /\
    (forall e, e <> "vendas.parquet" -> e <> "vendas.csv" -> e <> "vendas.duckdb" ->
       default ∅ (out_dir w') !! e = default ∅ (out_dir w) !! e).
Proof.
  intros Hrun.
  apply main_Returned in Hrun
    as (w1 & top1 & m & n & b & df & l & tq1 & tq2 & tq3 &
        Hgen & Htop1 & _ & _ & _ & _ & Hfs & _).
  exists df. rewrite Hfs.
  split. { unfold dataset.
           by rewrite lookup_insert_ne, lookup_insert_ne, lookup_insert_eq by done. }
  split. { unfold fs_stat. simpl. by rewrite lookup_insert_ne, lookup_insert_eq by done. }
  split. { unfold fs_stat. simpl. by rewrite lookup_insert_eq. }
  split.
  - intros fmt [<- | [<- | [<- | []]]];
      unfold artifact_relation, written_relation, fs_stat.
    + change (String.eqb "parquet" "parquet") with true. cbv iota.
      unfold parquet_files. change PARQUET_DIR with ["vendas.parquet"]. cbv iota beta.
      rewrite lookup_insert_ne, lookup_insert_ne, lookup_insert_eq by done.
      rewrite map_filter_id; [done|].
      intros n' b' [<- _]%lookup_singleton_Some. reflexivity.
    + simpl. by rewrite lookup_insert_ne, lookup_insert_eq by done.
    + simpl. by rewrite lookup_insert_eq.
  - intros e He1 He2 He3. simpl. rewrite !lookup_insert_ne by done.
    unfold bind in Hgen. rewrite mkdir_out_dir in Hgen.
    pose proof (gerar_dados_other fuel
                  (mkWorld (Some (default ∅ (out_dir w))) (ticks w)
                     (trace w ++ [EvMkdir OUT_DIR])) e He1) as Hother.
    rewrite Hgen in Hother. simpl in Hother. by rewrite Htop1 in Hother.
Qed.

(** ** The sample [main] loads *)

(** What [PARQUET_DIR.glob(pattern)] yields, by the members of the
    dataset directory. *)
Lemma fs_glob_listed (pattern : string) (fs : option (gmap string node)) :
  fs_glob PARQUET_DIR pattern fs =
    map (path_div PARQUET_DIR)
      (filter (fun n => fnmatch pattern n = true) (listdir (default ∅ (dataset fs)))).
Proof.
  unfold fs_glob, dataset. change PARQUET_DIR with ["vendas.parquet"].
  destruct fs as [top|]; simpl; [|by rewrite listdir_empty].
  destruct (top !! "vendas.parquet") as [[b|m]|]; simpl; by rewrite ?listdir_empty.
Qed.

Lemma load_sample_run (w : World) :
  match filter (fun n => fnmatch "*.parquet" n = true)
          (listdir (default ∅ (dataset (out_dir w)))) with
  | [] =>
    load_sample w =
      (Raised StopIteration,
       mkWorld (out_dir w) (ticks w) (trace w ++ [ EvGlob PARQUET_DIR "*.parquet" ]))
  | n :: _ =>
    exists m b,
      dataset (out_dir w) = Some m /\ m !! n = Some b /\
      load_sample w =
        (match read_parquet_blob b with
         | Some df => Returned df
         | None => Raised (ArrowInvalid (PARQUET_DIR // n))
         end,
         mkWorld (out_dir w) (ticks w)
           (trace w ++ [ EvGlob PARQUET_DIR "*.parquet"; EvReadParquet (PARQUET_DIR // n) ]))
  end.
Proof.
  pose proof (fs_glob_listed "*.parquet" (out_dir w)) as Hg. revert Hg.
  destruct (filter _ (listdir (default ∅ (dataset (out_dir w))))) as [|n ns] eqn:Hl;
    intros Hg; cbn [map] in Hg.
  { unfold load_sample, glob, bind, log, get_fs, ret. cbn [out_dir ticks trace fst snd].
    by rewrite Hg. }
  assert (Hin : n ∈ listdir (default ∅ (dataset (out_dir w)))).
  { assert (Hn : n ∈ n :: ns) by left. rewrite <- Hl in Hn.
    by apply list_elem_of_filter in Hn as [_ Hn]. }
  apply listdir_spec in Hin as [b Hb].
  destruct (dataset (out_dir w)) as [m|] eqn:Hm;
    [|simpl in Hb; by rewrite lookup_empty in Hb].
  simpl in Hb. exists m, b. split; [done|]. split; [done|].
  assert (Hst : fs_stat (out_dir w) (PARQUET_DIR // n) = Some (IsFile b)).
  { unfold dataset in Hm. unfold fs_stat, PARQUET_DIR, OUT_DIR, path_div. simpl.
    destruct (out_dir w) as [top|]; [|done].
    destruct (top !! "vendas.parquet") as [[?|m']|]; try done.
    injection Hm as ->. by rewrite Hb. }
  unfold load_sample, glob, bind, log, get_fs, ret. cbn [out_dir ticks trace fst snd].
  rewrite Hg. unfold next, ret, read_parquet, bind, log, get_fs.
  cbn [out_dir ticks trace fst snd]. rewrite Hst, <- !app_assoc.
  by destruct (read_parquet_blob b).
Qed.

(** X20. The sample of [main], [pd.read_parquet(next(PARQUET_DIR.glob(
    "*.parquet")))], is read from the first member of the dataset directory,
    in the order the host lists it, whose name ends in [.parquet]: not from
    a partition chosen by name.  With no such member the expression raises
    [StopIteration]; when that member is not a Parquet file it raises the
    reader's error; otherwise it returns the frame stored there.  Nothing
    on disk changes. *)
Theorem load_sample_spec (w : World) :
  match filter (fun n => fnmatch "*.parquet" n = true)
          (listdir (default ∅ (dataset (out_dir w)))) with
  | [] =>
    load_sample w =
      (Raised StopIteration,
       mkWorld (out_dir w) (ticks w) (trace w ++ [ EvGlob PARQUET_DIR "*.parquet" ]))
  | n :: _ =>
    exists m b,
      dataset (out_dir w) = Some m /\ m !! n = Some b /\
      load_sample w =
        (match read_parquet_blob b with
         | Some df => Returned df
         | None => Raised (ArrowInvalid (PARQUET_DIR // n))
         end,
         mkWorld (out_dir w) (ticks w)
           (trace w ++ [ EvGlob PARQUET_DIR "*.parquet"; EvReadParquet (PARQUET_DIR // n) ]))
  end.
Proof. exact (load_sample_run w). Qed.


(** ** The queries and the generated rows *)

(** X21. The queries fit the rows [gerar_dados] generates: every row has
    one cell per column label, and each of the three queries reads from
    [vendas], groups by a column that holds text in every generated row and
    aggregates a column that holds a number there. *)
Theorem queries_fit_generated_rows (g : rng) (item : string * query) :
  In item QUERIES ->
  q_from item.2 = "vendas" /\
  length (gen_row g).1 = length COLUMNS /\
  (exists c, field_of COLUMNS (gen_row g).1 (q_group_by item.2) = Some c /\ is_text c = true) /\
  (exists c, field_of COLUMNS (gen_row g).1 (q_arg item.2) = Some c /\ is_number c = true).
Proof.
  intros Hin. unfold gen_row.
  destruct (random_int 1 6 g) as [qtde g1].
  destruct (random_number 4 g1) as [k g2].
  destruct (uuid4 g2) as [id g3].
  destruct (date_this_decade g3) as [data g4].
  destruct (company g4) as [loja g5].
  destruct (random_element PRODUTOS g5) as [produto g6].
  destruct (name g6) as [cliente g7].
  destruct (city g7) as [cidade g8].
  destruct (state_abbr g8) as [estado g9].
  destruct Hin as [<- | [<- | [<- | []]]]; simpl; repeat split; by eexists.
Qed.

(** ** When [main] returns *)

Lemma can_write_other (fmt e : string) (x : node) (top : gmap string node) :
  e <> entry_name fmt ->
  can_write fmt (Some (<[ e := x ]> top)) = can_write fmt (Some top).
Proof. intros Hne. unfold can_write. by rewrite lookup_insert_ne. Qed.

Lemma measure_format_ok df formatos fmt w :
  In fmt FORMATOS ->
  can_write fmt (out_dir w) = true ->
  engine_accepts (written_relation fmt df) ->
  exists formatos' w' top,
    measure_format df formatos fmt w = (Returned formatos', w') /\
    out_dir w = Some top /\
    out_dir w' = Some (<[ entry_name fmt := artifact_node fmt df ]> top).
Proof.
  intros Hin Hcan [Hset Hsel].
  destruct (medir_gravacao_cases df fmt w Hin)
    as [(_ & top & present & Hfs & Hrun) | (Hcan' & _)]; [|congruence].
  match type of Hrun with _ = (_, ?w2) =>
    destruct (executar_queries_ok fmt w2 (written_relation fmt df)) as (tempos & w3 & Hq);
      [by apply artifact_relation_written | done | done |];
    pose proof (executar_queries_quiet fmt w2 (artifact_stored fmt df top Hin)) as [Hfs3 _]
  end.
  rewrite Hq in Hfs3. simpl in Hfs3.
  eexists _, w3, top. split; [|by split].
  unfold measure_format.
  replace (if negb (String.eqb fmt "parquet") then df else df) with df
    by (by destruct (negb _)).
  erewrite bind_Returned by exact Hrun. cbv beta iota.
  erewrite bind_Returned by exact Hq. reflexivity.
Qed.

(** X22. [main] runs to the end.  Started where no dataset is stored,
    with a positive chunk size, at least one row to generate, fuel for the
    loop, paths for the CSV file and the database that are free or hold
    regular files, and an engine that accepts the artifacts of the generated
    chunks, [main] returns its records. *)
Theorem main_returns (fuel : nat) (w : World) :
  fs_stat (out_dir w) PARQUET_DIR = None ->
  0 < CHUNK ->
  0 < N_LINHAS ->
  enough_fuel fuel N_LINHAS ->
  (forall fmt, In fmt FORMATOS -> can_write fmt (Some (default ∅ (out_dir w))) = true) ->
  (forall df fmt, In df (chunks_of fuel N_LINHAS (seed 42)) -> In fmt FORMATOS ->
     engine_accepts (written_relation fmt df)) ->
  exists recs w', main fuel w = (Returned recs, w').
Proof.
  intros Hst Hc Hn Hf Hcan Heng. rewrite main_load_sample.
  erewrite bind_Returned by apply mkdir_out_dir.
  set (wA := mkWorld (Some (default ∅ (out_dir w))) (ticks w) (trace w ++ [EvMkdir OUT_DIR])).
  assert (HstA : fs_stat (out_dir wA) PARQUET_DIR = None).
  { unfold wA. simpl. destruct (out_dir w); [done|]. unfold fs_stat. simpl.
    by rewrite lookup_empty. }
  pose proof (gerar_dados_fresh fuel wA HstA) as HwG.
  pose proof (gerar_dados_fresh_Returned fuel wA HstA Hc Hf) as HoG.
  destruct (gerar_dados fuel wA) as [o wG] eqn:Hgen. simpl in HwG, HoG. subst o.
  erewrite bind_Returned by exact Hgen.
  set (chunks := chunks_of fuel N_LINHAS (seed 42)) in *.
  set (m := write_parts 0 chunks ∅) in *.
  set (top0 := default ∅ (out_dir w)) in *.
  assert (Hds : dataset (out_dir wG) = Some m).
  { rewrite HwG. unfold dataset. simpl. by rewrite lookup_insert_eq. }
  (* the sample *)
  assert (Hne : chunks <> []) by (apply chunks_nonempty; [by destruct Hf | done]).
  pose proof (load_sample_run wG) as Hload. rewrite Hds in Hload.
  change (default ∅ (Some m)) with m in Hload.
  destruct (filter (fun n => fnmatch "*.parquet" n = true) (listdir m)) as [|n ns] eqn:Hl.
  { exfalso. destruct chunks as [|df0 chunks'] eqn:Hch; [done|].
    assert (Hin : part_name 0 ∈ filter (fun n => fnmatch "*.parquet" n = true) (listdir m)).
    { apply list_elem_of_filter. split; [apply part_name_matches|].
      apply listdir_spec. exists (to_parquet_blob df0).
      apply (write_parts_lookup (df0 :: chunks') 0 ∅ 0 df0). done. }
    rewrite Hl in Hin. inversion Hin. }
  destruct Hload as (m' & b & Hm' & Hb & Hload). injection Hm' as <-.
  apply write_parts_Some in Hb as [Hb | (i & df & Hi & -> & ->)];
    [by rewrite lookup_empty in Hb|].
  rewrite read_to_parquet in Hload.
  assert (Hin : In df chunks) by (apply list_elem_of_In; eapply list_elem_of_lookup_2, Hi).
  erewrite bind_Returned by exact Hload.
  (* the three formats *)
  assert (H1 : In "parquet" FORMATOS) by (simpl; tauto).
  assert (H2 : In "csv" FORMATOS) by (simpl; tauto).
  assert (H3 : In "duckdb" FORMATOS) by (simpl; tauto).
  unfold FORMATOS. cbn [foldM].
  match goal with |- context [bind (bind (measure_format df [] "parquet") _) _ ?wL] =>
    destruct (measure_format_ok df [] "parquet" wL H1) as (f1 & w1 & top1 & Hr1 & Ht1 & Hw1)
  end.
  { cbn [out_dir]. rewrite HwG. cbn [out_dir]. unfold can_write.
    by rewrite lookup_insert_eq. }
  { by apply Heng. }
  cbn [out_dir] in Ht1. rewrite HwG in Ht1. cbn [out_dir] in Ht1. injection Ht1 as <-.
  destruct (measure_format_ok df f1 "csv" w1 H2) as (f2 & w2 & top2 & Hr2 & Ht2 & Hw2).
  { rewrite Hw1. rewrite !can_write_other by done. by apply Hcan. }
  { by apply Heng. }
  rewrite Hw1 in Ht2. injection Ht2 as <-.
  destruct (measure_format_ok df f2 "duckdb" w2 H3) as (f3 & w3 & top3 & Hr3 & Ht3 & Hw3).
  { rewrite Hw2. rewrite !can_write_other by done. by apply Hcan. }
  { by apply Heng. }
  rewrite bind_assoc. erewrite bind_Returned by exact Hr1.
  rewrite bind_assoc. erewrite bind_Returned by exact Hr2.
  rewrite bind_assoc. erewrite bind_Returned by exact Hr3.
  unfold bind, ret, log. simpl. by eexists _, _.
Qed.

End Properties.

(** ** The constants of the script *)

Section ScriptConstants.
Context {PF : PyFloat} {FK : Faker}.

(** With the constants of the script, [CHUNK] is positive and divides
    [N_LINHAS], five units of fuel let the loop finish, and the loop builds
    four chunks of 250000 rows each. *)
Lemma source_config_shape :
  let chunks := chunks_of (CF := source_config) 5 (N_LINHAS (Config := source_config))
                  (seed 42) in
  0 < CHUNK (Config := source_config) /\
  (CHUNK (Config := source_config) | N_LINHAS (Config := source_config)) /\
  enough_fuel (CF := source_config) 5 (N_LINHAS (Config := source_config)) /\
  Z.of_nat (length chunks) = 4 /\
  Forall (fun df => Z.of_nat (n_rows df) = 250000) chunks.
Proof.
  intros chunks.
  assert (Hc : 0 < CHUNK (Config := source_config)) by (change (0 < 250000); lia).
  assert (Hdiv : (CHUNK (Config := source_config) | N_LINHAS (Config := source_config)))
    by (exists 4; reflexivity).
  assert (Hf : enough_fuel (CF := source_config) 5 (N_LINHAS (Config := source_config))).
  { change ((1 <= 5)%nat /\ 1000000 <= (Z.of_nat 5 - 1) * 250000). lia. }
  pose proof (chunks_exact (CF := source_config) 5 _ (seed 42) Hc Hdiv) as Hall.
  pose proof (chunks_total (CF := source_config) 5 _ (seed 42) Hc Hf) as Htotal.
  fold chunks in Hall, Htotal.
  rewrite (total_rows_exact chunks _ Hall) in Htotal.
  change (Z.of_nat (length chunks) * 250000 = Z.max 0 1000000) in Htotal.
  split; [exact Hc|]. split; [exact Hdiv|]. split; [exact Hf|].
  split; [lia | exact Hall].
Qed.

End ScriptConstants.

(** * The claims on the sample instance *)

Module Witnesses.
Import Sample.

Lemma gerar_dados_total_invariant_witness :
  In (EvToParquet first_chunk (PARQUET_DIR // "part_00000.parquet"))
     (events_of (gerar_dados (CF := small_config) 10) empty_world) /\
  In first_row (rows first_chunk) /\
  columns first_chunk = COLUMNS /\ total_invariant first_row.
Proof.
  assert (Hev : In (EvToParquet first_chunk (PARQUET_DIR // "part_00000.parquet"))
                   (events_of (gerar_dados (CF := small_config) 10) empty_world)).
  { apply (nth_error_In _ 2). reflexivity. }
  assert (Hr : In first_row (rows first_chunk)) by (left; reflexivity).
  split; [exact Hev|]. split; [exact Hr|].
  exact (gerar_dados_total_invariant (CF := small_config) 10 empty_world first_chunk
           (PARQUET_DIR // "part_00000.parquet") first_row Hev Hr).
Defined.

Lemma main_writes_one_sample_witness :
  main (CF := small_config) 10 empty_world = (Returned benchmark_records, benchmarked_world) /\
  exists w1 m n b df_sample,
    (mkdir OUT_DIR false true;; gerar_dados (CF := small_config) 10) empty_world
      = (Returned tt, w1) /\
    dataset (out_dir w1) = Some m /\
    m !! n = Some b /\
    read_parquet_blob b = Some df_sample /\
    List.filter is_format_write (drop (length (trace w1)) (trace benchmarked_world)) =
      [ EvToParquet df_sample (PARQUET_DIR // "part_00000.parquet");
        EvToCsv df_sample CSV_FILE;
        EvExecute (CreateTableAs "vendas" df_sample) ] /\
    map Formato benchmark_records = [ "PARQUET"; "CSV"; "DUCKDB" ] /\
    map Size_MB benchmark_records =
      [ round_ratio (st_size (to_parquet_blob df_sample)) (1024 * 1024) 1;
        round_ratio (st_size (to_csv_blob df_sample)) (1024 * 1024) 1;
        round_ratio (st_size (db_blob df_sample)) (1024 * 1024) 1 ].
Proof.
  assert (Hrun : main (CF := small_config) 10 empty_world
                 = (Returned benchmark_records, benchmarked_world)) by reflexivity.
  split; [exact Hrun|].
  exact (main_writes_one_sample (CF := small_config) 10 empty_world
           benchmark_records benchmarked_world Hrun).
Defined.

Lemma medir_gravacao_timed_region_witness :
  In "parquet" FORMATOS /\
  exists timed rest,
    events_of (medir_gravacao one_row "parquet") generated_world = EvTime :: timed ++ rest /\
    forallb (is_write_call "parquet") timed = true /\
    existsb is_size_call timed = false /\
    ((exists e, (medir_gravacao one_row "parquet" generated_world).1 = Raised e /\ rest = []) \/
     (exists present size_mb,
        (medir_gravacao one_row "parquet" generated_world).1
          = Returned (duration generated_world, size_mb) /\
        timed = write_calls "parquet" one_row present /\
        rest = EvTime :: size_calls "parquet" /\
        forallb is_size_call (size_calls "parquet") = true)).
Proof.
  assert (Hin : In "parquet" FORMATOS) by (left; reflexivity).
  split; [exact Hin|].
  exact (medir_gravacao_timed_region one_row "parquet" generated_world Hin).
Defined.

Lemma gerar_dados_idempotent_witness :
  is_Some (fs_stat (out_dir generated_world) PARQUET_DIR) /\
  gerar_dados (CF := small_config) 10 empty_world = (Returned tt, generated_world) /\
  gerar_dados (CF := small_config) 10 generated_world = (Returned tt, probed generated_world) /\
  gerar_dados (CF := small_config) 3 generated_world = (Returned tt, probed generated_world) /\
  out_dir (probed generated_world) = out_dir generated_world.
Proof.
  assert (Hst : is_Some (fs_stat (out_dir generated_world) PARQUET_DIR))
    by (exists IsDirectory; reflexivity).
  assert (Hrun : gerar_dados (CF := small_config) 10 empty_world
                 = (Returned tt, generated_world)) by reflexivity.
  split; [exact Hst|]. split; [exact Hrun|].
  split.
  - exact (proj1 (gerar_dados_idempotent (CF := small_config) 10 3 generated_world) Hst).
  - exact (proj2 (gerar_dados_idempotent (CF := small_config) 10 3 empty_world)
             generated_world Hrun).
Defined.

Lemma executar_queries_keys_witness :
  artifact_relation "csv" (out_dir benchmarked_world) = Some benchmarked_csv /\
  exists tempos w',
    executar_queries "csv" benchmarked_world = (Returned tempos, w') /\
    dict_keys tempos = [ "vendas_por_loja"; "ticket_medio_cliente"; "produto_top_qtd" ] /\
    selects (events_of (executar_queries "csv") benchmarked_world) = map snd QUERIES.
Proof.
  assert (Hrel : artifact_relation "csv" (out_dir benchmarked_world) = Some benchmarked_csv)
    by reflexivity.
  assert (Hset : setup_ok benchmarked_csv = true) by reflexivity.
  assert (Hsel : forall item, In item QUERIES -> select_ok benchmarked_csv item.2 = true).
  { intros item [<- | [<- | [<- | []]]]; reflexivity. }
  split; [exact Hrel|].
  destruct (proj2 (executar_queries_keys "csv" benchmarked_world) benchmarked_csv Hrel Hset Hsel)
    as (tempos & w' & Hrun).
  exists tempos, w'. split; [exact Hrun|].
  exact (proj1 (executar_queries_keys "csv" benchmarked_world) tempos w' Hrun).
Defined.

Lemma gerar_dados_partitions_witness :
  exists chunks m w',
    gerar_dados (CF := small_config) 10 empty_world = (Returned tt, w') /\
    events_of (gerar_dados (CF := small_config) 10) empty_world =
      EvExists PARQUET_DIR :: EvMkdir PARQUET_DIR :: part_events 0 chunks /\
    total_rows chunks = 5 /\
    Forall (fun df => 0 < Z.of_nat (n_rows df) <= 2) chunks /\
    dataset (out_dir w') = Some m /\
    size m = length chunks /\
    (forall i df, chunks !! i = Some df -> m !! part_name i = Some (to_parquet_blob df)) /\
    Forall (fun s =>
        Z.of_nat (length (rows_var s)) <= 2 /\
        Z.of_nat (length (default [] (df_var s))) <= 2 /\
        Z.of_nat (rows_held s) <= 2 * 2)
      (loop_locals (CF := small_config) 10 5 (seed 42) 0 (mkLocals [] None)) /\
    (forall s rs,
       In s (loop_locals (CF := small_config) 10 5 (seed 42) 0 (mkLocals [] None)) ->
       df_var s = Some rs -> In (mkDataFrame COLUMNS rs.*2) chunks).
Proof.
  apply (gerar_dados_partitions (CF := small_config) 10 empty_world).
  - reflexivity.
  - change (0 < 2). lia.
  - change (0 <= 5). lia.
  - change ((1 <= 10)%nat /\ 5 <= (Z.of_nat 10 - 1) * 2). lia.
Defined.

(** C6, refuted as stated: with five rows to generate in chunks of two,
    when the second pass has filled its list the variables hold four rows at
    once, the two of the list (ranks 2 and 3) and the two of the frame of
    the first pass (ranks 0 and 1), which is still bound: more than the
    chunk size. *)
Lemma previous_frame_still_held :
  fs_stat (out_dir empty_world) PARQUET_DIR = None /\
  (gerar_dados (CF := small_config) 10 empty_world).1 = Returned tt /\
  CHUNK (Config := small_config) = 2 /\
  In refilled_locals
     (loop_locals (CF := small_config) 10 (N_LINHAS (Config := small_config)) (seed 42) 0
        (mkLocals [] None)) /\
  (rows_var refilled_locals).*1 = [2; 3]%nat /\
  (default [] (df_var refilled_locals)).*1 = [0; 1]%nat /\
  rows_held refilled_locals = 4%nat /\
  ~ Z.of_nat (rows_held refilled_locals) <= CHUNK (Config := small_config).
Proof.
  split; [reflexivity|]. split; [reflexivity|]. split; [reflexivity|].
  split; [apply (nth_error_In _ 6); reflexivity|].
  split; [reflexivity|]. split; [reflexivity|].
  assert (Hheld : rows_held refilled_locals = 4%nat) by reflexivity.
  split; [exact Hheld|]. rewrite Hheld. change (~ 4 <= 2). lia.
Qed.

Lemma medir_gravacao_size_witness :
  In "csv" FORMATOS /\
  medir_gravacao one_row "csv" ready_world = one_row_csv_run /\
  mkDecimal 0 1 = round_ratio (artifact_size "csv" one_row) (1024 * 1024) 1 /\
  0 <= mantissa (mkDecimal 0 1) /\
  (decimal_pos (mkDecimal 0 1) <-> 52429 <= artifact_size "csv" one_row).
Proof.
  assert (Hin : In "csv" FORMATOS) by (right; left; reflexivity).
  assert (Hrun : medir_gravacao one_row "csv" ready_world = one_row_csv_run) by reflexivity.
  split; [exact Hin|]. split; [exact Hrun|].
  exact (medir_gravacao_size one_row "csv" ready_world 250000 (mkDecimal 0 1)
           one_row_csv_run.2 Hin Hrun).
Defined.

(** C7, refuted as stated: a frame of one row written as CSV into an empty
    output directory occupies 163 bytes (a header line and one line of
    data), and the size returned for it is 0.0, which is not greater
    than 0. *)
Lemma small_table_reports_zero_size :
  (0 < n_rows one_row)%nat /\
  rows one_row = (gen_rows 1 (seed 42)).1 /\
  st_size (to_csv_blob one_row) = 163 /\
  (medir_gravacao one_row "csv" ready_world).1 = Returned (250000, mkDecimal 0 1) /\
  ~ decimal_pos (mkDecimal 0 1).
Proof.
  split; [unfold n_rows, one_row; simpl; lia|].
  split; [reflexivity|]. split; [reflexivity|]. split; [reflexivity|].
  unfold decimal_pos. simpl. lia.
Qed.

Lemma executar_queries_read_only_witness :
  is_Some (fs_stat (out_dir benchmarked_world) (artifact_path "duckdb")) /\
  out_dir (executar_queries "duckdb" benchmarked_world).2 = out_dir benchmarked_world.
Proof.
  assert (Hst : is_Some (fs_stat (out_dir benchmarked_world) (artifact_path "duckdb")))
    by (eexists; reflexivity).
  split; [exact Hst|].
  exact (executar_queries_read_only "duckdb" benchmarked_world Hst).
Defined.

Lemma medir_gravacao_unbound_path_witness :
  ~ In "json" FORMATOS /\
  medir_gravacao one_row "json" ready_world =
    (Raised (UnboundLocalError "path"),
     mkWorld (out_dir ready_world) 2 [EvTime; EvTime]) /\
  In "duckdb" FORMATOS /\
  (forall var, (medir_gravacao one_row "duckdb" ready_world).1 <> Raised (UnboundLocalError var)).
Proof.
  assert (Hnot : ~ In "json" FORMATOS).
  { unfold FORMATOS. simpl. intros [H | [H | [H | []]]]; discriminate H. }
  assert (Hin : In "duckdb" FORMATOS) by (right; right; left; reflexivity).
  split; [exact Hnot|].
  split; [exact (proj1 (medir_gravacao_unbound_path one_row "json" ready_world) Hnot)|].
  split; [exact Hin|].
  exact (proj2 (medir_gravacao_unbound_path one_row "duckdb" ready_world) Hin).
Defined.
Lemma main_truncates_dataset_witness :
  main (CF := even_config) 10 empty_world = (Returned even_records, even_world) /\
  exists chunks df_sample,
    events_of (mkdir OUT_DIR false true;; gerar_dados (CF := even_config) 10) empty_world =
      EvMkdir OUT_DIR :: EvExists PARQUET_DIR :: EvMkdir PARQUET_DIR ::
      part_events 0 chunks /\
    total_rows chunks = 6 /\
    In df_sample chunks /\
    Z.of_nat (n_rows df_sample) = 2 /\
    dataset (out_dir even_world) =
      Some {[ "part_00000.parquet" := to_parquet_blob df_sample ]} /\
    (forall fuel',
       gerar_dados (CF := even_config) fuel' even_world = (Returned tt, probed even_world)) /\
    (forall fuel' recs' w2,
       main (CF := even_config) fuel' even_world = (Returned recs', w2) ->
       List.filter is_format_write (events_of (main (CF := even_config) fuel') even_world) =
         map (fun fmt => format_write fmt df_sample) FORMATOS /\
       dataset (out_dir w2) =
         Some {[ "part_00000.parquet" := to_parquet_blob df_sample ]}).
Proof.
  assert (Hst : fs_stat (out_dir empty_world) PARQUET_DIR = None) by reflexivity.
  assert (Hc : 0 < CHUNK (Config := even_config)) by (change (0 < 2); lia).
  assert (Hdiv : (CHUNK (Config := even_config) | N_LINHAS (Config := even_config)))
    by (exists 3; reflexivity).
  assert (Hrun : main (CF := even_config) 10 empty_world = (Returned even_records, even_world))
    by reflexivity.
  split; [exact Hrun|].
  exact (main_truncates_dataset (CF := even_config) 10 empty_world even_records even_world
           Hst Hc Hdiv Hrun).
Defined.


(** ** Further properties on the sample instance *)

Lemma gerar_dados_never_ends_witness :
  fs_stat (out_dir empty_world) PARQUET_DIR = None /\
  (gerar_dados (CF := stuck_config) 3 empty_world).1 = OutOfFuel /\
  exists chunks,
    events_of (gerar_dados (CF := stuck_config) 3) empty_world =
      EvExists PARQUET_DIR :: EvMkdir PARQUET_DIR :: part_events 0 chunks /\
    length chunks = 3%nat /\
    Forall (fun df => n_rows df = 0%nat) chunks.
Proof.
  assert (Hst : fs_stat (out_dir empty_world) PARQUET_DIR = None) by reflexivity.
  assert (Hc : CHUNK (Config := stuck_config) <= 0) by (change (0 <= 0); lia).
  assert (Hn : 0 < N_LINHAS (Config := stuck_config)) by (change (0 < 5); lia).
  split; [exact Hst|].
  exact (gerar_dados_never_ends (CF := stuck_config) empty_world 3 Hst Hc Hn).
Defined.

Lemma main_without_rows_witness :
  main (CF := no_rows_config) 1 empty_world =
    (Raised StopIteration,
     mkWorld (Some (<[ "vendas.parquet" := Dir ∅ ]> (default ∅ (out_dir empty_world)))) 0
       ([] ++ [ EvMkdir OUT_DIR; EvExists PARQUET_DIR; EvMkdir PARQUET_DIR;
                EvGlob PARQUET_DIR "*.parquet" ])).
Proof.
  assert (Hst : fs_stat (out_dir empty_world) PARQUET_DIR = None) by reflexivity.
  assert (Hn : N_LINHAS (Config := no_rows_config) <= 0) by (change (0 <= 0); lia).
  assert (Hf : (1 <= 1)%nat) by lia.
  exact (main_without_rows (CF := no_rows_config) 1 empty_world Hst Hn Hf).
Defined.

Lemma main_without_partition_witness :
  is_Some (fs_stat (out_dir stale_world) PARQUET_DIR) /\
  main (CF := small_config) 10 stale_world =
    (Raised StopIteration,
     mkWorld (out_dir stale_world) 0
       ([] ++ [ EvMkdir OUT_DIR; EvExists PARQUET_DIR; EvGlob PARQUET_DIR "*.parquet" ])).
Proof.
  assert (Hst : is_Some (fs_stat (out_dir stale_world) PARQUET_DIR))
    by (exists IsDirectory; reflexivity).
  assert (Hno : forall m n, dataset (out_dir stale_world) = Some m -> is_Some (m !! n) ->
                            fnmatch "*.parquet" n = false).
  { intros m n Hm [b Hb].
    assert (Hd : dataset (out_dir stale_world) = Some {[ "_SUCCESS" := CsvBlob one_row ]})
      by reflexivity.
    rewrite Hd in Hm. injection Hm as <-.
    apply lookup_singleton_Some in Hb as [<- _]. reflexivity. }
  split; [exact Hst|].
  exact (main_without_partition (CF := small_config) 10 stale_world Hst Hno).
Defined.

Lemma gerar_dados_rows_of_seed_witness :
  concat (map rows (written_frames (events_of (gerar_dados (CF := small_config) 10) empty_world)))
    = (gen_rows 5 (seed 42)).1.
Proof.
  apply (gerar_dados_rows_of_seed (CF := small_config) 10 empty_world).
  - reflexivity.
  - change (0 < 2). lia.
  - change ((1 <= 10)%nat /\ 5 <= (Z.of_nat 10 - 1) * 2). lia.
Defined.

Lemma gerar_dados_row_distribution_witness :
  exists m,
    dataset (out_dir (gerar_dados (CF := small_config) 10 empty_world).2) = Some m /\
    Z.of_nat (size m) = (Z.max 0 5 + 2 - 1) / 2 /\
    (forall i, Z.of_nat i * 2 < 5 ->
       exists df, m !! part_name i = Some (to_parquet_blob df) /\
                  Z.of_nat (n_rows df) = Z.min 2 (5 - Z.of_nat i * 2)) /\
    (forall n, is_Some (m !! n) -> exists i, n = part_name i /\ Z.of_nat i * 2 < 5).
Proof.
  apply (gerar_dados_row_distribution (CF := small_config) 10 empty_world).
  - reflexivity.
  - change (0 < 2). lia.
  - change ((1 <= 10)%nat /\ 5 <= (Z.of_nat 10 - 1) * 2). lia.
Defined.

Lemma generated_partitions_selected_witness :
  exists m,
    dataset (out_dir (gerar_dados (CF := small_config) 10 empty_world).2) = Some m /\
    artifact_relation "parquet" (out_dir (gerar_dados (CF := small_config) 10 empty_world).2)
      = Some (ParquetScan m) /\
    (forall n, In (PARQUET_DIR // n)
                  (fs_glob PARQUET_DIR "*.parquet"
                     (out_dir (gerar_dados (CF := small_config) 10 empty_world).2))
               <-> is_Some (m !! n)).
Proof.
  apply (generated_partitions_selected (CF := small_config) 10 empty_world).
  reflexivity.
Defined.

Lemma gerar_dados_frame_witness :
  "vendas.csv" <> "vendas.parquet" /\
  default ∅ (out_dir (gerar_dados (CF := small_config) 10 benchmarked_world).2) !! "vendas.csv"
    = default ∅ (out_dir benchmarked_world) !! "vendas.csv" /\
  (fs_stat (out_dir benchmarked_world) PARQUET_DIR = None ->
   is_Some (out_dir (gerar_dados (CF := small_config) 10 benchmarked_world).2)) /\
  (forall x, (gerar_dados (CF := small_config) 10 benchmarked_world).1 <> Raised x).
Proof.
  assert (Hne : "vendas.csv" <> "vendas.parquet") by discriminate.
  split; [exact Hne|].
  exact (gerar_dados_frame (CF := small_config) 10 benchmarked_world "vendas.csv" Hne).
Defined.

Lemma medir_gravacao_frame_witness :
  "vendas.parquet" <> entry_name "csv" /\
  default ∅ (out_dir (medir_gravacao one_row "csv" generated_world).2) !! "vendas.parquet"
    = default ∅ (out_dir generated_world) !! "vendas.parquet".
Proof.
  assert (Hne : "vendas.parquet" <> entry_name "csv") by discriminate.
  split; [exact Hne|].
  exact (medir_gravacao_frame one_row "csv" generated_world "vendas.parquet" Hne).
Defined.

Lemma medir_gravacao_returns_iff_witness :
  In "csv" FORMATOS /\
  can_write "csv" (out_dir empty_world) = false /\
  ((exists r w', medir_gravacao one_row "csv" empty_world = (Returned r, w')) <->
   can_write "csv" (out_dir empty_world) = true) /\
  exists e,
    (medir_gravacao one_row "csv" empty_world).1 = Raised e /\
    In e [ FileNotFoundError (artifact_path "csv"); NotADirectoryError (artifact_path "csv");
           IsADirectoryError (artifact_path "csv"); OSError OUT_DIR; DuckDBError ] /\
    out_dir (medir_gravacao one_row "csv" empty_world).2 = out_dir empty_world /\
    ticks (medir_gravacao one_row "csv" empty_world).2 = S (ticks empty_world).
Proof.
  assert (Hin : In "csv" FORMATOS) by (right; left; reflexivity).
  assert (Hcan : can_write "csv" (out_dir empty_world) = false) by reflexivity.
  split; [exact Hin|]. split; [exact Hcan|].
  split.
  - exact (proj1 (medir_gravacao_returns_iff one_row "csv" empty_world Hin)).
  - exact (proj2 (medir_gravacao_returns_iff one_row "csv" empty_world Hin) Hcan).
Defined.

Lemma medir_gravacao_overwrites_witness :
  In "csv" FORMATOS /\
  medir_gravacao one_row "csv" ready_world = one_row_csv_run /\
  exists top dur w2,
    out_dir ready_world = Some top /\
    medir_gravacao first_chunk "csv" one_row_csv_run.2 =
      (Returned (dur, round_ratio (artifact_size "csv" first_chunk) (1024 * 1024) 1), w2) /\
    out_dir w2 = Some (<[ entry_name "csv" := artifact_node "csv" first_chunk ]> top) /\
    out_dir w2 = out_dir (medir_gravacao first_chunk "csv" ready_world).2.
Proof.
  assert (Hin : In "csv" FORMATOS) by (right; left; reflexivity).
  assert (Hrun : medir_gravacao one_row "csv" ready_world = one_row_csv_run) by reflexivity.
  split; [exact Hin|]. split; [exact Hrun|].
  exact (medir_gravacao_overwrites one_row first_chunk "csv" ready_world one_row_csv_run.2
           (250000, mkDecimal 0 1) Hin Hrun).
Defined.

Lemma medir_gravacao_parquet_round_trip_witness :
  medir_gravacao one_row "parquet" ready_world = one_row_parquet_run /\
  load_sample one_row_parquet_run.2 =
    (Returned one_row,
     mkWorld (out_dir one_row_parquet_run.2) (ticks one_row_parquet_run.2)
       (trace one_row_parquet_run.2 ++
          [ EvGlob PARQUET_DIR "*.parquet";
            EvReadParquet (PARQUET_DIR // "part_00000.parquet") ])).
Proof.
  assert (Hrun : medir_gravacao one_row "parquet" ready_world = one_row_parquet_run)
    by reflexivity.
  split; [exact Hrun|].
  exact (medir_gravacao_parquet_round_trip one_row ready_world one_row_parquet_run.2
           (250000, mkDecimal 0 1) Hrun).
Defined.

Lemma medir_gravacao_then_queries_witness :
  In "csv" FORMATOS /\
  medir_gravacao one_row "csv" ready_world = one_row_csv_run /\
  artifact_relation "csv" (out_dir one_row_csv_run.2) = Some (written_relation "csv" one_row) /\
  exists tempos w2, executar_queries "csv" one_row_csv_run.2 = (Returned tempos, w2).
Proof.
  assert (Hin : In "csv" FORMATOS) by (right; left; reflexivity).
  assert (Hrun : medir_gravacao one_row "csv" ready_world = one_row_csv_run) by reflexivity.
  assert (Hset : setup_ok (written_relation "csv" one_row) = true) by reflexivity.
  assert (Hsel : forall item, In item QUERIES ->
                   select_ok (written_relation "csv" one_row) item.2 = true).
  { intros item [<- | [<- | [<- | []]]]; reflexivity. }
  split; [exact Hin|]. split; [exact Hrun|].
  split.
  - exact (proj1 (medir_gravacao_then_queries one_row "csv" ready_world one_row_csv_run.2
                    (250000, mkDecimal 0 1) Hin Hrun)).
  - exact (proj2 (medir_gravacao_then_queries one_row "csv" ready_world one_row_csv_run.2
                    (250000, mkDecimal 0 1) Hin Hrun) Hset Hsel).
Defined.

Lemma reported_size_accuracy_witness :
  In "csv" FORMATOS /\
  medir_gravacao one_row "csv" ready_world = one_row_csv_run /\
  places (mkDecimal 0 1) = 1 /\
  2 * Z.abs (mantissa (mkDecimal 0 1) * (1024 * 1024) - 10 * artifact_size "csv" one_row)
    <= 1024 * 1024 /\
  (forall df2 w2 w2' dur2 size_mb2,
     medir_gravacao df2 "csv" w2 = (Returned (dur2, size_mb2), w2') ->
     artifact_size "csv" one_row <= artifact_size "csv" df2 ->
     mantissa (mkDecimal 0 1) <= mantissa size_mb2).
Proof.
  assert (Hin : In "csv" FORMATOS) by (right; left; reflexivity).
  assert (Hrun : medir_gravacao one_row "csv" ready_world = one_row_csv_run) by reflexivity.
  split; [exact Hin|]. split; [exact Hrun|].
  exact (reported_size_accuracy one_row "csv" ready_world one_row_csv_run.2 250000
           (mkDecimal 0 1) Hin Hrun).
Defined.

Lemma executar_queries_close_witness :
  (executar_queries "csv" ready_world).1 = Raised DuckDBError /\
  ~ In EvClose (events_of (executar_queries "csv") ready_world) /\
  last (events_of (executar_queries "csv") benchmarked_world) = Some EvClose.
Proof.
  assert (Hraise : (executar_queries "csv" ready_world).1 = Raised DuckDBError) by reflexivity.
  assert (Hret : (executar_queries "csv" benchmarked_world).1 = Returned csv_latencies)
    by reflexivity.
  split; [exact Hraise|]. split.
  - apply (proj2 (proj2 (executar_queries_close "csv" ready_world))).
    intros tempos Heq. rewrite Hraise in Heq. discriminate Heq.
  - exact (proj1 (proj2 (executar_queries_close "csv" benchmarked_world)) csv_latencies Hret).
Defined.

Lemma executar_queries_durations_witness :
  executar_queries "csv" benchmarked_world = (Returned csv_latencies, csv_queries_run.2) /\
  csv_latencies =
    [ ("vendas_por_loja", duration_at (ticks benchmarked_world));
      ("ticket_medio_cliente", duration_at (2 + ticks benchmarked_world));
      ("produto_top_qtd", duration_at (4 + ticks benchmarked_world)) ] /\
  ticks csv_queries_run.2 = (6 + ticks benchmarked_world)%nat /\
  events_of (executar_queries "csv") benchmarked_world =
    setup_calls "csv" ++
    flat_map (fun '(_, q) => [ EvTime; EvExecute (Select q); EvFetchall; EvTime ]) QUERIES ++
    [ EvClose ].
Proof.
  assert (Hrun : executar_queries "csv" benchmarked_world
                 = (Returned csv_latencies, csv_queries_run.2)) by reflexivity.
  split; [exact Hrun|].
  exact (executar_queries_durations "csv" benchmarked_world csv_queries_run.2 csv_latencies
           Hrun).
Defined.

Lemma executar_queries_disk_witness :
  out_dir (executar_queries "csv" ready_world).2 = out_dir ready_world /\
  out_dir (executar_queries "duckdb" ready_world).2
    = Some (<[ "vendas.duckdb" := File empty_db ]> ∅).
Proof.
  split.
  - exact (proj1 (executar_queries_disk "csv" ready_world) (or_intror eq_refl)).
  - apply (proj2 (executar_queries_disk "duckdb" ready_world)).
    + discriminate.
    + discriminate.
    + reflexivity.
    + reflexivity.
Defined.

Lemma main_records_witness :
  main (CF := small_config) 10 empty_world = (Returned benchmark_records, benchmarked_world) /\
  exists df,
    benchmark_records =
      [ mkMeasurement "PARQUET" (duration_at (ticks empty_world))
          (round_ratio (st_size (to_parquet_blob df)) (1024 * 1024) 1)
          [ ("vendas_por_loja_s", duration_at (2 + ticks empty_world));
            ("ticket_medio_cliente_s", duration_at (4 + ticks empty_world));
            ("produto_top_qtd_s", duration_at (6 + ticks empty_world)) ];
        mkMeasurement "CSV" (duration_at (8 + ticks empty_world))
          (round_ratio (st_size (to_csv_blob df)) (1024 * 1024) 1)
          [ ("vendas_por_loja_s", duration_at (10 + ticks empty_world));
            ("ticket_medio_cliente_s", duration_at (12 + ticks empty_world));
            ("produto_top_qtd_s", duration_at (14 + ticks empty_world)) ];
        mkMeasurement "DUCKDB" (duration_at (16 + ticks empty_world))
          (round_ratio (st_size (db_blob df)) (1024 * 1024) 1)
          [ ("vendas_por_loja_s", duration_at (18 + ticks empty_world));
            ("ticket_medio_cliente_s", duration_at (20 + ticks empty_world));
            ("produto_top_qtd_s", duration_at (22 + ticks empty_world)) ] ] /\
    ticks benchmarked_world = (24 + ticks empty_world)%nat.
Proof.
  assert (Hrun : main (CF := small_config) 10 empty_world
                 = (Returned benchmark_records, benchmarked_world)) by reflexivity.
  split; [exact Hrun|].
  exact (main_records (CF := small_config) 10 empty_world benchmarked_world benchmark_records
           Hrun).
Defined.

Lemma main_notebook_witness :
  (exists l : list event,
     events_of (main (CF := small_config) 10) empty_world
       = l ++ [ EvWriteNotebook benchmark_records ] /\
     Forall (fun ev => forall recs', ev <> EvWriteNotebook recs') l) /\
  (forall recs,
     ~ In (EvWriteNotebook recs) (events_of (main (CF := small_config) 10) stale_world)).
Proof.
  assert (Hret : (main (CF := small_config) 10 empty_world).1 = Returned benchmark_records)
    by reflexivity.
  assert (Hraise : (main (CF := small_config) 10 stale_world).1 = Raised StopIteration)
    by reflexivity.
  split.
  - exact (proj1 (main_notebook (CF := small_config) 10 empty_world) benchmark_records Hret).
  - apply (proj2 (main_notebook (CF := small_config) 10 stale_world)).
    intros recs Heq. rewrite Hraise in Heq. discriminate Heq.
Defined.

Lemma main_artifacts_witness :
  main (CF := small_config) 10 empty_world = (Returned benchmark_records, benchmarked_world) /\
  exists df,
    dataset (out_dir benchmarked_world)
      = Some {[ "part_00000.parquet" := to_parquet_blob df ]} /\
    fs_stat (out_dir benchmarked_world) CSV_FILE = Some (IsFile (to_csv_blob df)) /\
    fs_stat (out_dir benchmarked_world) DUCKDB_FILE = Some (IsFile (db_blob df)) /\
    (forall fmt, In fmt FORMATOS ->
       artifact_relation fmt (out_dir benchmarked_world) = Some (written_relation fmt df)) /\
    (forall e, e <> "vendas.parquet" -> e <> "vendas.csv" -> e <> "vendas.duckdb" ->
       default ∅ (out_dir benchmarked_world) !! e = default ∅ (out_dir empty_world) !! e).
Proof.
  assert (Hrun : main (CF := small_config) 10 empty_world
                 = (Returned benchmark_records, benchmarked_world)) by reflexivity.
  split; [exact Hrun|].
  exact (main_artifacts (CF := small_config) 10 empty_world benchmarked_world
           benchmark_records Hrun).
Defined.

Lemma load_sample_spec_witness :
  load_sample one_row_parquet_run.2 =
    (Returned one_row,
     mkWorld (out_dir one_row_parquet_run.2) (ticks one_row_parquet_run.2)
       (trace one_row_parquet_run.2 ++
          [ EvGlob PARQUET_DIR "*.parquet";
            EvReadParquet (PARQUET_DIR // "part_00000.parquet") ])) /\
  load_sample stale_world =
    (Raised StopIteration,
     mkWorld (out_dir stale_world) (ticks stale_world)
       (trace stale_world ++ [ EvGlob PARQUET_DIR "*.parquet" ])).
Proof.
  split.
  - pose proof (load_sample_spec one_row_parquet_run.2) as Hspec.
    assert (Hl : filter (fun n => fnmatch "*.parquet" n = true)
                   (listdir (default ∅ (dataset (out_dir one_row_parquet_run.2))))
                 = ["part_00000.parquet"]) by reflexivity.
    rewrite Hl in Hspec. destruct Hspec as (m & b & Hm & Hb & Hrun).
    assert (Hd : dataset (out_dir one_row_parquet_run.2)
                 = Some {[ "part_00000.parquet" := to_parquet_blob one_row ]}) by reflexivity.
    rewrite Hd in Hm. injection Hm as <-.
    rewrite lookup_singleton_eq in Hb. injection Hb as <-.
    exact Hrun.
  - pose proof (load_sample_spec stale_world) as Hspec.
    assert (Hl : filter (fun n => fnmatch "*.parquet" n = true)
                   (listdir (default ∅ (dataset (out_dir stale_world)))) = [])
      by reflexivity.
    rewrite Hl in Hspec. exact Hspec.
Defined.

Lemma queries_fit_generated_rows_witness :
  In ("vendas_por_loja", mkQuery "vendas" "loja" SUM "total" "total_loja" 10) QUERIES /\
  length (gen_row (seed 42)).1 = length COLUMNS /\
  (exists c, field_of COLUMNS (gen_row (seed 42)).1 "loja" = Some c /\ is_text c = true) /\
  (exists c, field_of COLUMNS (gen_row (seed 42)).1 "total" = Some c /\ is_number c = true).
Proof.
  assert (Hin : In ("vendas_por_loja", mkQuery "vendas" "loja" SUM "total" "total_loja" 10)
                   QUERIES) by (left; reflexivity).
  split; [exact Hin|].
  exact (proj2 (queries_fit_generated_rows (seed 42)
                  ("vendas_por_loja", mkQuery "vendas" "loja" SUM "total" "total_loja" 10)
                  Hin)).
Defined.

Lemma main_returns_witness :
  exists recs w', main (CF := small_config) 10 empty_world = (Returned recs, w').
Proof.
  apply (main_returns (CF := small_config) 10 empty_world).
  - reflexivity.
  - change (0 < 2). lia.
  - change (0 < 5). lia.
  - change ((1 <= 10)%nat /\ 5 <= (Z.of_nat 10 - 1) * 2). lia.
  - intros fmt [<- | [<- | [<- | []]]]; reflexivity.
  - intros df fmt Hdf Hfmt. change (In df small_chunks) in Hdf.
    unfold small_chunks in Hdf.
    destruct Hdf as [<- | [<- | [<- | []]]]; destruct Hfmt as [<- | [<- | [<- | []]]];
      (split; [reflexivity | intros item [<- | [<- | [<- | []]]]; reflexivity]).
Defined.

End Witnesses.
